(** * Kerala Bio-Circular Carbon Challenge: the daily dispatch solver and the
      simulation engine

    A shallow embedding of
      - [src/src/data.py]       (DataManager, STP, Farm),
      - [src/src/simulator.py]  (BiosolidSimulator, Action, DailyResult),
      - [src/algorithm_code/corrected_solver.py] (CorrectedSolver),
      - the day loop of [src/algorithm_code/run.py],
    and the properties of the specification proved about it.

    Modelling conventions.
      - Python floats are exact rationals ([Q]); infinities and NaN are
        outside the model.  The literals 0.8, 0.9, 1.37 are the rationals
        8/10, 9/10, 137/100.  Where the rounding of a float operation can
        decide a test, the code is given a second time with every operation
        rounded ([Rounded]); the exact definitions are its instance at the
        identity.
      - A Python exception is a value of [exn]; a function that can raise
        returns a [result].
      - A [dict] is an association list in insertion order with one entry per
        key ([dict_set] keeps it so).
      - A pandas frame with a [date] column is the list of its dates and the
        dict of its other columns; a cell a short column does not have
        reads 0.
      - The great-circle distance of utils.py is a parameter of start-up.
      - The plant store ([dm.stps], the only objects whose attributes are
        assigned after start-up) is passed explicitly: [run_day] returns the
        new [DataManager]; [solve_day] is a reader of the store, which
        [Stateful] justifies: there the solver runs on the store step by
        step and returns it. *)

From Stdlib Require Import QArith Qminmax Qround Lqa Lia ZArith List String Bool.
From Stdlib Require Import Permutation Sorted.
Import ListNotations.
Open Scope Q_scope.

(** ** Python values and exceptions *)

Inductive exn : Type :=
| KeyError (key : string)
| ZeroDivisionError.

Inductive result (A : Type) : Type :=
| Ok (a : A)
| Raise (e : exn).
Arguments Ok {A} a.
Arguments Raise {A} e.

Definition bind {A B : Type} (m : result A) (f : A -> result B) : result B :=
  match m with
  | Ok a => f a
  | Raise e => Raise e
  end.

Notation "x <- m ;; k" := (bind m (fun x => k))
  (at level 61, m at next level, right associativity).
Notation "' pat <- m ;; k" := (bind m (fun x => match x with pat => k end))
  (at level 61, pat pattern, m at next level, right associativity).

(** [a < b] on floats. *)
Definition Qltb (a b : Q) : bool := negb (Qle_bool b a).

(** [max(a, b)]: the first argument unless the second is larger. *)
Definition py_max (a b : Q) : Q := if Qltb a b then b else a.

(** [min(a, b)]: the first argument unless the second is smaller. *)
Definition py_min (a b : Q) : Q := if Qltb b a then b else a.

(** [a / b]: raises ZeroDivisionError on a zero divisor. *)
Definition py_div (a b : Q) : result Q :=
  if Qeq_bool b 0 then Raise ZeroDivisionError else Ok (a / b).

(** [math.ceil(x)]. *)
Definition py_ceil (x : Q) : Q := inject_Z (Qceiling x).

(** [sum(l)]. *)
Definition py_sum (l : list Q) : Q := fold_left Qplus l 0.

(** ** Dictionaries *)

Definition dict (V : Type) : Type := list (string * V).

Fixpoint dict_get {V : Type} (d : dict V) (k : string) : option V :=
  match d with
  | [] => None
  | (k', v) :: d' => if String.eqb k' k then Some v else dict_get d' k
  end.

(** [d[k]] *)
Definition dict_index {V : Type} (d : dict V) (k : string) : result V :=
  match dict_get d k with
  | Some v => Ok v
  | None => Raise (KeyError k)
  end.

(** [d.get(k, dflt)] *)
Definition dict_get_default {V : Type} (d : dict V) (k : string) (dflt : V) : V :=
  match dict_get d k with
  | Some v => v
  | None => dflt
  end.

(** [d[k] = v]: overwrites in place, or appends a new key at the end. *)
Fixpoint dict_set {V : Type} (d : dict V) (k : string) (v : V) : dict V :=
  match d with
  | [] => [(k, v)]
  | (k', v') :: d' =>
      if String.eqb k' k then (k', v) :: d' else (k', v') :: dict_set d' k v
  end.

Definition keys {V : Type} (d : dict V) : list string := map fst d.
Definition values {V : Type} (d : dict V) : list V := map snd d.

(** [k in s] for the visited set. *)
Definition mem (k : string) (s : list string) : bool :=
  existsb (String.eqb k) s.

(** ** data.py *)

Record Farm : Type := mkFarm {
  farm_ident : string;
  zone : string;
  area_ha : Q;
  farm_lat : Q;
  farm_lon : Q;
  distances : dict Q
}.

Record STP : Type := mkSTP {
  stp_ident : string;
  daily_output : Q;
  max_storage : Q;
  stp_lat : Q;
  stp_lon : Q;
  current_storage : Q
}.

(** The constants of config.json that the simulator reads. *)
Record Config : Type := mkConfig {
  truck_capacity_tons : Q;
  diesel_emission_factor_kg_co2_per_km : Q;
  nitrogen_content_kg_per_ton_biosolid : Q;
  synthetic_n_offset_credit_kg_co2_per_kg_n : Q;
  soil_organic_carbon_gain_kg_co2_per_kg_biosolid : Q;
  leaching_penalty_kg_co2_per_kg_excess_n : Q;
  application_buffer_percent : Q;
  rain_lock_threshold_mm : Q;
  stp_overflow_penalty_kg_co2_per_ton : Q;
  forecast_window_days : nat;
  haversine_earth_radius_km : Q
}.

(** A frame read from a CSV file with a [date] column: the dates, and the
    other columns by name.  The [date] column is no entry of [df_cols], so
    indexing the frame with the name "date" is outside the model. *)
Record DataFrame : Type := mkDataFrame {
  df_date : list string;
  df_cols : dict (list Q)
}.

Record DataManager : Type := mkDataManager {
  config : Config;
  stps : dict STP;
  farms : dict Farm;
  weather_df : DataFrame;
  n_demand_df : DataFrame
}.

(** The rows of stp_registry.csv and farm_locations.csv. *)
Record StpRow : Type := mkStpRow {
  row_stp_id : string;
  daily_output_tons : Q;
  storage_max_tons : Q;
  row_stp_lat : Q;
  row_stp_lon : Q
}.

Record FarmRow : Type := mkFarmRow {
  row_farm_id : string;
  row_zone : string;
  row_area_ha : Q;
  row_farm_lat : Q;
  row_farm_lon : Q
}.

(** [DataManager.__init__] and [_initialize_objects] (lines 29-73).  The
    great-circle distance of utils.py is built from sines, cosines and a
    square root of floats; the model takes it as a function
    [haversine_distance lat1 lon1 lat2 lon2 earth_radius_km]. *)
Section Initialize.
Variable haversine_distance : Q -> Q -> Q -> Q -> Q -> Q.

Definition initialize_stps (stp_df : list StpRow) : dict STP :=
  fold_left
    (fun stps row =>
       dict_set stps (row_stp_id row)
         (mkSTP (row_stp_id row) (daily_output_tons row) (storage_max_tons row)
                (row_stp_lat row) (row_stp_lon row) 0))
    stp_df [].

(** Lines 69-71: the distances of a farm at [(lat, lon)] to every plant. *)
Definition initialize_distances (radius : Q) (stps : dict STP) (lat lon : Q) : dict Q :=
  fold_left
    (fun distances item =>
       dict_set distances (fst item)
         (haversine_distance (stp_lat (snd item)) (stp_lon (snd item)) lat lon radius))
    stps [].

Definition initialize_farms (radius : Q) (stps : dict STP) (farm_df : list FarmRow)
    : dict Farm :=
  fold_left
    (fun farms row =>
       dict_set farms (row_farm_id row)
         (mkFarm (row_farm_id row) (row_zone row) (row_area_ha row)
                 (row_farm_lat row) (row_farm_lon row)
                 (initialize_distances radius stps (row_farm_lat row)
                    (row_farm_lon row))))
    farm_df [].

Definition initialize (cfg : Config) (stp_df : list StpRow) (farm_df : list FarmRow)
    (weather n_demand : DataFrame) : DataManager :=
  let stps := initialize_stps stp_df in
  mkDataManager cfg stps
    (initialize_farms (haversine_earth_radius_km cfg) stps farm_df)
    weather n_demand.
End Initialize.

(** Position of the first row whose date is [date]:
    [df[df['date'] == date].index[0]]. *)
Fixpoint index_of (date : string) (l : list string) : option nat :=
  match l with
  | [] => None
  | d :: l' =>
      if String.eqb d date then Some O
      else match index_of date l' with
           | Some i => Some (S i)
           | None => None
           end
  end.

Definition get_weather_forecast (dm : DataManager) (date zone : string)
    (lookahead_days : nat) : result (list Q) :=
  match index_of date (df_date (weather_df dm)) with
  | Some start_idx =>
      col <- dict_index (df_cols (weather_df dm)) zone ;;
      let rainfall := firstn lookahead_days (skipn start_idx col) in
      Ok (rainfall ++ repeat 0 (lookahead_days - List.length rainfall))
  | None => Ok (repeat 0 lookahead_days)
  end.

Definition get_daily_demand_per_ha (dm : DataManager) (date : string) : dict Q :=
  match index_of date (df_date (n_demand_df dm)) with
  | Some i => map (fun c => (fst c, nth i (snd c) 0)) (df_cols (n_demand_df dm))
  | None => []
  end.

(** ** simulator.py *)

Record Action : Type := mkAction {
  stp_id : string;
  farm_id : string;
  amount_tons : Q
}.

Record DailyResult : Type := mkDailyResult {
  date_of : string;
  credits : Q;
  emissions : Q;
  penalties : Q;
  net_score : Q;
  delivered_tons : Q;
  overflow_tons : Q;
  banned_actions : nat
}.

(** Python's stable [sorted(l, key=key, reverse=True)]: descending by key,
    equal keys in their original order. *)
Section Sorting.
Context {A : Type}.
Variable key : A -> Q.

Fixpoint insert_desc (x : A) (l : list A) : list A :=
  match l with
  | [] => [x]
  | y :: l' => if Qltb (key x) (key y) then y :: insert_desc x l' else x :: y :: l'
  end.

Definition sorted_desc (l : list A) : list A := fold_right insert_desc [] l.

(** [a] may stand before [b] in a list sorted by descending key. *)
Definition desc (a b : A) : Prop := key b <= key a.
End Sorting.

(** A loop whose body can raise. *)
Fixpoint foldM {A B : Type} (f : A -> B -> result A) (l : list B) (a : A) : result A :=
  match l with
  | [] => Ok a
  | b :: l' => a' <- f a b ;; foldM f l' a'
  end.

Module BiosolidSimulator.

(** The constants [__init__] copies out of the config. *)
Definition truck_capacity (dm : DataManager) : Q := truck_capacity_tons (config dm).
Definition emission_factor (dm : DataManager) : Q :=
  diesel_emission_factor_kg_co2_per_km (config dm).
Definition n_content (dm : DataManager) : Q :=
  nitrogen_content_kg_per_ton_biosolid (config dm).
Definition synthetic_credit (dm : DataManager) : Q :=
  synthetic_n_offset_credit_kg_co2_per_kg_n (config dm).
Definition soil_credit (dm : DataManager) : Q :=
  soil_organic_carbon_gain_kg_co2_per_kg_biosolid (config dm).
Definition leaching_penalty (dm : DataManager) : Q :=
  leaching_penalty_kg_co2_per_kg_excess_n (config dm).
Definition buffer_percent (dm : DataManager) : Q :=
  application_buffer_percent (config dm) / 100.
Definition rain_threshold (dm : DataManager) : Q := rain_lock_threshold_mm (config dm).
Definition overflow_penalty (dm : DataManager) : Q :=
  stp_overflow_penalty_kg_co2_per_ton (config dm).
Definition forecast_window (dm : DataManager) : nat := forecast_window_days (config dm).

Definition is_rain_locked (dm : DataManager) (date zone : string) : result bool :=
  forecast <- get_weather_forecast dm date zone (forecast_window dm) ;;
  Ok (Qltb (rain_threshold dm) (py_sum forecast)).

(** The local variables of [run_day]. *)
Record Tally : Type := mkTally {
  daily_credits : Q;
  daily_emissions : Q;
  daily_penalties : Q;
  daily_delivered : Q;
  daily_overflow : Q;
  banned_count : nat;
  farm_deliveries : dict Q;
  stp_dispatches : dict Q
}.

Definition tally0 : Tally := mkTally 0 0 0 0 0 O [] [].

(** Body of the loop over the actions (lines 72-114). *)
Definition process_action (dm : DataManager) (date : string) (t : Tally)
    (action : Action) : result Tally :=
  farm <- dict_index (farms dm) (farm_id action) ;;
  stp <- dict_index (stps dm) (stp_id action) ;;
  locked <- is_rain_locked dm date (zone farm) ;;
  if locked then
    distance <- dict_index (distances farm) (stp_id action) ;;
    load <- py_div (amount_tons action) (truck_capacity dm) ;;
    let trucks_needed := py_ceil load in
    Ok (mkTally
          (daily_credits t)
          (daily_emissions t + (distance * trucks_needed) * emission_factor dm)
          (daily_penalties t + amount_tons action * overflow_penalty dm)
          (daily_delivered t)
          (daily_overflow t)
          (S (banned_count t))
          (farm_deliveries t)
          (dict_set (stp_dispatches t) (stp_id action)
             (dict_get_default (stp_dispatches t) (stp_id action) 0 + amount_tons action)))
  else
    distance <- dict_index (distances farm) (stp_id action) ;;
    load <- py_div (amount_tons action) (truck_capacity dm) ;;
    let trucks_needed := py_ceil load in
    Ok (mkTally
          (daily_credits t)
          (daily_emissions t + (distance * trucks_needed) * emission_factor dm)
          (daily_penalties t)
          (daily_delivered t + amount_tons action)
          (daily_overflow t)
          (banned_count t)
          (dict_set (farm_deliveries t) (farm_id action)
             (dict_get_default (farm_deliveries t) (farm_id action) 0 + amount_tons action))
          (dict_set (stp_dispatches t) (stp_id action)
             (dict_get_default (stp_dispatches t) (stp_id action) 0 + amount_tons action))).

(** Body of the loop over [farm_deliveries.items()] (lines 119-143). *)
Definition process_farm (dm : DataManager) (per_ha_demands : dict Q) (t : Tally)
    (item : string * Q) : result Tally :=
  let farm_id := fst item in
  let delivered_tons := snd item in
  farm <- dict_index (farms dm) farm_id ;;
  let n_delivered_kg := delivered_tons * n_content dm in
  let demand_per_ha := dict_get_default per_ha_demands farm_id 0 in
  let total_demand_kg := demand_per_ha * area_ha farm in
  let uptake_kg := py_min n_delivered_kg total_demand_kg in
  let max_safe_n := total_demand_kg * (1 + buffer_percent dm) in
  Ok (mkTally
        (daily_credits t + uptake_kg * synthetic_credit dm
           + (delivered_tons * 1000) * soil_credit dm)
        (daily_emissions t)
        (if Qltb max_safe_n n_delivered_kg
         then daily_penalties t + (n_delivered_kg - max_safe_n) * leaching_penalty dm
         else daily_penalties t)
        (daily_delivered t)
        (daily_overflow t)
        (banned_count t)
        (farm_deliveries t)
        (stp_dispatches t)).

Definition set_current_storage (stp : STP) (v : Q) : STP :=
  mkSTP (stp_ident stp) (daily_output stp) (max_storage stp) (stp_lat stp)
        (stp_lon stp) v.

(** Body of the loop over [self.dm.stps.items()] (lines 146-175): the new
    tally and the plant after the assignment to its [current_storage]. *)
Definition process_stp (dm : DataManager) (t : Tally) (item : string * STP)
    : Tally * (string * STP) :=
  let stp_id := fst item in
  let stp := snd item in
  let available_tons := current_storage stp + daily_output stp in
  let attempted_dispatch := dict_get_default (stp_dispatches t) stp_id 0 in
  let stp1 := set_current_storage stp (py_max 0 (available_tons - attempted_dispatch)) in
  if Qltb (max_storage stp1) (current_storage stp1) then
    let excess := current_storage stp1 - max_storage stp1 in
    (mkTally (daily_credits t) (daily_emissions t)
       (daily_penalties t + excess * overflow_penalty dm)
       (daily_delivered t) (daily_overflow t + excess) (banned_count t)
       (farm_deliveries t) (stp_dispatches t),
     (stp_id, set_current_storage stp1 (max_storage stp1)))
  else (t, (stp_id, stp1)).

Fixpoint process_stps (dm : DataManager) (t : Tally) (items : dict STP)
    : Tally * dict STP :=
  match items with
  | [] => (t, [])
  | item :: items' =>
      let '(t1, item1) := process_stp dm t item in
      let '(t2, items2) := process_stps dm t1 items' in
      (t2, item1 :: items2)
  end.

Definition set_stps (dm : DataManager) (s : dict STP) : DataManager :=
  mkDataManager (config dm) s (farms dm) (weather_df dm) (n_demand_df dm).

(** [run_day]: the day's result and the store after the day.  Every
    statement that can raise comes before the first assignment to a plant,
    so a raised exception leaves the store as it was. *)
Definition run_day (dm : DataManager) (date : string) (actions : list Action)
    : result (DailyResult * DataManager) :=
  t1 <- foldM (process_action dm date) actions tally0 ;;
  let per_ha_demands := get_daily_demand_per_ha dm date in
  t2 <- foldM (process_farm dm per_ha_demands) (farm_deliveries t1) t1 ;;
  let '(t3, stps3) := process_stps dm t2 (stps dm) in
  Ok (mkDailyResult date
        (daily_credits t3)
        (daily_emissions t3)
        (daily_penalties t3)
        (daily_credits t3 - daily_emissions t3 - daily_penalties t3)
        (daily_delivered t3)
        (daily_overflow t3)
        (banned_count t3),
      set_stps dm stps3).

End BiosolidSimulator.

(** ** corrected_solver.py *)

Module CorrectedSolver.

Definition soil_credit : Q := 200.
Definition transport_cost_per_km : Q := 9 # 10.
Definition leaching_penalty : Q := - (50).
Definition overflow_penalty : Q := - (1000).
Definition max_distance_for_delivery : Q :=
  (soil_credit - leaching_penalty) / transport_cost_per_km.

(** An entry of [delivery_options]:
    [(net_carbon_impact, dist, farm_id, load_tons)]. *)
Definition DeliveryOption : Type := (Q * Q * string * Q)%type.

(** The sort key [lambda x: x[0]]. *)
Definition net_benefit_of (o : DeliveryOption) : Q := fst (fst (fst o)).
Definition farm_of (o : DeliveryOption) : string := snd (fst o).
Definition load_of (o : DeliveryOption) : Q := snd o.

(** The triage key
    [s.current_storage / s.max_storage if s.max_storage > 0 else 0]. *)
Definition triage_key (s : STP) : Q :=
  if Qltb 0 (max_storage s) then current_storage s / max_storage s else 0.

(** Lines 76-109: the route from [stp] to [farm] and its Net Carbon Impact. *)
Definition score_option (dm : DataManager) (per_ha_demands : dict Q) (stp : STP)
    (available : Q) (farm_id : string) (farm : Farm) : result DeliveryOption :=
  dist <- dict_index (distances farm) (stp_ident stp) ;;
  let demand_kg_ha := dict_get_default per_ha_demands farm_id 0 in
  let total_n_demand := demand_kg_ha * area_ha farm in
  let load_tons := py_min available 10 in
  let soil_benefit := load_tons * (137 # 100) * soil_credit in
  let load_n_kg := load_tons * BiosolidSimulator.n_content dm in
  let useful_n_kg := py_min load_n_kg total_n_demand in
  let n_offset_benefit := useful_n_kg * 5 in
  let trucks := py_ceil (load_tons / 10) in
  let transport_cost := dist * transport_cost_per_km * trucks in
  let max_safe_n := total_n_demand * (1 + BiosolidSimulator.buffer_percent dm) in
  let excess_n_kg := py_max 0 (load_n_kg - max_safe_n) in
  let leaching_cost := excess_n_kg * 10 in
  let net_carbon_impact :=
    soil_benefit + n_offset_benefit - transport_cost - leaching_cost in
  Ok (net_carbon_impact, dist, farm_id, load_tons).

(** Lines 70-109: the loop over [self.dm.farms.items()]. *)
Fixpoint delivery_options (dm : DataManager) (date : string)
    (per_ha_demands : dict Q) (stp : STP) (available : Q)
    (visited_farms : list string) (items : dict Farm)
    : result (list DeliveryOption) :=
  match items with
  | [] => Ok []
  | (farm_id, farm) :: items' =>
      if mem farm_id visited_farms then
        delivery_options dm date per_ha_demands stp available visited_farms items'
      else
        locked <- BiosolidSimulator.is_rain_locked dm date (zone farm) ;;
        if locked then
          delivery_options dm date per_ha_demands stp available visited_farms items'
        else
          o <- score_option dm per_ha_demands stp available farm_id farm ;;
          rest <- delivery_options dm date per_ha_demands stp available
                    visited_farms items' ;;
          Ok (o :: rest)
  end.

(** Lines 115-130: the walk over the sorted options.  The state is
    [(available, actions, visited_farms)]. *)
Fixpoint dispatch (stp : STP) (options : list DeliveryOption) (available : Q)
    (actions : list Action) (visited_farms : list string)
    : result (Q * list Action * list string) :=
  match options with
  | [] => Ok (available, actions, visited_farms)
  | (net_benefit, dist, farm_id, load_tons) :: rest =>
      if Qltb available 1 then Ok (available, actions, visited_farms)
      else
        fill_ratio <- py_div (current_storage stp) (max_storage stp) ;;
        if Qltb 0 net_benefit || Qltb (8 # 10) fill_ratio then
          let amount := py_min available load_tons in
          dispatch stp rest (available - amount)
            (actions ++ [mkAction (stp_ident stp) farm_id amount])
            (farm_id :: visited_farms)
        else Ok (available, actions, visited_farms)
  end.

(** Lines 62-130: the body of the loop over [sorted_stps]. *)
Definition solve_stp (dm : DataManager) (date : string) (per_ha_demands : dict Q)
    (st : list Action * list string) (stp : STP)
    : result (list Action * list string) :=
  let available := current_storage stp + daily_output stp in
  if Qltb available 1 then Ok st
  else
    options <- delivery_options dm date per_ha_demands stp available (snd st)
                 (farms dm) ;;
    r <- dispatch stp (sorted_desc net_benefit_of options) available
           (fst st) (snd st) ;;
    Ok (snd (fst r), snd r).

Definition sorted_stps (dm : DataManager) : list STP :=
  sorted_desc triage_key (values (stps dm)).

Definition solve_day (dm : DataManager) (date : string) : result (list Action) :=
  let per_ha_demands := get_daily_demand_per_ha dm date in
  r <- foldM (solve_stp dm date per_ha_demands) (sorted_stps dm) ([], []) ;;
  Ok (fst r).

End CorrectedSolver.

(** ** run.py: the day loop (lines 51-60) *)

Definition simulate_day (st : dict (list Action) * DataManager) (date_str : string)
    : result (dict (list Action) * DataManager) :=
  actions <- CorrectedSolver.solve_day (snd st) date_str ;;
  r <- BiosolidSimulator.run_day (snd st) date_str actions ;;
  Ok (dict_set (fst st) date_str actions, snd r).

Definition run_simulation (dm : DataManager) (dates : list string)
    : result (dict (list Action) * DataManager) :=
  foldM simulate_day dates ([], dm).

(** ** Binary floating point

    The definitions above compute on exact rationals.  Two tests of the code
    sit on a boundary where the rounding of float arithmetic decides:
    [sum(forecast) > self.rain_threshold] in [is_rain_locked] and
    [net_benefit > 0] in the acceptance walk of [solve_day].  The definitions
    of [Rounded] are the same lines of the source with the result of every
    float operation passed through [rnd].  With the identity for [rnd] they
    are the exact definitions above; with [binary64] they are CPython's
    floats, for data that are doubles and operations that do not overflow.
    Comparisons, [min], [max] and [math.ceil] are exact on floats; a literal
    that is no double (0.8, 0.9, 1.37) is rounded where it is read. *)

(** [num / den] rounded to the nearest integer, a tie to the even one. *)
Definition round_half_even (num den : Z) : Z :=
  let m := (num / den)%Z in
  let r := (num mod den)%Z in
  if (2 * r <? den)%Z then m
  else if (den <? 2 * r)%Z then (m + 1)%Z
  else if Z.even m then m else (m + 1)%Z.

(** The double nearest to [q] (53 significant bits, ties to even, gradual
    underflow); [q] is taken to lie within the range of the finite doubles. *)
Definition binary64 (q : Q) : Q :=
  let n := Z.abs (Qnum q) in
  let d := Zpos (Qden q) in
  if (n =? 0)%Z then 0
  else
    let e0 := (Z.log2 n - Z.log2 d)%Z in
    let e1 := if (0 <=? e0)%Z
              then (if (d * 2 ^ e0 <=? n)%Z then e0 else e0 - 1)%Z
              else (if (d <=? n * 2 ^ (- e0))%Z then e0 else e0 - 1)%Z in
    let e := Z.max (e1 - 52) (-1074) in
    let m := if (0 <=? e)%Z then round_half_even n (d * 2 ^ e)
             else round_half_even (n * 2 ^ (- e)) d in
    let v := if (0 <=? e)%Z then inject_Z (m * 2 ^ e)
             else Qred (m # Z.to_pos (2 ^ (- e))) in
    if (Qnum q <? 0)%Z then - v else v.

Module Rounded.
Section Arithmetic.

(** The rounding of one float operation. *)
Variable rnd : Q -> Q.

(** [sum(l)] on floats: from the integer 0, left to right, every partial sum
    rounded (the loop of CPython's [sum] up to version 3.11; later versions
    carry a compensation term as well). *)
Definition py_sum (l : list Q) : Q := fold_left (fun acc x => rnd (acc + x)) l 0.

(** simulator.py, line 35. *)
Definition buffer_percent (dm : DataManager) : Q :=
  rnd (application_buffer_percent (config dm) / 100).

(** simulator.py, lines 40-47. *)
Definition is_rain_locked (dm : DataManager) (date zone : string) : result bool :=
  forecast <- get_weather_forecast dm date zone (BiosolidSimulator.forecast_window dm) ;;
  Ok (Qltb (BiosolidSimulator.rain_threshold dm) (py_sum forecast)).

(** corrected_solver.py, line 38. *)
Definition transport_cost_per_km : Q := rnd (9 # 10).

(** corrected_solver.py, line 58. *)
Definition triage_key (s : STP) : Q :=
  if Qltb 0 (max_storage s) then rnd (current_storage s / max_storage s) else 0.

(** corrected_solver.py, lines 76-109. *)
Definition score_option (dm : DataManager) (per_ha_demands : dict Q) (stp : STP)
    (available : Q) (farm_id : string) (farm : Farm)
    : result CorrectedSolver.DeliveryOption :=
  dist <- dict_index (distances farm) (stp_ident stp) ;;
  let demand_kg_ha := dict_get_default per_ha_demands farm_id 0 in
  let total_n_demand := rnd (demand_kg_ha * area_ha farm) in
  let load_tons := py_min available 10 in
  let soil_benefit :=
    rnd (rnd (load_tons * rnd (137 # 100)) * CorrectedSolver.soil_credit) in
  let load_n_kg := rnd (load_tons * BiosolidSimulator.n_content dm) in
  let useful_n_kg := py_min load_n_kg total_n_demand in
  let n_offset_benefit := rnd (useful_n_kg * 5) in
  let trucks := py_ceil (rnd (load_tons / 10)) in
  let transport_cost := rnd (rnd (dist * transport_cost_per_km) * trucks) in
  let max_safe_n := rnd (total_n_demand * rnd (1 + buffer_percent dm)) in
  let excess_n_kg := py_max 0 (rnd (load_n_kg - max_safe_n)) in
  let leaching_cost := rnd (excess_n_kg * 10) in
  let net_carbon_impact :=
    rnd (rnd (rnd (soil_benefit + n_offset_benefit) - transport_cost)
         - leaching_cost) in
  Ok (net_carbon_impact, dist, farm_id, load_tons).

(** corrected_solver.py, lines 70-109. *)
Fixpoint delivery_options (dm : DataManager) (date : string)
    (per_ha_demands : dict Q) (stp : STP) (available : Q)
    (visited_farms : list string) (items : dict Farm)
    : result (list CorrectedSolver.DeliveryOption) :=
  match items with
  | [] => Ok []
  | (farm_id, farm) :: items' =>
      if mem farm_id visited_farms then
        delivery_options dm date per_ha_demands stp available visited_farms items'
      else
        locked <- is_rain_locked dm date (zone farm) ;;
        if locked then
          delivery_options dm date per_ha_demands stp available visited_farms items'
        else
          o <- score_option dm per_ha_demands stp available farm_id farm ;;
          rest <- delivery_options dm date per_ha_demands stp available
                    visited_farms items' ;;
          Ok (o :: rest)
  end.

(** corrected_solver.py, lines 115-130. *)
Fixpoint dispatch (stp : STP) (options : list CorrectedSolver.DeliveryOption)
    (available : Q) (actions : list Action) (visited_farms : list string)
    : result (Q * list Action * list string) :=
  match options with
  | [] => Ok (available, actions, visited_farms)
  | (net_benefit, dist, farm_id, load_tons) :: rest =>
      if Qltb available 1 then Ok (available, actions, visited_farms)
      else
        ratio <- py_div (current_storage stp) (max_storage stp) ;;
        let fill_ratio := rnd ratio in
        if Qltb 0 net_benefit || Qltb (rnd (8 # 10)) fill_ratio then
          let amount := py_min available load_tons in
          dispatch stp rest (rnd (available - amount))
            (actions ++ [mkAction (stp_ident stp) farm_id amount])
            (farm_id :: visited_farms)
        else Ok (available, actions, visited_farms)
  end.

(** corrected_solver.py, lines 62-130. *)
Definition solve_stp (dm : DataManager) (date : string) (per_ha_demands : dict Q)
    (st : list Action * list string) (stp : STP)
    : result (list Action * list string) :=
  let available := rnd (current_storage stp + daily_output stp) in
  if Qltb available 1 then Ok st
  else
    options <- delivery_options dm date per_ha_demands stp available (snd st)
                 (farms dm) ;;
    r <- dispatch stp (sorted_desc CorrectedSolver.net_benefit_of options) available
           (fst st) (snd st) ;;
    Ok (snd (fst r), snd r).

Definition sorted_stps (dm : DataManager) : list STP :=
  sorted_desc triage_key (values (stps dm)).

(** corrected_solver.py, lines 47-132. *)
Definition solve_day (dm : DataManager) (date : string) : result (list Action) :=
  let per_ha_demands := get_daily_demand_per_ha dm date in
  r <- foldM (solve_stp dm date per_ha_demands) (sorted_stps dm) ([], []) ;;
  Ok (fst r).

End Arithmetic.
End Rounded.

(** ** The solver on the shared store

    [solve_day] works on the [DataManager] object the simulator writes to.
    Here every read of an attribute of [self.dm] or [self.sim] is a step on
    the store, and the store comes back with the result: that it comes back
    as it went in is a property to prove, and the reader [solve_day] of
    [CorrectedSolver] is justified by it.  What [solve_day] and its callees
    assign to are local variables and fresh objects ([actions],
    [visited_farms], [available], [delivery_options], the list returned by
    [tolist()], the dict returned by [to_dict()]). *)

Module Stateful.

(** A computation on the store; an exception leaves the store as it is at
    the raise. *)
Definition St (A : Type) : Type := DataManager -> result A * DataManager.

Definition ret {A : Type} (a : A) : St A := fun dm => (Ok a, dm).

(** A step that does not touch the store. *)
Definition lift {A : Type} (r : result A) : St A := fun dm => (r, dm).

(** Reading an attribute. *)
Definition gets {A : Type} (f : DataManager -> A) : St A := fun dm => (Ok (f dm), dm).

Definition bind {A B : Type} (m : St A) (f : A -> St B) : St B :=
  fun dm =>
    match m dm with
    | (Ok a, dm') => f a dm'
    | (Raise e, dm') => (Raise e, dm')
    end.

Notation "x <~ m ;; k" := (bind m (fun x => k))
  (at level 61, m at next level, right associativity).

Fixpoint foldM {A B : Type} (f : A -> B -> St A) (l : list B) (a : A) : St A :=
  match l with
  | [] => ret a
  | b :: l' => a' <~ f a b ;; foldM f l' a'
  end.

(** data.py, lines 75-97. *)
Definition get_weather_forecast (date zone : string) (lookahead_days : nat)
    : St (list Q) :=
  df <~ gets weather_df ;;
  match index_of date (df_date df) with
  | Some start_idx =>
      col <~ lift (dict_index (df_cols df) zone) ;;
      let rainfall := firstn lookahead_days (skipn start_idx col) in
      ret (rainfall ++ repeat 0 (lookahead_days - List.length rainfall))
  | None => ret (repeat 0 lookahead_days)
  end.

(** data.py, lines 99-114. *)
Definition get_daily_demand_per_ha (date : string) : St (dict Q) :=
  df <~ gets n_demand_df ;;
  match index_of date (df_date df) with
  | Some i => ret (map (fun c => (fst c, nth i (snd c) 0)) (df_cols df))
  | None => ret []
  end.

(** simulator.py, lines 40-47. *)
Definition is_rain_locked (date zone : string) : St bool :=
  forecast_window <~ gets BiosolidSimulator.forecast_window ;;
  forecast <~ get_weather_forecast date zone forecast_window ;;
  rain_threshold <~ gets BiosolidSimulator.rain_threshold ;;
  ret (Qltb rain_threshold (py_sum forecast)).

(** corrected_solver.py, lines 76-109. *)
Definition score_option (per_ha_demands : dict Q) (stp : STP) (available : Q)
    (farm_id : string) (farm : Farm) : St CorrectedSolver.DeliveryOption :=
  dist <~ lift (dict_index (distances farm) (stp_ident stp)) ;;
  let demand_kg_ha := dict_get_default per_ha_demands farm_id 0 in
  let total_n_demand := demand_kg_ha * area_ha farm in
  let load_tons := py_min available 10 in
  let soil_benefit := load_tons * (137 # 100) * CorrectedSolver.soil_credit in
  n_content <~ gets BiosolidSimulator.n_content ;;
  let load_n_kg := load_tons * n_content in
  let useful_n_kg := py_min load_n_kg total_n_demand in
  let n_offset_benefit := useful_n_kg * 5 in
  let trucks := py_ceil (load_tons / 10) in
  let transport_cost := dist * CorrectedSolver.transport_cost_per_km * trucks in
  buffer_percent <~ gets BiosolidSimulator.buffer_percent ;;
  let max_safe_n := total_n_demand * (1 + buffer_percent) in
  let excess_n_kg := py_max 0 (load_n_kg - max_safe_n) in
  let leaching_cost := excess_n_kg * 10 in
  let net_carbon_impact :=
    soil_benefit + n_offset_benefit - transport_cost - leaching_cost in
  ret (net_carbon_impact, dist, farm_id, load_tons).

(** corrected_solver.py, lines 70-109, over the items of [self.dm.farms]. *)
Fixpoint delivery_options (date : string) (per_ha_demands : dict Q) (stp : STP)
    (available : Q) (visited_farms : list string) (items : dict Farm)
    : St (list CorrectedSolver.DeliveryOption) :=
  match items with
  | [] => ret []
  | (farm_id, farm) :: items' =>
      if mem farm_id visited_farms then
        delivery_options date per_ha_demands stp available visited_farms items'
      else
        locked <~ is_rain_locked date (zone farm) ;;
        if locked then
          delivery_options date per_ha_demands stp available visited_farms items'
        else
          o <~ score_option per_ha_demands stp available farm_id farm ;;
          rest <~ delivery_options date per_ha_demands stp available
                    visited_farms items' ;;
          ret (o :: rest)
  end.

(** corrected_solver.py, lines 115-130. *)
Fixpoint dispatch (stp : STP) (options : list CorrectedSolver.DeliveryOption)
    (available : Q) (actions : list Action) (visited_farms : list string)
    : St (Q * list Action * list string) :=
  match options with
  | [] => ret (available, actions, visited_farms)
  | (net_benefit, dist, farm_id, load_tons) :: rest =>
      if Qltb available 1 then ret (available, actions, visited_farms)
      else
        fill_ratio <~ lift (py_div (current_storage stp) (max_storage stp)) ;;
        if Qltb 0 net_benefit || Qltb (8 # 10) fill_ratio then
          let amount := py_min available load_tons in
          dispatch stp rest (available - amount)
            (actions ++ [mkAction (stp_ident stp) farm_id amount])
            (farm_id :: visited_farms)
        else ret (available, actions, visited_farms)
  end.

(** corrected_solver.py, lines 62-130. *)
Definition solve_stp (date : string) (per_ha_demands : dict Q)
    (st : list Action * list string) (stp : STP)
    : St (list Action * list string) :=
  let available := current_storage stp + daily_output stp in
  if Qltb available 1 then ret st
  else
    items <~ gets farms ;;
    options <~ delivery_options date per_ha_demands stp available (snd st) items ;;
    r <~ dispatch stp (sorted_desc CorrectedSolver.net_benefit_of options) available
           (fst st) (snd st) ;;
    ret (snd (fst r), snd r).

(** corrected_solver.py, lines 47-132. *)
Definition solve_day (date : string) : St (list Action) :=
  per_ha_demands <~ get_daily_demand_per_ha date ;;
  plants <~ gets (fun dm => values (stps dm)) ;;
  let sorted_stps := sorted_desc CorrectedSolver.triage_key plants in
  r <~ foldM (solve_stp date per_ha_demands) sorted_stps ([], []) ;;
  ret (fst r).

(** simulator.py, lines 49-186, as a step on the store: the assignments to
    [current_storage] are those of [BiosolidSimulator.run_day]. *)
Definition run_day (date : string) (actions : list Action) : St DailyResult :=
  fun dm =>
    match BiosolidSimulator.run_day dm date actions with
    | Ok (res, dm') => (Ok res, dm')
    | Raise e => (Raise e, dm)
    end.

(** run.py, lines 52-60: one day of the loop. *)
Definition simulate_day (date_str : string) : St (list Action * DailyResult) :=
  actions <~ solve_day date_str ;;
  res <~ run_day date_str actions ;;
  ret (actions, res).

End Stateful.

(** ** Definitions worded after the specification *)

(** Rainfall forecast for [zone] on the [j]-th day from [date], as the
    specification words it: the value of the weather table when there is one,
    0 past the end of the data or for a date the table does not have. *)
Definition forecast_rain (dm : DataManager) (date zone : string) (j : nat) : Q :=
  match index_of date (df_date (weather_df dm)) with
  | Some i => nth (i + j) (dict_get_default (df_cols (weather_df dm)) zone []) 0
  | None => 0
  end.

(** [f 0 + ... + f (n-1)]. *)
Fixpoint window_sum (f : nat -> Q) (n : nat) : Q :=
  match n with
  | O => 0
  | S n' => window_sum f n' + f n'
  end.


(** The sum of a list of quantities. *)
Definition Qsum (l : list Q) : Q := fold_right Qplus 0 l.

(** End-of-day update of one plant, given the tons dispatched per plant:
    new storage = max(0, current storage + daily output - dispatched). *)
Definition new_storage (dispatched : dict Q) (item : string * STP) : Q :=
  py_max 0 (current_storage (snd item) + daily_output (snd item)
            - dict_get_default dispatched (fst item) 0).

(** Overflow of one plant: the part of the new storage above the capacity. *)
Definition overflow_of (dispatched : dict Q) (item : string * STP) : Q :=
  if Qltb (max_storage (snd item)) (new_storage dispatched item)
  then new_storage dispatched item - max_storage (snd item)
  else 0.

(** Credit of one farm for its delivered tons: nitrogen uptake and soil
    sequestration. *)
Definition farm_credit (dm : DataManager) (per_ha_demands : dict Q)
    (item : string * Q) : Q :=
  match dict_get (farms dm) (fst item) with
  | Some farm =>
      py_min (snd item * BiosolidSimulator.n_content dm)
             (dict_get_default per_ha_demands (fst item) 0 * area_ha farm)
        * BiosolidSimulator.synthetic_credit dm
      + snd item * 1000 * BiosolidSimulator.soil_credit dm
  | None => 0
  end.

(** Leaching penalty of one farm for its delivered tons. *)
Definition farm_leaching (dm : DataManager) (per_ha_demands : dict Q)
    (item : string * Q) : Q :=
  match dict_get (farms dm) (fst item) with
  | Some farm =>
      let n_delivered := snd item * BiosolidSimulator.n_content dm in
      let max_safe :=
        dict_get_default per_ha_demands (fst item) 0 * area_ha farm
          * (1 + BiosolidSimulator.buffer_percent dm) in
      if Qltb max_safe n_delivered
      then (n_delivered - max_safe) * BiosolidSimulator.leaching_penalty dm
      else 0
  | None => 0
  end.

(** The fields of a plant that are fixed at start-up. *)
Definition stp_static (stp : STP) : string * Q * Q * Q * Q :=
  (stp_ident stp, daily_output stp, max_storage stp, stp_lat stp, stp_lon stp).

(** What start-up guarantees of the two registries: [_initialize_objects]
    files every plant under its own id, and a dict has one entry per key. *)
Definition well_formed (dm : DataManager) : Prop :=
  NoDup (keys (stps dm)) /\
  Forall (fun item => stp_ident (snd item) = fst item) (stps dm) /\
  NoDup (keys (farms dm)).

(** Every farm has a distance to every plant. *)
Definition distances_complete (dm : DataManager) : Prop :=
  Forall (fun item => keys (distances (snd item)) = keys (stps dm)) (farms dm).

(** The normal operating range: a store as start-up builds it, whose farms
    lie in zones of the weather table and whose plants have a capacity other
    than 0. *)
Definition operating_range (dm : DataManager) : Prop :=
  well_formed dm /\
  distances_complete dm /\
  Forall (fun item => In (zone (snd item)) (keys (df_cols (weather_df dm)))) (farms dm) /\
  Forall (fun stp => ~ max_storage stp == 0) (values (stps dm)).

(** An action the simulator can process and will not reject. *)
Definition deliverable (dm : DataManager) (date : string) (a : Action) : Prop :=
  dict_get (stps dm) (stp_id a) <> None /\
  exists farm,
    dict_get (farms dm) (farm_id a) = Some farm /\
    BiosolidSimulator.is_rain_locked dm date (zone farm) = Ok false /\
    dict_get (distances farm) (stp_id a) <> None.

(** Tons of the actions whose source is the plant [key]. *)
Definition tons_from (key : string) (actions : list Action) : Q :=
  Qsum (map amount_tons (filter (fun a => String.eqb (stp_id a) key) actions)).

(** Net Carbon Impact of carrying [load_tons] over [distance] km to a farm of
    [area] hectares with a demand of [demand_per_ha] kg of nitrogen per
    hectare, as the specification gives it (10 tons per truck, 10%
    application buffer). *)
Definition soil_benefit_spec (load_tons : Q) : Q := load_tons * (137 # 100) * 200.

Definition nitrogen_offset_spec (load_tons n_per_ton demand_per_ha area : Q) : Q :=
  Qmin (load_tons * n_per_ton) (demand_per_ha * area) * 5.

Definition transport_cost_spec (load_tons distance : Q) : Q :=
  distance * (9 # 10) * inject_Z (Qceiling (load_tons / 10)).

Definition leaching_cost_spec (load_tons n_per_ton demand_per_ha area : Q) : Q :=
  Qmax 0 (load_tons * n_per_ton - demand_per_ha * area * (110 # 100)) * 10.

Definition nci_spec (load_tons n_per_ton distance demand_per_ha area : Q) : Q :=
  soil_benefit_spec load_tons
  + nitrogen_offset_spec load_tons n_per_ton demand_per_ha area
  - transport_cost_spec load_tons distance
  - leaching_cost_spec load_tons n_per_ton demand_per_ha area.

(** The store agrees with another one on everything but the plants' current
    storage. *)
Definition same_static (dm dm' : DataManager) : Prop :=
  config dm' = config dm /\
  farms dm' = farms dm /\
  weather_df dm' = weather_df dm /\
  n_demand_df dm' = n_demand_df dm /\
  keys (stps dm') = keys (stps dm) /\
  map stp_static (values (stps dm')) = map stp_static (values (stps dm)).

(** Every option of the plant's walk with a positive Net Carbon Impact ends
    up as an action of the day's plan: the acceptance rule of the
    specification read without the check on the remaining material. *)
Definition every_positive_option_accepted (dm : DataManager) (date : string)
    (stp : STP) : Prop :=
  forall opts actions,
    CorrectedSolver.delivery_options dm date (get_daily_demand_per_ha dm date) stp
      (current_storage stp + daily_output stp) [] (farms dm) = Ok opts ->
    CorrectedSolver.solve_day dm date = Ok actions ->
    forall o, In o opts -> 0 < CorrectedSolver.net_benefit_of o ->
      exists a, In a actions /\ farm_id a = CorrectedSolver.farm_of o /\
                stp_id a = stp_ident stp.



(** The walk over the ranked candidates of one plant, as the specification
    words it with the two stops of the code: from [remaining] tons, a
    candidate met with less than 1.0 ton left ends the walk; a candidate
    whose Net Carbon Impact is positive, or any candidate when the plant is
    in panic mode, becomes an Action for [min(remaining, load)] tons and the
    walk goes on with the rest; the first candidate that fails both
    conditions ends the walk.  [rnd] rounds the subtraction. *)
Inductive ranked_walk (rnd : Q -> Q) (source : string) (panic : bool)
    : list CorrectedSolver.DeliveryOption -> Q -> list Action -> Prop :=
| walk_done (remaining : Q) :
    ranked_walk rnd source panic [] remaining []
| walk_short (o : CorrectedSolver.DeliveryOption)
    (rest : list CorrectedSolver.DeliveryOption) (remaining : Q) :
    remaining < 1 ->
    ranked_walk rnd source panic (o :: rest) remaining []
| walk_cutoff (o : CorrectedSolver.DeliveryOption)
    (rest : list CorrectedSolver.DeliveryOption) (remaining : Q) :
    1 <= remaining ->
    CorrectedSolver.net_benefit_of o <= 0 -> panic = false ->
    ranked_walk rnd source panic (o :: rest) remaining []
| walk_accept (o : CorrectedSolver.DeliveryOption)
    (rest : list CorrectedSolver.DeliveryOption) (remaining : Q)
    (new : list Action) :
    1 <= remaining ->
    0 < CorrectedSolver.net_benefit_of o \/ panic = true ->
    ranked_walk rnd source panic rest
      (rnd (remaining - py_min remaining (CorrectedSolver.load_of o))) new ->
    ranked_walk rnd source panic (o :: rest) remaining
      (mkAction source (CorrectedSolver.farm_of o)
         (py_min remaining (CorrectedSolver.load_of o)) :: new).

(** A farm the candidate loop of a plant does not skip. *)
Definition eligible_farm (rnd : Q -> Q) (dm : DataManager) (date : string)
    (visited_farms : list string) : Prop :=
  exists fid farm,
    In (fid, farm) (farms dm) /\ mem fid visited_farms = false /\
    Rounded.is_rain_locked rnd dm date (zone farm) = Ok false.

(** ** A small registry to run the definitions on *)

Definition ex_config : Config :=
  mkConfig 10 (9 # 10) 25 5 (2 # 10) 10 10 30 1000 5 6371.

Definition ex_weather : DataFrame :=
  mkDataFrame
    ["2025-01-01"; "2025-01-02"; "2025-01-03"; "2025-01-04"; "2025-01-05";
     "2025-01-06"]%string
    [("north"%string, [5; 10; 5; 5; 5; 501 # 100]);
     ("south"%string, [0; 0; 0; 0; 0; 0]);
     ("coast"%string, [40; 0; 0; 0; 0; 0])].

Definition ex_demand : DataFrame :=
  mkDataFrame
    ["2025-01-01"; "2025-01-02"]%string
    [("F_001"%string, [10; 0]); ("F_002"%string, [0; 4])].

Definition ex_farms : dict Farm :=
  [("F_001"%string,
    mkFarm "F_001" "north" 2 (101 # 10) (761 # 10)
      [("STP_A"%string, 12); ("STP_B"%string, 300)]);
   ("F_002"%string,
    mkFarm "F_002" "south" (3 # 2) (99 # 10) (765 # 10)
      [("STP_A"%string, 20); ("STP_B"%string, 400)]);
   ("F_003"%string,
    mkFarm "F_003" "coast" 1 (98 # 10) (760 # 10)
      [("STP_A"%string, 5); ("STP_B"%string, 5)]);
   ("F_004"%string,
    mkFarm "F_004" "south" 4 (85 # 10) (769 # 10)
      [("STP_A"%string, 400); ("STP_B"%string, 500)])].

Definition ex_stp_a : STP := mkSTP "STP_A" (21 # 2) 100 10 76 0.
Definition ex_stp_b : STP := mkSTP "STP_B" 10 50 9 77 45.

(** Two plants: STP_B is 90% full, STP_A is empty and produces 10.5 tons. *)
Definition ex_dm : DataManager :=
  mkDataManager ex_config
    [("STP_A"%string, ex_stp_a); ("STP_B"%string, ex_stp_b)]
    ex_farms ex_weather ex_demand.

(** The empty plant STP_A alone. *)
Definition ex_dm_single : DataManager :=
  mkDataManager ex_config [("STP_A"%string, ex_stp_a)] ex_farms ex_weather ex_demand.

(** A plant registered with a storage capacity of 0 that produces 5 tons. *)
Definition ex_stp_zero : STP := mkSTP "STP_Z" 5 0 10 76 0.

Definition ex_dm_zero : DataManager :=
  mkDataManager ex_config [("STP_Z"%string, ex_stp_zero)]
    [("F_002"%string,
      mkFarm "F_002" "south" (3 # 2) (99 # 10) (765 # 10) [("STP_Z"%string, 20)])]
    ex_weather ex_demand.

(** A plan that sends more than STP_A has and 4 tons into the rain-locked
    coast zone. *)
Definition ex_plan : list Action :=
  [mkAction "STP_A" "F_001" 20; mkAction "STP_B" "F_003" 4].

(** The plan the solver makes for [ex_dm] on 2025-01-01. *)
Definition ex_solved : list Action :=
  [mkAction "STP_B" "F_001" 10; mkAction "STP_B" "F_002" 10;
   mkAction "STP_B" "F_004" 10].

(** ** Accounting of one day, action by action *)

(** Whether [run_day] finds the destination of the action rain-locked. *)
Definition action_locked (dm : DataManager) (date : string) (a : Action) : bool :=
  match dict_get (farms dm) (farm_id a) with
  | Some farm =>
      match BiosolidSimulator.is_rain_locked dm date (zone farm) with
      | Ok locked => locked
      | Raise _ => false
      end
  | None => false
  end.

Definition action_accepted (dm : DataManager) (date : string) (a : Action) : bool :=
  negb (action_locked dm date a).

(** Transport emissions of the trucks of one action. *)
Definition action_emission (dm : DataManager) (a : Action) : Q :=
  match dict_get (farms dm) (farm_id a) with
  | Some farm =>
      match dict_get (distances farm) (stp_id a) with
      | Some distance =>
          (distance * py_ceil (amount_tons a / BiosolidSimulator.truck_capacity dm))
          * BiosolidSimulator.emission_factor dm
      | None => 0
      end
  | None => 0
  end.

(** Tons of the actions whose destination is the farm [key]. *)
Definition tons_to (key : string) (actions : list Action) : Q :=
  Qsum (map amount_tons (filter (fun a => String.eqb (farm_id a) key) actions)).

(** Tons of all the actions of a list. *)
Definition total_tons (actions : list Action) : Q := Qsum (map amount_tons actions).

(** Every plant holds between nothing and its capacity. *)
Definition storage_ok (dm : DataManager) : Prop :=
  Forall (fun item => 0 <= current_storage (snd item) <= max_storage (snd item))
         (stps dm).

(** ** run.py: the solution table (lines 46-49 and 62-87) *)

(** Python's stable [sorted(l)] and [sorted(l, key=...)] by a test [lt] for
    "strictly less": ascending, equal elements in their original order. *)
Section SortingAscending.
Context {A : Type}.
Variable lt : A -> A -> bool.

Fixpoint insert_asc (x : A) (l : list A) : list A :=
  match l with
  | [] => [x]
  | y :: l' => if lt y x then y :: insert_asc x l' else x :: y :: l'
  end.

Definition sorted_asc (l : list A) : list A := fold_right insert_asc [] l.
End SortingAscending.

(** The script fails with an IndexError of its own or with an exception of
    the solver or the simulator. *)
Inductive script_exn : Type :=
| IndexError
| Uncaught (e : exn).

(** [sorted(farm.distances.items(), key=lambda x: x[1])[0][0]]. *)
Definition closest_stp (farm : Farm) : option string :=
  match sorted_asc (fun a b : string * Q => Qltb (snd a) (snd b)) (distances farm) with
  | (stp_id, _) :: _ => Some stp_id
  | [] => None
  end.

(** Lines 46-49: the nearest plant of every farm; [None] is the IndexError of
    a farm without distances. *)
Fixpoint farm_closest_stp (items : dict Farm) (acc : dict string)
    : option (dict string) :=
  match items with
  | [] => Some acc
  | (farm_id, farm) :: items' =>
      match closest_stp farm with
      | Some closest => farm_closest_stp items' (dict_set acc farm_id closest)
      | None => None
      end
  end.

(** A dict keyed by [(date_str, farm_id)]. *)
Definition pair_eqb (a b : string * string) : bool :=
  String.eqb (fst a) (fst b) && String.eqb (snd a) (snd b).

Definition pair_dict (V : Type) : Type := list ((string * string) * V).

Fixpoint pair_get {V : Type} (d : pair_dict V) (k : string * string) : option V :=
  match d with
  | [] => None
  | (k', v) :: d' => if pair_eqb k' k then Some v else pair_get d' k
  end.

Fixpoint pair_set {V : Type} (d : pair_dict V) (k : string * string) (v : V)
    : pair_dict V :=
  match d with
  | [] => [(k, v)]
  | (k', v') :: d' =>
      if pair_eqb k' k then (k', v) :: d' else (k', v') :: pair_set d' k v
  end.

(** Lines 65-68. *)
Definition action_map (daily_actions : dict (list Action))
    : pair_dict (string * Q) :=
  fold_left
    (fun m item =>
       fold_left
         (fun m action =>
            pair_set m (fst item, farm_id action) (stp_id action, amount_tons action))
         (snd item) m)
    daily_actions [].

Record SolutionRow : Type := mkSolutionRow {
  out_date : string;
  out_stp_id : string;
  out_farm_id : string;
  out_tons : Q
}.

(** Lines 83-87: the row of one farm on one date. *)
Definition solution_row (m : pair_dict (string * Q)) (closest_stp : string)
    (farm_id date_str : string) : SolutionRow :=
  match pair_get m (date_str, farm_id) with
  | Some (stp_id, amount) => mkSolutionRow date_str stp_id farm_id amount
  | None => mkSolutionRow date_str closest_stp farm_id 0
  end.

(** Lines 77-87.  Python orders strings by code point, which for UTF-8 text
    is the byte order of [String.ltb].  The row number and the two decimals
    of [tons] are added when the rows are written (lines 89-94). *)
Definition all_rows (dm : DataManager) (closest : dict string)
    (m : pair_dict (string * Q)) (all_dates : list string) : list SolutionRow :=
  flat_map
    (fun farm_id =>
       let closest_stp := dict_get_default closest farm_id "STP_TVM"%string in
       map (solution_row m closest_stp farm_id) all_dates)
    (sorted_asc String.ltb (keys (farms dm))).

(** [run_simulation] of run.py up to the rows it writes: the calendar of the
    day loop and of the table is [all_dates]. *)
Definition solution_table (dm : DataManager) (all_dates : list string)
    : list SolutionRow + script_exn :=
  match farm_closest_stp (farms dm) [] with
  | None => inr IndexError
  | Some closest =>
      match run_simulation dm all_dates with
      | Raise e => inr (Uncaught e)
      | Ok r => inl (all_rows (snd r) closest (action_map (fst r)) all_dates)
      end
  end.

(** The last action of a plan for a farm: the one the table keeps. *)
Definition last_action_for (farm : string) (plan : list Action) : option Action :=
  find (fun a => String.eqb (farm_id a) farm) (rev plan).

(** Tons the table reports on one date. *)
Definition table_tons_on (date : string) (rows : list SolutionRow) : Q :=
  Qsum (map out_tons (filter (fun r => String.eqb (out_date r) date) rows)).

(** ** Registry rows to start the examples from *)

(** A stand-in for the great-circle distance of utils.py. *)
Definition ex_distance (lat1 lon1 lat2 lon2 radius : Q) : Q :=
  radius * ((lat1 - lat2) * (lat1 - lat2) + (lon1 - lon2) * (lon1 - lon2)) / 100.

(** STP_A is on two rows of the registry. *)
Definition ex_stp_rows : list StpRow :=
  [mkStpRow "STP_A" 12 80 10 76; mkStpRow "STP_B" 10 50 9 77;
   mkStpRow "STP_A" (21 # 2) 100 10 76].

Definition ex_farm_rows : list FarmRow :=
  [mkFarmRow "F_002" "south" (3 # 2) (99 # 10) (765 # 10);
   mkFarmRow "F_001" "north" 2 (101 # 10) (761 # 10)].

Definition ex_dm0 : DataManager :=
  initialize ex_distance ex_config ex_stp_rows ex_farm_rows ex_weather ex_demand.

(** A day of monsoon: every zone is above the threshold. *)
Definition ex_weather_wet : DataFrame :=
  mkDataFrame ["2025-06-15"]%string
    [("north"%string, [31]); ("south"%string, [45]); ("coast"%string, [60])].

Definition ex_dm_wet : DataManager :=
  mkDataManager ex_config
    [("STP_A"%string, ex_stp_a); ("STP_Z"%string, ex_stp_zero)]
    ex_farms ex_weather_wet ex_demand.

Definition ex_daily : dict (list Action) := [("2025-01-01"%string, ex_solved)].

(** ** A registry of doubles

    Every number the rain lock and the solver read here is a double: the
    weather cells are the doubles the CSV reader makes of the figures 1.8,
    24.6, 3.6, 30.01, 10.3 and 16.1.  STP_F is empty and produces 3 tons;
    STP_G is 90% full. *)
Definition ex_weather_float : DataFrame :=
  mkDataFrame
    ["2025-01-01"; "2025-01-02"; "2025-01-03"; "2025-01-04"; "2025-01-05";
     "2025-01-06"]%string
    [("north"%string,
      [binary64 (18 # 10); binary64 (246 # 10); binary64 (36 # 10); 0; 0; 0]);
     ("south"%string, [10; 10; 10; 0; 0; 0]);
     ("coast"%string, [binary64 (3001 # 100); 0; 0; 0; 0; 0]);
     ("hills"%string,
      [binary64 (103 # 10); binary64 (161 # 10); binary64 (36 # 10); 0; 0; 0])].

Definition ex_stp_f : STP := mkSTP "STP_F" 3 100 10 76 0.
Definition ex_stp_g : STP := mkSTP "STP_G" 5 50 9 77 45.

Definition ex_dm_float : DataManager :=
  mkDataManager ex_config
    [("STP_F"%string, ex_stp_f); ("STP_G"%string, ex_stp_g)]
    [("F_080"%string,
      mkFarm "F_080" "south" 1 (99 # 10) (765 # 10)
        [("STP_F"%string, 80); ("STP_G"%string, 400)])]
    ex_weather_float ex_demand.
(** * Properties *)

(** ** Arithmetic of the Python operations *)

Lemma Qltb_lt (a b : Q) : Qltb a b = true <-> a < b.
Proof.
  unfold Qltb. rewrite negb_true_iff.
  destruct (Qle_bool b a) eqn:E; split; intro H; try discriminate; try reflexivity.
  - apply Qle_bool_iff in E. lra.
  - apply Qnot_le_lt. intro Hle. apply Qle_bool_iff in Hle. congruence.
Qed.

Lemma Qltb_ge (a b : Q) : Qltb a b = false <-> b <= a.
Proof.
  unfold Qltb. rewrite negb_false_iff. apply Qle_bool_iff.
Qed.

Lemma py_min_spec (a b : Q) : py_min a b <= a /\ py_min a b <= b /\
  (py_min a b = a \/ py_min a b = b).
Proof.
  unfold py_min. destruct (Qltb b a) eqn:E.
  - apply Qltb_lt in E. repeat split; try lra. now right.
  - apply Qltb_ge in E. repeat split; try lra. now left.
Qed.

Lemma py_max_spec (a b : Q) : a <= py_max a b /\ b <= py_max a b /\
  (py_max a b = a \/ py_max a b = b).
Proof.
  unfold py_max. destruct (Qltb a b) eqn:E.
  - apply Qltb_lt in E. repeat split; try lra. now right.
  - apply Qltb_ge in E. repeat split; try lra. now left.
Qed.

Lemma fold_left_Qplus_acc (l : list Q) (a : Q) :
  fold_left Qplus l a == a + fold_left Qplus l 0.
Proof.
  revert a. induction l as [|x l IH]; intro a; simpl.
  - lra.
  - rewrite (IH (a + x)), (IH (0 + x)). lra.
Qed.

Lemma py_sum_cons (x : Q) (l : list Q) : py_sum (x :: l) == x + py_sum l.
Proof.
  unfold py_sum. simpl. rewrite fold_left_Qplus_acc. lra.
Qed.

Lemma py_sum_app (l1 l2 : list Q) : py_sum (l1 ++ l2) == py_sum l1 + py_sum l2.
Proof.
  induction l1 as [|x l1 IH]; simpl.
  - unfold py_sum at 2. simpl. lra.
  - rewrite !py_sum_cons, IH. lra.
Qed.

(** ** The rain lock *)

Lemma padded_window (l : list Q) (k : nat) :
  firstn k l ++ repeat 0 (k - List.length (firstn k l))
  = map (fun j => nth j l 0) (seq 0 k).
Proof.
  revert l. induction k as [|k IH]; intro l; [reflexivity|].
  destruct l as [|x l].
  - simpl. f_equal. rewrite <- seq_shift, map_map.
    specialize (IH []). rewrite firstn_nil in IH. simpl in IH.
    rewrite Nat.sub_0_r in IH. rewrite IH.
    apply map_ext. intros [|j]; reflexivity.
  - simpl. f_equal. rewrite IH, <- seq_shift, map_map. reflexivity.
Qed.

Lemma nth_skipn_add (l : list Q) (i j : nat) :
  nth j (skipn i l) 0 = nth (i + j) l 0.
Proof.
  revert l. induction i as [|i IH]; intro l; [reflexivity|].
  destruct l as [|x l]; simpl.
  - destruct j; reflexivity.
  - apply IH.
Qed.

Lemma py_sum_window (f : nat -> Q) (k : nat) :
  py_sum (map f (seq 0 k)) == window_sum f k.
Proof.
  induction k as [|k IH].
  - reflexivity.
  - rewrite seq_S, map_app, py_sum_app, IH. simpl.
    rewrite py_sum_cons. unfold py_sum. simpl. lra.
Qed.

Lemma py_sum_repeat0 (k : nat) : py_sum (repeat 0 k) == 0.
Proof.
  induction k as [|k IH]; [reflexivity|].
  simpl. rewrite py_sum_cons, IH. lra.
Qed.

Lemma window_sum_0 (k : nat) : window_sum (fun _ => 0) k == 0.
Proof.
  induction k as [|k IH]; simpl; [reflexivity | rewrite IH; lra].
Qed.

(** The forecast list sums to the window sum of the specification. *)
Lemma forecast_sum (dm : DataManager) (date zone : string) (k : nat) :
  In zone (keys (df_cols (weather_df dm))) \/
    index_of date (df_date (weather_df dm)) = None ->
  exists forecast,
    get_weather_forecast dm date zone k = Ok forecast /\
    py_sum forecast == window_sum (forecast_rain dm date zone) k.
Proof.
  intro Hz. unfold get_weather_forecast, forecast_rain.
  destruct (index_of date (df_date (weather_df dm))) as [i|] eqn:Ei.
  - destruct Hz as [Hz|Hz]; [|discriminate].
    unfold dict_index, dict_get_default.
    destruct (dict_get (df_cols (weather_df dm)) zone) as [col|] eqn:Ec.
    + simpl. eexists; split; [reflexivity|].
      rewrite padded_window.
      rewrite (map_ext _ (fun j => nth (i + j) col 0)) by (intro; apply nth_skipn_add).
      apply py_sum_window.
    + exfalso. revert Hz Ec. unfold keys.
      induction (df_cols (weather_df dm)) as [|[k' v] d IH]; simpl; [tauto|].
      intros [H|H] Hg.
      * subst. rewrite String.eqb_refl in Hg. discriminate.
      * destruct (String.eqb k' zone); [discriminate | auto].
  - eexists; split; [reflexivity|].
    rewrite py_sum_repeat0, window_sum_0. reflexivity.
Qed.





(** ** The simulation engine *)

Import BiosolidSimulator.

Lemma bind_Ok {A B : Type} (m : result A) (f : A -> result B) (b : B) :
  bind m f = Ok b -> exists a, m = Ok a /\ f a = Ok b.
Proof.
  destruct m as [a|e]; simpl; intro H; [eauto | discriminate].
Qed.

Ltac bind_inv H :=
  let a := fresh "a" in
  let E := fresh "E" in
  apply bind_Ok in H; destruct H as [a [E H]].

Ltac tally_simpl :=
  cbn [daily_credits daily_emissions daily_penalties daily_delivered
       daily_overflow banned_count farm_deliveries stp_dispatches
       fst snd current_storage max_storage daily_output stp_ident stp_lat
       stp_lon set_current_storage stp_static] in *.

Lemma Qsum_cons (x : Q) (l : list Q) : Qsum (x :: l) = x + Qsum l.
Proof. reflexivity. Qed.

Lemma Qsum_nil : Qsum [] = 0.
Proof. reflexivity. Qed.

Lemma dict_index_Ok {V : Type} (d : dict V) (k : string) (v : V) :
  dict_index d k = Ok v <-> dict_get d k = Some v.
Proof.
  unfold dict_index. destruct (dict_get d k); split; intro H;
    try discriminate; congruence.
Qed.

(** The per-farm loop adds each farm's credit and leaching penalty and
    touches nothing else. *)
Lemma process_farms_tally (dm : DataManager) (per_ha : dict Q) (items : dict Q) :
  forall t u, foldM (process_farm dm per_ha) items t = Ok u ->
    daily_credits u == daily_credits t + Qsum (map (farm_credit dm per_ha) items) /\
    daily_penalties u == daily_penalties t + Qsum (map (farm_leaching dm per_ha) items) /\
    daily_emissions u = daily_emissions t /\
    daily_delivered u = daily_delivered t /\
    daily_overflow u = daily_overflow t /\
    banned_count u = banned_count t /\
    farm_deliveries u = farm_deliveries t /\
    stp_dispatches u = stp_dispatches t.
Proof.
  induction items as [|item items IH]; intros t u H; simpl in H.
  - injection H as <-. cbn [map]. rewrite Qsum_nil.
    repeat split; try reflexivity; lra.
  - bind_inv H. unfold process_farm in E. bind_inv E.
    injection E as <-. apply dict_index_Ok in E0.
    destruct (IH _ _ H) as (Hc & Hp & He & Hd & Ho & Hb & Hf & Hs).
    tally_simpl. cbn [map]. rewrite !Qsum_cons.
    unfold farm_credit at 1, farm_leaching at 1. rewrite E0.
    repeat split; try assumption.
    + rewrite Hc. lra.
    + rewrite Hp. cbv zeta.
      destruct (Qltb _ _); lra.
Qed.

(** The per-farm loop returns as soon as every farm it meets is known. *)
Lemma process_farms_total (dm : DataManager) (per_ha : dict Q) (items : dict Q) :
  Forall (fun item => dict_get (farms dm) (fst item) <> None) items ->
  forall t, exists u, foldM (process_farm dm per_ha) items t = Ok u.
Proof.
  induction 1 as [|item items Hi _ IH]; intro t; simpl.
  - eauto.
  - unfold process_farm at 1. unfold dict_index.
    destruct (dict_get (farms dm) (fst item)); [|contradiction].
    simpl. apply IH.
Qed.

(** The per-plant loop: every plant is settled from the dispatched tons, the
    overflow and its penalty are added to the tally. *)
Lemma process_stps_tally (dm : DataManager) (items : dict STP) :
  forall t t' items', process_stps dm t items = (t', items') ->
    Forall2 (fun item item' =>
               fst item' = fst item /\
               stp_static (snd item') = stp_static (snd item) /\
               current_storage (snd item') =
                 (if Qltb (max_storage (snd item)) (new_storage (stp_dispatches t) item)
                  then max_storage (snd item)
                  else new_storage (stp_dispatches t) item))
            items items' /\
    daily_overflow t' == daily_overflow t + Qsum (map (overflow_of (stp_dispatches t)) items) /\
    daily_penalties t' ==
      daily_penalties t
      + Qsum (map (overflow_of (stp_dispatches t)) items) * overflow_penalty dm /\
    daily_credits t' = daily_credits t /\
    daily_emissions t' = daily_emissions t /\
    daily_delivered t' = daily_delivered t /\
    banned_count t' = banned_count t /\
    stp_dispatches t' = stp_dispatches t.
Proof.
  induction items as [|item items IH]; intros t t' items' H; simpl in H.
  - injection H as <- <-. cbn [map]. rewrite Qsum_nil.
    repeat split; try reflexivity; try lra. constructor.
  - destruct (process_stp dm t item) as [t1 item1] eqn:E1.
    destruct (process_stps dm t1 items) as [t2 items2] eqn:E2.
    injection H as <- <-.
    destruct (IH _ _ _ E2) as (HF & Ho & Hp & Hc & He & Hd & Hb & Hs).
    unfold process_stp in E1. tally_simpl.
    fold (new_storage (stp_dispatches t) item) in E1.
    cbn [map]. rewrite !Qsum_cons.
    unfold overflow_of at 1 3.
    destruct (Qltb (max_storage (snd item)) (new_storage (stp_dispatches t) item)) eqn:Eo;
      injection E1 as <- <-; tally_simpl.
    + repeat split; try assumption; try reflexivity.
      * constructor; [|exact HF]. tally_simpl. rewrite Eo. auto.
      * rewrite Ho. lra.
      * rewrite Hp. lra.
    + repeat split; try assumption; try reflexivity.
      * constructor; [|exact HF]. tally_simpl. rewrite Eo. auto.
      * rewrite Ho. lra.
      * rewrite Hp. lra.
Qed.

Lemma dict_get_set_same {V : Type} (d : dict V) (k : string) (v : V) :
  dict_get (dict_set d k v) k = Some v.
Proof.
  induction d as [|[k' v'] d IH]; simpl.
  - now rewrite String.eqb_refl.
  - destruct (String.eqb k' k) eqn:E; simpl; rewrite E; [reflexivity | exact IH].
Qed.

Lemma dict_get_set_other {V : Type} (d : dict V) (k k0 : string) (v : V) :
  k0 <> k -> dict_get (dict_set d k v) k0 = dict_get d k0.
Proof.
  intro Hne. induction d as [|[k' v'] d IH]; simpl.
  - destruct (String.eqb k k0) eqn:E; [|reflexivity].
    apply String.eqb_eq in E. congruence.
  - destruct (String.eqb k' k) eqn:E; simpl.
    + apply String.eqb_eq in E. subst k'.
      destruct (String.eqb k k0) eqn:E0; [|reflexivity].
      apply String.eqb_eq in E0. congruence.
    + destruct (String.eqb k' k0); [reflexivity | exact IH].
Qed.

Lemma dict_get_In {V : Type} (d : dict V) (k : string) (v : V) :
  dict_get d k = Some v -> In (k, v) d.
Proof.
  induction d as [|[k' v'] d IH]; simpl; [discriminate|].
  destruct (String.eqb k' k) eqn:E.
  - apply String.eqb_eq in E. intro H. injection H as <-. subst. now left.
  - intro H. right. auto.
Qed.

Lemma dict_get_keys {V : Type} (d : dict V) (k : string) :
  In k (keys d) -> dict_get d k <> None.
Proof.
  unfold keys. induction d as [|[k' v'] d IH]; simpl; [tauto|].
  intros [H|H].
  - subst. rewrite String.eqb_refl. discriminate.
  - destruct (String.eqb k' k); [discriminate | auto].
Qed.

Lemma In_dict_get {V : Type} (d : dict V) (k : string) (v : V) :
  NoDup (keys d) -> In (k, v) d -> dict_get d k = Some v.
Proof.
  unfold keys. induction d as [|[k' v'] d IH]; simpl; [tauto|].
  intros Hnd [H|H].
  - injection H as -> ->. now rewrite String.eqb_refl.
  - inversion Hnd as [|? ? Hni Hnd']; subst.
    destruct (String.eqb k' k) eqn:E.
    + apply String.eqb_eq in E. subst k'.
      exfalso. apply Hni. change k with (fst (k, v)). now apply in_map.
    + auto.
Qed.

(** The loop over the actions writes neither the credits nor the overflow. *)
Lemma process_action_frame (dm : DataManager) (date : string) (t t' : Tally)
    (action : Action) :
  process_action dm date t action = Ok t' ->
  daily_credits t' = daily_credits t /\ daily_overflow t' = daily_overflow t.
Proof.
  unfold process_action. intro H. do 3 bind_inv H.
  destruct a1; do 2 bind_inv H; injection H as <-; split; reflexivity.
Qed.

Lemma process_actions_frame (dm : DataManager) (date : string)
    (actions : list Action) :
  forall t t', foldM (process_action dm date) actions t = Ok t' ->
    daily_credits t' = daily_credits t /\ daily_overflow t' = daily_overflow t.
Proof.
  induction actions as [|a actions IH]; intros t t' H; simpl in H.
  - injection H as <-. auto.
  - bind_inv H. apply process_action_frame in E. apply IH in H.
    destruct E as [E1 E2], H as [H1 H2]. split; congruence.
Qed.

(** The three steps of [run_day]. *)
Lemma run_day_inv (dm : DataManager) (date : string) (actions : list Action)
    (res : DailyResult) (dm' : DataManager) :
  run_day dm date actions = Ok (res, dm') ->
  exists t1 t2 t3 stps3,
    foldM (process_action dm date) actions tally0 = Ok t1 /\
    foldM (process_farm dm (get_daily_demand_per_ha dm date)) (farm_deliveries t1) t1
      = Ok t2 /\
    process_stps dm t2 (stps dm) = (t3, stps3) /\
    res = mkDailyResult date (daily_credits t3) (daily_emissions t3)
            (daily_penalties t3)
            (daily_credits t3 - daily_emissions t3 - daily_penalties t3)
            (daily_delivered t3) (daily_overflow t3) (banned_count t3) /\
    dm' = set_stps dm stps3.
Proof.
  unfold run_day. intro H. bind_inv H. bind_inv H.
  destruct (process_stps dm a0 (stps dm)) as [t3 stps3] eqn:E3.
  injection H as <- <-. exists a, a0, t3, stps3. auto.
Qed.

(** C1. After [run_day] every plant holds
    [max(0, current_storage + daily_output - dispatched)] capped at
    [max_storage]: the storage never exceeds the capacity, it is not
    negative when the capacity is not, and what was cut off is exactly the
    plant's overflow, which is summed into [overflow_tons] and charged at the
    overflow penalty rate. *)
Theorem run_day_storage_bounds (dm : DataManager) (date : string)
    (actions : list Action) (res : DailyResult) (dm' : DataManager) :
  run_day dm date actions = Ok (res, dm') ->
  exists t1,
    foldM (process_action dm date) actions tally0 = Ok t1 /\
    let dispatched := stp_dispatches t1 in
    let leaching :=
      Qsum (map (farm_leaching dm (get_daily_demand_per_ha dm date))
              (farm_deliveries t1)) in
    Forall2 (fun item item' =>
               fst item' = fst item /\
               max_storage (snd item') = max_storage (snd item) /\
               current_storage (snd item') <= max_storage (snd item') /\
               (0 <= max_storage (snd item) -> 0 <= current_storage (snd item')) /\
               current_storage (snd item') + overflow_of dispatched item
                 == new_storage dispatched item /\
               current_storage (snd item') =
                 (if Qltb (max_storage (snd item)) (new_storage dispatched item)
                  then max_storage (snd item)
                  else new_storage dispatched item))
            (stps dm) (stps dm') /\
    (Forall (fun item => 0 <= max_storage (snd item)) (stps dm) ->
     Forall (fun item' => 0 <= current_storage (snd item') <= max_storage (snd item'))
            (stps dm')) /\
    overflow_tons res == Qsum (map (overflow_of dispatched) (stps dm)) /\
    penalties res ==
      daily_penalties t1 + leaching + overflow_tons res * overflow_penalty dm.
Proof.
  intro H. apply run_day_inv in H.
  destruct H as (t1 & t2 & t3 & stps3 & H1 & H2 & H3 & -> & ->).
  exists t1. split; [exact H1|]. cbv zeta.
  destruct (process_actions_frame _ _ _ _ _ H1) as [_ Ho1]. cbn [daily_overflow tally0] in Ho1.
  apply process_farms_tally in H2.
  destruct H2 as (_ & Hp2 & _ & _ & Ho2 & _ & _ & Hs2).
  apply process_stps_tally in H3.
  destruct H3 as (HF & Ho3 & Hp3 & _). rewrite Hs2 in *.
  assert (HF' : Forall2 (fun item item' =>
               fst item' = fst item /\
               max_storage (snd item') = max_storage (snd item) /\
               current_storage (snd item') <= max_storage (snd item') /\
               (0 <= max_storage (snd item) -> 0 <= current_storage (snd item')) /\
               current_storage (snd item') + overflow_of (stp_dispatches t1) item
                 == new_storage (stp_dispatches t1) item /\
               current_storage (snd item') =
                 (if Qltb (max_storage (snd item)) (new_storage (stp_dispatches t1) item)
                  then max_storage (snd item)
                  else new_storage (stp_dispatches t1) item))
            (stps dm) stps3).
  { clear -HF. induction HF as [|item item' l l' Hi _ IH]; constructor; [|exact IH].
    destruct Hi as (Hk & Hst & Hcs). unfold stp_static in Hst.
    injection Hst as _ _ Hm _ _.
    split; [exact Hk|]. split; [exact Hm|].
    rewrite Hm, Hcs. unfold overflow_of.
    assert (Hn : 0 <= new_storage (stp_dispatches t1) item)
      by (unfold new_storage; apply py_max_spec).
    destruct (Qltb (max_storage (snd item)) (new_storage (stp_dispatches t1) item)) eqn:E.
    - apply Qltb_lt in E. repeat split; lra.
    - apply Qltb_ge in E. repeat split; lra. }
  split; [exact HF'|]. cbn [stps set_stps overflow_tons penalties].
  split; [|split].
  - clear -HF'. induction HF' as [|item item' l l' Hi _ IH]; intro Hall.
    + constructor.
    + inversion Hall; subst. constructor; [|auto].
      destruct Hi as (_ & _ & Hu & Hl & _). split; auto.
  - rewrite Ho3, Ho2, Ho1. lra.
  - rewrite Hp3, Hp2, Ho3, Ho2, Ho1. lra.
Qed.

(** C9 for [run_day]: what it changes in the store. *)
Lemma run_day_frame (dm : DataManager) (date : string) (actions : list Action)
    (res : DailyResult) (dm' : DataManager) :
  run_day dm date actions = Ok (res, dm') ->
  config dm' = config dm /\
  farms dm' = farms dm /\
  weather_df dm' = weather_df dm /\
  n_demand_df dm' = n_demand_df dm /\
  keys (stps dm') = keys (stps dm) /\
  map stp_static (values (stps dm')) = map stp_static (values (stps dm)).
Proof.
  intro H. apply run_day_inv in H.
  destruct H as (t1 & t2 & t3 & stps3 & _ & _ & H3 & _ & ->).
  apply process_stps_tally in H3. destruct H3 as (HF & _).
  cbn [config farms weather_df n_demand_df stps set_stps].
  repeat split; try reflexivity; unfold keys, values.
  - induction HF as [|i i' l l' (Hk & _) _ IH]; simpl; congruence.
  - induction HF as [|i i' l l' (_ & Hst & _) _ IH]; simpl; congruence.
Qed.

(** ** Sorting *)

Section SortingFacts.
Context {A : Type}.
Variable key : A -> Q.

Lemma insert_desc_perm (x : A) (l : list A) :
  Permutation (insert_desc key x l) (x :: l).
Proof.
  induction l as [|y l IH]; simpl.
  - apply Permutation_refl.
  - destruct (Qltb (key x) (key y)).
    + eapply Permutation_trans; [apply perm_skip, IH | apply perm_swap].
    + apply Permutation_refl.
Qed.

Lemma sorted_desc_perm (l : list A) : Permutation (sorted_desc key l) l.
Proof.
  induction l as [|x l IH]; simpl.
  - apply perm_nil.
  - eapply Permutation_trans; [apply insert_desc_perm | apply perm_skip, IH].
Qed.

Lemma insert_desc_sorted (x : A) (l : list A) :
  StronglySorted (desc key) l -> StronglySorted (desc key) (insert_desc key x l).
Proof.
  induction 1 as [|y l Hs IH Hall]; simpl.
  - constructor; constructor.
  - destruct (Qltb (key x) (key y)) eqn:E.
    + constructor; [exact IH|].
      apply Qltb_lt in E.
      eapply Permutation_Forall; [apply Permutation_sym, insert_desc_perm|].
      constructor; [unfold desc; lra | exact Hall].
    + apply Qltb_ge in E. constructor; [constructor; assumption|].
      constructor; [exact E|].
      eapply Forall_impl; [|exact Hall]. unfold desc. intros z Hz. lra.
Qed.

Lemma sorted_desc_sorted (l : list A) : StronglySorted (desc key) (sorted_desc key l).
Proof.
  induction l as [|x l IH]; simpl.
  - constructor.
  - apply insert_desc_sorted, IH.
Qed.

(** The head of the sorted list has the largest key. *)
Lemma sorted_desc_head_max (l : list A) (x : A) (rest : list A) :
  sorted_desc key l = x :: rest -> Forall (fun y => key y <= key x) l.
Proof.
  intro H. pose proof (sorted_desc_sorted l) as Hs. rewrite H in Hs.
  inversion Hs as [|? ? _ Hall]; subst.
  eapply Permutation_Forall; [apply sorted_desc_perm|].
  rewrite H. constructor; [lra | exact Hall].
Qed.

Lemma sorted_desc_nil (l : list A) : sorted_desc key l = [] -> l = [].
Proof.
  intro H. pose proof (sorted_desc_perm l) as Hp. rewrite H in Hp.
  now apply Permutation_nil in Hp.
Qed.
End SortingFacts.

(** ** The dispatch solver *)

Lemma py_div_Ok (a b q : Q) : py_div a b = Ok q -> ~ b == 0 /\ q = a / b.
Proof.
  unfold py_div. destruct (Qeq_bool b 0) eqn:E; [discriminate|].
  intro H. injection H as <-. split; [|reflexivity].
  intro Hb. apply Qeq_bool_iff in Hb. congruence.
Qed.

Lemma py_div_nonzero (a b : Q) : ~ b == 0 -> py_div a b = Ok (a / b).
Proof.
  intro Hb. unfold py_div. destruct (Qeq_bool b 0) eqn:E; [|reflexivity].
  apply Qeq_bool_iff in E. contradiction.
Qed.

Lemma py_div_zero (a b : Q) : b == 0 -> py_div a b = Raise ZeroDivisionError.
Proof.
  intro Hb. unfold py_div. apply Qeq_bool_iff in Hb. now rewrite Hb.
Qed.

(** What one walk over a plant's options does to the state. *)
Lemma dispatch_inv (stp : STP) (options : list CorrectedSolver.DeliveryOption) :
  forall available actions visited r,
    CorrectedSolver.dispatch stp options available actions visited = Ok r ->
    exists new,
      snd (fst r) = actions ++ new /\
      snd r = rev (map farm_id new) ++ visited /\
      Forall (fun a => stp_id a = stp_ident stp) new /\
      (exists k, map farm_id new = firstn k (map CorrectedSolver.farm_of options)) /\
      fst (fst r) == available - Qsum (map amount_tons new) /\
      (0 <= available -> 0 <= fst (fst r)) /\
      (Forall (fun o => 1 <= CorrectedSolver.load_of o) options ->
       Forall (fun a => 1 <= amount_tons a) new).
Proof.
  induction options as [|[[[nb dist] fid] load] options IH];
    intros available actions visited r H; simpl in H.
  - injection H as <-. exists []. cbn [fst snd map rev app]. rewrite app_nil_r, Qsum_nil.
    repeat split; auto; try lra. exists O. reflexivity.
  - destruct (Qltb available 1) eqn:Ea.
    { injection H as <-. exists []. cbn [fst snd map rev app]. rewrite app_nil_r, Qsum_nil.
      repeat split; auto; try lra. exists O. reflexivity. }
    bind_inv H.
    destruct (Qltb 0 nb || Qltb (8 # 10) a) eqn:Ec.
    + apply IH in H. destruct H as (new & Ha & Hv & Hs & [k Hk] & Hq & Hn & Hl).
      exists (mkAction (stp_ident stp) fid (py_min available load) :: new).
      cbn [map farm_id amount_tons stp_id rev]. rewrite Qsum_cons.
      rewrite Ha, Hv, <- !app_assoc. cbn [app].
      destruct (py_min_spec available load) as (Hm1 & Hm2 & Hm3).
      apply Qltb_ge in Ea.
      repeat split.
      * constructor; [reflexivity | exact Hs].
      * exists (S k). cbn [firstn CorrectedSolver.farm_of fst snd]. now rewrite Hk.
      * rewrite Hq. lra.
      * intros _. apply Hn. lra.
      * intro Hall. inversion Hall as [|? ? Hl1 Hall']; subst.
        cbn [CorrectedSolver.load_of snd] in Hl1.
        constructor; [|auto]. cbn [amount_tons].
        destruct Hm3 as [-> | ->]; assumption.
    + injection H as <-. exists []. cbn [fst snd map rev app]. rewrite app_nil_r, Qsum_nil.
      repeat split; auto; try lra. exists O. reflexivity.
Qed.

(** What the candidate loop produces: one option per farm that is neither
    visited nor rain-locked, in the order of the farm registry. *)
Lemma delivery_options_inv (dm : DataManager) (date : string) (per_ha : dict Q)
    (stp : STP) (available : Q) (visited : list string) (items : dict Farm) :
  forall opts,
    CorrectedSolver.delivery_options dm date per_ha stp available visited items = Ok opts ->
    Forall (fun o =>
              exists farm,
                In (CorrectedSolver.farm_of o, farm) items /\
                mem (CorrectedSolver.farm_of o) visited = false /\
                is_rain_locked dm date (zone farm) = Ok false /\
                CorrectedSolver.score_option dm per_ha stp available
                  (CorrectedSolver.farm_of o) farm = Ok o)
           opts /\
    (NoDup (keys items) -> NoDup (map CorrectedSolver.farm_of opts)).
Proof.
  induction items as [|[fid farm] items IH]; intros opts H; simpl in H.
  - injection H as <-. split; constructor.
  - assert (Hweak : forall o : CorrectedSolver.DeliveryOption,
              (exists farm0, In (CorrectedSolver.farm_of o, farm0) items /\
                 mem (CorrectedSolver.farm_of o) visited = false /\
                 is_rain_locked dm date (zone farm0) = Ok false /\
                 CorrectedSolver.score_option dm per_ha stp available
                   (CorrectedSolver.farm_of o) farm0 = Ok o) ->
              exists farm0, In (CorrectedSolver.farm_of o, farm0) ((fid, farm) :: items) /\
                 mem (CorrectedSolver.farm_of o) visited = false /\
                 is_rain_locked dm date (zone farm0) = Ok false /\
                 CorrectedSolver.score_option dm per_ha stp available
                   (CorrectedSolver.farm_of o) farm0 = Ok o).
    { intros o (f0 & Hin & Hrest). exists f0. split; [now right | exact Hrest]. }
    assert (Hskip : forall opts0,
              CorrectedSolver.delivery_options dm date per_ha stp available visited items
                = Ok opts0 ->
              Forall (fun o => exists farm0,
                        In (CorrectedSolver.farm_of o, farm0) ((fid, farm) :: items) /\
                        mem (CorrectedSolver.farm_of o) visited = false /\
                        is_rain_locked dm date (zone farm0) = Ok false /\
                        CorrectedSolver.score_option dm per_ha stp available
                          (CorrectedSolver.farm_of o) farm0 = Ok o) opts0 /\
              (NoDup (keys ((fid, farm) :: items)) ->
               NoDup (map CorrectedSolver.farm_of opts0))).
    { intros opts0 H0. destruct (IH _ H0) as [HF Hnd]. split.
      - eapply Forall_impl; [exact Hweak | exact HF].
      - intro Hk. inversion Hk; subst. auto. }
    destruct (mem fid visited) eqn:Em; [now apply Hskip|].
    bind_inv H. destruct a; [now apply Hskip|].
    bind_inv H. bind_inv H. injection H as <-.
    assert (Hfo : CorrectedSolver.farm_of a = fid).
    { unfold CorrectedSolver.score_option in E0. bind_inv E0.
      injection E0 as <-. reflexivity. }
    destruct (IH _ E1) as [HF Hnd]. split.
    + constructor.
      * exists farm. rewrite Hfo. split; [now left | auto].
      * eapply Forall_impl; [exact Hweak | exact HF].
    + intro Hk. unfold keys in Hk. cbn [map fst] in Hk.
      apply NoDup_cons_iff in Hk. destruct Hk as [Hni Hk'].
      cbn [map]. constructor; [|auto].
      rewrite Hfo. intro Hin. apply Hni.
      apply in_map_iff in Hin. destruct Hin as (o & Ho & Hino).
      rewrite Forall_forall in HF. destruct (HF _ Hino) as (f0 & Hin0 & _).
      rewrite Ho in Hin0. unfold keys. change fid with (fst (fid, f0)).
      now apply in_map.
Qed.

Lemma py_min_Qmin (a b : Q) : py_min a b == Qmin a b.
Proof.
  destruct (Q.min_spec a b) as [[H ->] | [H ->]];
    unfold py_min; destruct (Qltb b a) eqn:E;
    try apply Qltb_lt in E; try apply Qltb_ge in E; lra.
Qed.

Lemma py_max_Qmax (a b : Q) : py_max a b == Qmax a b.
Proof.
  destruct (Q.max_spec a b) as [[H ->] | [H ->]];
    unfold py_max; destruct (Qltb a b) eqn:E;
    try apply Qltb_lt in E; try apply Qltb_ge in E; lra.
Qed.

(** The option computed for one farm. *)
Lemma score_option_inv (dm : DataManager) (per_ha : dict Q) (stp : STP)
    (available : Q) (fid : string) (farm : Farm) (o : CorrectedSolver.DeliveryOption) :
  CorrectedSolver.score_option dm per_ha stp available fid farm = Ok o ->
  exists dist,
    dict_get (distances farm) (stp_ident stp) = Some dist /\
    CorrectedSolver.farm_of o = fid /\
    CorrectedSolver.load_of o = py_min available 10 /\
    snd (fst (fst o)) = dist /\
    (application_buffer_percent (config dm) == 10 ->
     CorrectedSolver.net_benefit_of o ==
       nci_spec (py_min available 10) (n_content dm) dist
         (dict_get_default per_ha fid 0) (area_ha farm)).
Proof.
  unfold CorrectedSolver.score_option. intro H. bind_inv H.
  apply dict_index_Ok in E. injection H as <-. exists a.
  cbn [CorrectedSolver.farm_of CorrectedSolver.load_of CorrectedSolver.net_benefit_of
       fst snd].
  repeat split; try assumption. intro Hb.
  unfold nci_spec, soil_benefit_spec, nitrogen_offset_spec, transport_cost_spec,
    leaching_cost_spec, py_ceil, CorrectedSolver.soil_credit,
    CorrectedSolver.transport_cost_per_km, buffer_percent.
  set (load := py_min available 10).
  set (demand := dict_get_default per_ha fid 0 * area_ha farm).
  set (trucks := inject_Z (Qceiling (load / 10))).
  set (bp := application_buffer_percent (config dm)) in *.
  assert (Hsafe : demand * (1 + bp / 100) == demand * (110 # 100))
    by (rewrite Hb; reflexivity).
  pose proof (py_min_Qmin (load * n_content dm) demand) as Hmin.
  assert (Hmax : py_max 0 (load * n_content dm - demand * (1 + bp / 100))
                 == Qmax 0 (load * n_content dm - demand * (110 # 100))).
  { rewrite py_max_Qmax.
    destruct (Q.max_spec 0 (load * n_content dm - demand * (1 + bp / 100)))
      as [[H1 ->] | [H1 ->]];
    destruct (Q.max_spec 0 (load * n_content dm - demand * (110 # 100)))
      as [[H2 ->] | [H2 ->]]; lra. }
  rewrite Hmin, Hmax. lra.
Qed.

(** C8. Every option the solver scores carries, as its Net Carbon Impact,
    soil benefit + nitrogen offset benefit - transport cost - leaching cost
    for the load [min(available, 10)], the distance from the plant to the
    farm, the farm's area and its demand per hectare on the date (0 for a
    farm without a demand entry), when the application buffer is 10%. *)
Theorem net_carbon_impact_formula (dm : DataManager) (date : string) (stp : STP)
    (available : Q) (visited : list string)
    (opts : list CorrectedSolver.DeliveryOption) :
  application_buffer_percent (config dm) == 10 ->
  CorrectedSolver.delivery_options dm date (get_daily_demand_per_ha dm date) stp
    available visited (farms dm) = Ok opts ->
  Forall (fun o =>
            exists farm dist,
              In (CorrectedSolver.farm_of o, farm) (farms dm) /\
              dict_get (distances farm) (stp_ident stp) = Some dist /\
              CorrectedSolver.load_of o = py_min available 10 /\
              let demand_per_ha :=
                match dict_get (get_daily_demand_per_ha dm date)
                               (CorrectedSolver.farm_of o) with
                | Some d => d
                | None => 0
                end in
              CorrectedSolver.net_benefit_of o ==
                soil_benefit_spec (CorrectedSolver.load_of o)
                + nitrogen_offset_spec (CorrectedSolver.load_of o) (n_content dm)
                    demand_per_ha (area_ha farm)
                - transport_cost_spec (CorrectedSolver.load_of o) dist
                - leaching_cost_spec (CorrectedSolver.load_of o) (n_content dm)
                    demand_per_ha (area_ha farm))
         opts.
Proof.
  intros Hb H. apply delivery_options_inv in H. destruct H as [HF _].
  eapply Forall_impl; [|exact HF]. clear HF.
  intros o (farm & Hin & _ & _ & Hs).
  apply score_option_inv in Hs.
  destruct Hs as (dist & Hd & _ & Hl & _ & Hn).
  exists farm, dist. repeat split; try assumption.
  cbv zeta. rewrite Hl. apply (Hn Hb).
Qed.

Lemma In_firstn {A : Type} (k : nat) (l : list A) (x : A) :
  In x (firstn k l) -> In x l.
Proof.
  revert l. induction k as [|k IH]; intros [|y l]; simpl; try tauto.
  intros [H|H]; [now left | right; auto].
Qed.

(** What the body of the loop over the plants adds to the day's state. *)
Lemma solve_stp_inv (dm : DataManager) (date : string) (per_ha : dict Q)
    (st st' : list Action * list string) (stp : STP) :
  CorrectedSolver.solve_stp dm date per_ha st stp = Ok st' ->
  exists new,
    fst st' = fst st ++ new /\
    snd st' = rev (map farm_id new) ++ snd st /\
    Forall (fun a =>
              stp_id a = stp_ident stp /\
              1 <= amount_tons a /\
              mem (farm_id a) (snd st) = false /\
              exists farm,
                In (farm_id a, farm) (farms dm) /\
                is_rain_locked dm date (zone farm) = Ok false /\
                dict_get (distances farm) (stp_ident stp) <> None)
           new /\
    (NoDup (keys (farms dm)) -> NoDup (map farm_id new)) /\
    (current_storage stp + daily_output stp < 1 -> new = []) /\
    (0 <= current_storage stp + daily_output stp ->
     Qsum (map amount_tons new) <= current_storage stp + daily_output stp).
Proof.
  unfold CorrectedSolver.solve_stp. set (available := current_storage stp + daily_output stp).
  destruct (Qltb available 1) eqn:Ea.
  { intro H. injection H as <-. exists []. cbn [map rev app]. rewrite app_nil_r, Qsum_nil.
    repeat split; auto. constructor. }
  intro H. bind_inv H. bind_inv H. injection H as <-. cbn [fst snd].
  apply Qltb_ge in Ea.
  apply delivery_options_inv in E. destruct E as [HF Hnd].
  pose proof (sorted_desc_perm CorrectedSolver.net_benefit_of a) as Hperm.
  apply dispatch_inv in E0.
  destruct E0 as (new & Ha & Hv & Hs & [k Hk] & Hq & Hn & Hl).
  exists new. split; [exact Ha|]. split; [exact Hv|].
  assert (HF' := Permutation_Forall (Permutation_sym Hperm) HF).
  assert (Hfarms : forall fid, In fid (map farm_id new) ->
            exists o, In o (sorted_desc CorrectedSolver.net_benefit_of a) /\
                      CorrectedSolver.farm_of o = fid).
  { intros fid Hin. rewrite Hk in Hin. apply In_firstn in Hin.
    apply in_map_iff in Hin. destruct Hin as (o & Ho & Hin). eauto. }
  assert (Hloads : Forall (fun o => 1 <= CorrectedSolver.load_of o)
                     (sorted_desc CorrectedSolver.net_benefit_of a)).
  { eapply Forall_impl; [|exact HF']. intros o (farm & _ & _ & _ & Hsc).
    apply score_option_inv in Hsc. destruct Hsc as (_ & _ & _ & -> & _).
    destruct (py_min_spec available 10) as (_ & _ & [-> | ->]); lra. }
  specialize (Hl Hloads).
  repeat split.
  - rewrite Forall_forall in *. intros act Hact.
    destruct (Hfarms (farm_id act) (in_map farm_id _ _ Hact)) as (o & Ho & Hfo).
    destruct (HF' _ Ho) as (farm & Hin & Hm & Hr & Hsc).
    apply score_option_inv in Hsc. destruct Hsc as (dist & Hd & _).
    rewrite Hfo in *.
    repeat split; auto. exists farm. repeat split; auto. congruence.
  - intro Hk0. specialize (Hnd Hk0).
    rewrite Hk.
    assert (Hnd' : NoDup (map CorrectedSolver.farm_of
                            (sorted_desc CorrectedSolver.net_benefit_of a))).
    { eapply Permutation_NoDup; [|exact Hnd].
      apply Permutation_map, Permutation_sym, Hperm. }
    rewrite <- (firstn_skipn k) in Hnd'. now apply NoDup_app_remove_r in Hnd'.
  - intro Hlt. lra.
  - intro H0. specialize (Hn H0). lra.
Qed.

Lemma mem_false (k : string) (s : list string) : mem k s = false <-> ~ In k s.
Proof.
  unfold mem. split.
  - intros H Hin. assert (existsb (String.eqb k) s = true); [|congruence].
    apply existsb_exists. exists k. split; [exact Hin | apply String.eqb_refl].
  - intro Hni. destruct (existsb (String.eqb k) s) eqn:E; [|reflexivity].
    apply existsb_exists in E. destruct E as (x & Hin & Heq).
    apply String.eqb_eq in Heq. subst. contradiction.
Qed.

Lemma Qsum_app (l1 l2 : list Q) : Qsum (l1 ++ l2) == Qsum l1 + Qsum l2.
Proof.
  induction l1 as [|x l1 IH]; cbn [app].
  - rewrite Qsum_nil. lra.
  - rewrite !Qsum_cons, IH. lra.
Qed.

Lemma tons_from_app (key : string) (l1 l2 : list Action) :
  tons_from key (l1 ++ l2) == tons_from key l1 + tons_from key l2.
Proof.
  unfold tons_from. rewrite filter_app, map_app. apply Qsum_app.
Qed.

Lemma filter_from_all (key : string) (l : list Action) :
  Forall (fun a => stp_id a = key) l ->
  filter (fun a => String.eqb (stp_id a) key) l = l.
Proof.
  induction 1 as [|a l Ha _ IH]; simpl; [reflexivity|].
  rewrite Ha, String.eqb_refl, IH. reflexivity.
Qed.

Lemma filter_from_none (key : string) (l : list Action) :
  Forall (fun a => stp_id a <> key) l ->
  filter (fun a => String.eqb (stp_id a) key) l = [].
Proof.
  induction 1 as [|a l Ha _ IH]; simpl; [reflexivity|].
  destruct (String.eqb (stp_id a) key) eqn:E; [|exact IH].
  apply String.eqb_eq in E. contradiction.
Qed.

(** What the loop over the plants adds to the day's state. *)
Lemma solve_stps_inv (dm : DataManager) (date : string) (per_ha : dict Q)
    (l : list STP) :
  forall st st',
    foldM (CorrectedSolver.solve_stp dm date per_ha) l st = Ok st' ->
    exists new,
      fst st' = fst st ++ new /\
      snd st' = rev (map farm_id new) ++ snd st /\
      Forall (fun a =>
                In (stp_id a) (map stp_ident l) /\
                1 <= amount_tons a /\
                mem (farm_id a) (snd st) = false /\
                exists farm,
                  In (farm_id a, farm) (farms dm) /\
                  is_rain_locked dm date (zone farm) = Ok false /\
                  dict_get (distances farm) (stp_id a) <> None)
             new /\
      (NoDup (keys (farms dm)) -> NoDup (map farm_id new)) /\
      (NoDup (map stp_ident l) ->
       forall stp, In stp l ->
         (current_storage stp + daily_output stp < 1 ->
          filter (fun a => String.eqb (stp_id a) (stp_ident stp)) new = []) /\
         (0 <= current_storage stp + daily_output stp ->
          tons_from (stp_ident stp) new <= current_storage stp + daily_output stp)).
Proof.
  induction l as [|s l IH]; intros st st' H; simpl in H.
  - injection H as <-. exists []. cbn [map rev app]. rewrite app_nil_r.
    repeat split; auto; try constructor; contradiction.
  - bind_inv H. apply solve_stp_inv in E.
    destruct E as (new1 & Ha1 & Hv1 & HF1 & Hnd1 & He1 & Hq1).
    apply IH in H. destruct H as (new2 & Ha2 & Hv2 & HF2 & Hnd2 & Hper2).
    exists (new1 ++ new2).
    rewrite Ha2, Ha1, Hv2, Hv1, map_app, rev_app_distr, <- !app_assoc.
    split; [reflexivity|]. split; [reflexivity|].
    assert (HF2' : Forall (fun a => ~ In (farm_id a) (map farm_id new1) /\
                                    mem (farm_id a) (snd st) = false) new2).
    { eapply Forall_impl; [|exact HF2]. intros a0 (_ & _ & Hm & _).
      rewrite Hv1 in Hm. apply mem_false in Hm. split.
      - intro Hin. apply Hm, in_or_app. left. now apply in_rev in Hin.
      - apply mem_false. intro Hin. apply Hm, in_or_app. now right. }
    split; [|split].
    + apply Forall_app. split.
      * eapply Forall_impl; [|exact HF1].
        intros a0 (Hs & Hone & Hm & farm & Hin & Hr & Hd).
        cbn [map]. split; [left; congruence|]. repeat split; auto.
        exists farm. rewrite Hs. auto.
      * rewrite Forall_forall in *. intros a0 Hin0.
        destruct (HF2 _ Hin0) as (Hs & Hone & _ & Hfarm).
        destruct (HF2' _ Hin0) as (_ & Hm).
        cbn [map]. split; [now right|]. auto.
    + intro Hk. apply NoDup_app; auto.
      intros fid Hin1 Hin2. apply in_map_iff in Hin2.
      destruct Hin2 as (a0 & <- & Hin2).
      rewrite Forall_forall in HF2'. destruct (HF2' _ Hin2) as (Hni & _). contradiction.
    + cbn [map]. intros Hnds. apply NoDup_cons_iff in Hnds. destruct Hnds as [Hni Hnds].
      assert (Hfrom1 : Forall (fun a0 => stp_id a0 = stp_ident s) new1).
      { eapply Forall_impl; [|exact HF1]. now intros a0 (Hs & _). }
      assert (Hfrom2 : Forall (fun a0 => In (stp_id a0) (map stp_ident l)) new2).
      { eapply Forall_impl; [|exact HF2]. now intros a0 (Hs & _). }
      intros stp [<- | Hin].
      * assert (Hnone : filter (fun a0 => String.eqb (stp_id a0) (stp_ident s)) new2 = []).
        { apply filter_from_none. eapply Forall_impl; [|exact Hfrom2].
          cbv beta. intros a0 Hin0 Heq. rewrite Heq in Hin0. contradiction. }
        split.
        -- intro Hlt. rewrite filter_app, Hnone, app_nil_r, (He1 Hlt). reflexivity.
        -- intro H0. rewrite tons_from_app. unfold tons_from at 2. rewrite Hnone.
           cbn [map]. rewrite Qsum_nil. unfold tons_from.
           rewrite (filter_from_all _ _ Hfrom1). specialize (Hq1 H0). lra.
      * assert (Hne : stp_ident stp <> stp_ident s).
        { intro Heq. apply Hni. rewrite <- Heq. now apply in_map. }
        assert (Hnone : filter (fun a0 => String.eqb (stp_id a0) (stp_ident stp)) new1 = []).
        { apply filter_from_none. eapply Forall_impl; [|exact Hfrom1].
          cbv beta. intros a0 Heq. congruence. }
        destruct (Hper2 Hnds stp Hin) as [Hlt2 Hq2]. split.
        -- intro Hlt. rewrite filter_app, Hnone. cbn [app]. auto.
        -- intro H0. rewrite tons_from_app. unfold tons_from at 1. rewrite Hnone.
           cbn [map]. rewrite Qsum_nil. specialize (Hq2 H0). lra.
Qed.

Lemma sorted_stps_idents (dm : DataManager) :
  well_formed dm ->
  NoDup (map stp_ident (CorrectedSolver.sorted_stps dm)) /\
  (forall key, In key (map stp_ident (CorrectedSolver.sorted_stps dm)) <->
               In key (keys (stps dm))).
Proof.
  intros (Hnd & Hid & _).
  assert (Hk : map stp_ident (values (stps dm)) = keys (stps dm)).
  { unfold values, keys. rewrite map_map. apply map_ext_in.
    rewrite Forall_forall in Hid. intros item Hin. now apply Hid. }
  assert (Hp : Permutation (map stp_ident (CorrectedSolver.sorted_stps dm))
                           (keys (stps dm))).
  { rewrite <- Hk. apply Permutation_map, sorted_desc_perm. }
  split.
  - eapply Permutation_NoDup; [apply Permutation_sym, Hp | exact Hnd].
  - intro key. split; apply Permutation_in; [exact Hp | apply Permutation_sym, Hp].
Qed.

(** The day's plan, action by action. *)
Lemma solve_day_inv (dm : DataManager) (date : string) (actions : list Action) :
  CorrectedSolver.solve_day dm date = Ok actions ->
  Forall (fun a =>
            In (stp_id a) (map stp_ident (CorrectedSolver.sorted_stps dm)) /\
            1 <= amount_tons a /\
            exists farm,
              In (farm_id a, farm) (farms dm) /\
              is_rain_locked dm date (zone farm) = Ok false /\
              dict_get (distances farm) (stp_id a) <> None)
         actions /\
  (NoDup (keys (farms dm)) -> NoDup (map farm_id actions)) /\
  (NoDup (map stp_ident (CorrectedSolver.sorted_stps dm)) ->
   forall stp, In stp (CorrectedSolver.sorted_stps dm) ->
     (current_storage stp + daily_output stp < 1 ->
      filter (fun a => String.eqb (stp_id a) (stp_ident stp)) actions = []) /\
     (0 <= current_storage stp + daily_output stp ->
      tons_from (stp_ident stp) actions <= current_storage stp + daily_output stp)).
Proof.
  unfold CorrectedSolver.solve_day. intro H. bind_inv H. injection H as <-.
  apply solve_stps_inv in E. destruct E as (new & Ha & _ & HF & Hnd & Hper).
  cbn [fst app] in Ha. rewrite Ha. split; [|split; assumption].
  eapply Forall_impl; [|exact HF]. intros a0 (H1 & H2 & _ & H3). auto.
Qed.

(** C5. The plan of a day is tonnage-feasible: every action carries at least
    1.0 ton (so more than none) from a plant of the registry, a plant with
    less than 1.0 ton available sends nothing, and the tons sent from one
    plant add up to at most its current storage plus its daily output. *)
Theorem solve_day_tonnage_feasible (dm : DataManager) (date : string)
    (actions : list Action) :
  well_formed dm ->
  CorrectedSolver.solve_day dm date = Ok actions ->
  Forall (fun a => 1 <= amount_tons a /\ 0 < amount_tons a /\
                   In (stp_id a) (keys (stps dm))) actions /\
  forall key stp, dict_get (stps dm) key = Some stp ->
    let available := current_storage stp + daily_output stp in
    (available < 1 -> Forall (fun a => stp_id a <> key) actions) /\
    (0 <= available -> tons_from key actions <= available).
Proof.
  intros Hwf H. destruct (sorted_stps_idents dm Hwf) as [Hnd Hkeys].
  apply solve_day_inv in H. destruct H as (HF & _ & Hper). specialize (Hper Hnd).
  split.
  - eapply Forall_impl; [|exact HF]. intros a (Hs & Hone & _).
    repeat split; [exact Hone | lra | now apply Hkeys].
  - intros key stp Hget. cbv zeta.
    destruct Hwf as (_ & Hid & _).
    apply dict_get_In in Hget.
    assert (Hident : stp_ident stp = key).
    { rewrite Forall_forall in Hid. exact (Hid _ Hget). }
    assert (Hin : In stp (CorrectedSolver.sorted_stps dm)).
    { eapply Permutation_in; [apply Permutation_sym, sorted_desc_perm|].
      unfold values. change stp with (snd (key, stp)). now apply in_map. }
    destruct (Hper stp Hin) as [Hlt Hle]. rewrite Hident in *. split; [|exact Hle].
    intro Hl. specialize (Hlt Hl). apply Forall_forall. intros a Hina Heq.
    assert (Hinf : In a (filter (fun a0 => String.eqb (stp_id a0) key) actions)).
    { apply filter_In. split; [exact Hina|]. now apply String.eqb_eq. }
    rewrite Hlt in Hinf. contradiction.
Qed.

Lemma NoDup_map_eq {A B : Type} (f : A -> B) (l : list A) (a b : A) :
  NoDup (map f l) -> In a l -> In b l -> f a = f b -> a = b.
Proof.
  induction l as [|x l IH]; simpl; [tauto|].
  intros Hnd Ha Hb Hf. apply NoDup_cons_iff in Hnd. destruct Hnd as [Hni Hnd].
  destruct Ha as [-> | Ha], Hb as [-> | Hb]; auto.
  - exfalso. apply Hni. rewrite Hf. now apply in_map.
  - exfalso. apply Hni. rewrite <- Hf. now apply in_map.
Qed.

(** C6. No farm is the destination of two actions of one day's plan: the
    candidate loop leaves out every farm of the visited set, so the actions
    have pairwise different farms, and two actions for one farm are one
    action, from one plant. *)
Theorem solve_day_one_delivery_per_farm (dm : DataManager) (date : string)
    (actions : list Action) :
  NoDup (keys (farms dm)) ->
  CorrectedSolver.solve_day dm date = Ok actions ->
  NoDup (map farm_id actions) /\
  (forall a b, In a actions -> In b actions -> farm_id a = farm_id b ->
               a = b /\ stp_id a = stp_id b) /\
  (forall per_ha stp available visited opts,
     CorrectedSolver.delivery_options dm date per_ha stp available visited (farms dm)
       = Ok opts ->
     Forall (fun o => ~ In (CorrectedSolver.farm_of o) visited) opts).
Proof.
  intros Hk H. apply solve_day_inv in H. destruct H as (_ & Hnd & _).
  specialize (Hnd Hk). split; [exact Hnd|]. split.
  - intros a b Ha Hb Hf.
    assert (a = b) by (eapply NoDup_map_eq; eauto). subst. auto.
  - intros per_ha stp available visited opts Ho.
    apply delivery_options_inv in Ho. destruct Ho as [HF _].
    eapply Forall_impl; [|exact HF]. intros o (farm & _ & Hm & _).
    now apply mem_false.
Qed.

Lemma dict_set_Forall_keys {V : Type} (P : string -> Prop) (d : dict V)
    (k : string) (v : V) :
  Forall (fun item => P (fst item)) d -> P k ->
  Forall (fun item => P (fst item)) (dict_set d k v).
Proof.
  intros Hd Hk. induction Hd as [|[k' v'] d Hi Hd IH]; simpl.
  - constructor; [exact Hk | constructor].
  - destruct (String.eqb k' k); constructor; simpl in *; auto.
Qed.

(** An action whose farm is not rain-locked leaves the rejection counter. *)
Lemma process_action_unlocked (dm : DataManager) (date : string) (t t' : Tally)
    (action : Action) (farm : Farm) :
  dict_get (farms dm) (farm_id action) = Some farm ->
  is_rain_locked dm date (zone farm) = Ok false ->
  process_action dm date t action = Ok t' ->
  banned_count t' = banned_count t.
Proof.
  intros Hf Hl. unfold process_action, dict_index. rewrite Hf. cbn [bind].
  intro H. bind_inv H. rewrite Hl in H. cbn [bind] in H.
  do 2 bind_inv H. injection H as <-. reflexivity.
Qed.

(** An accepted action is processed without an exception when its plant and
    the distance to it are known and trucks have a capacity. *)
Lemma process_action_total (dm : DataManager) (date : string) (t : Tally)
    (action : Action) (farm : Farm) :
  dict_get (farms dm) (farm_id action) = Some farm ->
  dict_get (stps dm) (stp_id action) <> None ->
  dict_get (distances farm) (stp_id action) <> None ->
  ~ truck_capacity dm == 0 ->
  is_rain_locked dm date (zone farm) = Ok false ->
  Forall (fun item => dict_get (farms dm) (fst item) <> None) (farm_deliveries t) ->
  exists t',
    process_action dm date t action = Ok t' /\
    Forall (fun item => dict_get (farms dm) (fst item) <> None) (farm_deliveries t').
Proof.
  intros Hf Hs Hd Hc Hl Hall. unfold process_action, dict_index. rewrite Hf.
  destruct (dict_get (stps dm) (stp_id action)); [|contradiction].
  cbn [bind]. rewrite Hl. cbn [bind].
  destruct (dict_get (distances farm) (stp_id action)); [|contradiction].
  cbn [bind]. rewrite (py_div_nonzero _ _ Hc). cbn [bind].
  eexists. split; [reflexivity|]. cbn [farm_deliveries].
  apply (dict_set_Forall_keys (fun k => dict_get (farms dm) k <> None)); [exact Hall|].
  rewrite Hf. discriminate.
Qed.

Lemma solve_day_deliverable (dm : DataManager) (date : string)
    (actions : list Action) :
  well_formed dm ->
  CorrectedSolver.solve_day dm date = Ok actions ->
  Forall (deliverable dm date) actions.
Proof.
  intros Hwf H. destruct (sorted_stps_idents dm Hwf) as [_ Hkeys].
  destruct Hwf as (_ & _ & Hfk).
  apply solve_day_inv in H. destruct H as (HF & _ & _).
  eapply Forall_impl; [|exact HF]. intros a (Hs & _ & farm & Hin & Hr & Hd).
  split; [apply dict_get_keys, Hkeys, Hs|].
  exists farm. split; [now apply In_dict_get | auto].
Qed.

Lemma run_day_deliverable_banned (dm : DataManager) (date : string)
    (actions : list Action) (res : DailyResult) (dm' : DataManager) :
  Forall (deliverable dm date) actions ->
  run_day dm date actions = Ok (res, dm') ->
  banned_actions res = O.
Proof.
  intros HF Hrun.
  assert (Hbanned : forall t t',
            foldM (process_action dm date) actions t = Ok t' ->
            banned_count t' = banned_count t).
  { clear Hrun.
    induction HF as [|a l (_ & farm & Hf & Hr & _) _ IH]; intros t t' Hfold;
      simpl in Hfold.
    - now injection Hfold as <-.
    - bind_inv Hfold. rewrite (IH _ _ Hfold).
      eapply process_action_unlocked; eauto. }
  apply run_day_inv in Hrun.
  destruct Hrun as (t1 & t2 & t3 & stps3 & H1 & H2 & H3 & -> & _).
  cbn [banned_actions].
  apply process_farms_tally in H2. apply process_stps_tally in H3.
  destruct H2 as (_ & _ & _ & _ & _ & Hb2 & _).
  destruct H3 as (_ & _ & _ & _ & _ & _ & Hb3 & _).
  rewrite Hb3, Hb2, (Hbanned _ _ H1). reflexivity.
Qed.

Lemma run_day_deliverable_total (dm : DataManager) (date : string)
    (actions : list Action) :
  Forall (deliverable dm date) actions ->
  ~ truck_capacity dm == 0 ->
  exists res dm', run_day dm date actions = Ok (res, dm').
Proof.
  intros HF Hc.
  assert (Htotal : forall t,
            Forall (fun item => dict_get (farms dm) (fst item) <> None)
                   (farm_deliveries t) ->
            exists t',
              foldM (process_action dm date) actions t = Ok t' /\
              Forall (fun item => dict_get (farms dm) (fst item) <> None)
                     (farm_deliveries t')).
  { induction HF as [|a l (Hs & farm & Hf & Hr & Hd) _ IH]; intros t Hall; simpl.
    - eauto.
    - destruct (process_action_total dm date t a farm Hf Hs Hd Hc Hr Hall)
        as (t1 & -> & Hall1).
      cbn [bind]. apply IH, Hall1. }
  destruct (Htotal tally0 (Forall_nil _)) as (t1 & H1 & Hall1).
  destruct (process_farms_total dm (get_daily_demand_per_ha dm date) _ Hall1 t1)
    as (t2 & H2).
  unfold run_day. rewrite H1. cbn [bind]. rewrite H2. cbn [bind].
  destruct (process_stps dm t2 (stps dm)) as [t3 stps3]. eauto.
Qed.

(** C10. The simulator rejects no action of the solver's own plan for the
    date: every planned farm passed the rain-lock test the simulator repeats,
    so [run_day] on the plan reports [banned_actions = 0]; and it does return
    a result whenever the truck capacity is not zero. *)
Theorem solver_plan_never_banned (dm : DataManager) (date : string)
    (actions : list Action) :
  well_formed dm ->
  CorrectedSolver.solve_day dm date = Ok actions ->
  (forall res dm', run_day dm date actions = Ok (res, dm') ->
                   banned_actions res = O) /\
  (~ truck_capacity dm == 0 ->
   exists res dm', run_day dm date actions = Ok (res, dm') /\ banned_actions res = O).
Proof.
  intros Hwf H. pose proof (solve_day_deliverable dm date actions Hwf H) as HF.
  split.
  - intros res dm'. now apply run_day_deliverable_banned.
  - intro Hc. destruct (run_day_deliverable_total dm date actions HF Hc)
      as (res & dm' & Hrun).
    exists res, dm'. split; [exact Hrun|].
    eapply run_day_deliverable_banned; eauto.
Qed.

(** ** The acceptance walk *)

Lemma dispatch_total (stp : STP) (options : list CorrectedSolver.DeliveryOption) :
  ~ max_storage stp == 0 ->
  forall available actions visited,
    exists r, CorrectedSolver.dispatch stp options available actions visited = Ok r.
Proof.
  intro Hm. induction options as [|[[[nb dist] fid] load] options IH];
    intros available actions visited; simpl.
  - eauto.
  - destruct (Qltb available 1); [eauto|].
    rewrite (py_div_nonzero _ _ Hm). cbn [bind].
    destruct (Qltb 0 nb || Qltb (8 # 10) (current_storage stp / max_storage stp));
      [apply IH | eauto].
Qed.

(** The fill ratio of the walk is computed without the guard of the triage
    key: with material to send and an option to look at, a plant whose
    capacity is 0 raises. *)
Lemma dispatch_zero_capacity (stp : STP) (o : CorrectedSolver.DeliveryOption)
    (rest : list CorrectedSolver.DeliveryOption) (available : Q)
    (actions : list Action) (visited : list string) :
  max_storage stp == 0 -> 1 <= available ->
  CorrectedSolver.dispatch stp (o :: rest) available actions visited
  = Raise ZeroDivisionError.
Proof.
  intros Hm Ha. destruct o as [[[nb dist] fid] load]. simpl.
  apply Qltb_ge in Ha. rewrite Ha, (py_div_zero _ _ Hm). reflexivity.
Qed.

Lemma delivery_options_eligible (dm : DataManager) (date : string) (per_ha : dict Q)
    (stp : STP) (available : Q) (visited : list string) (fid : string) (farm : Farm)
    (items : dict Farm) :
  forall opts,
    CorrectedSolver.delivery_options dm date per_ha stp available visited items = Ok opts ->
    In (fid, farm) items -> mem fid visited = false ->
    is_rain_locked dm date (zone farm) = Ok false ->
    opts <> [].
Proof.
  induction items as [|[fid0 farm0] items IH]; intros opts H Hin Hm Hr; simpl in *.
  - contradiction.
  - destruct Hin as [Heq | Hin].
    + injection Heq as -> ->. rewrite Hm, Hr in H. cbn [bind] in H.
      do 2 bind_inv H. injection H as <-. discriminate.
    + destruct (mem fid0 visited); [eauto|].
      bind_inv H. destruct a; [eauto|].
      do 2 bind_inv H. injection H as <-. discriminate.
Qed.

(** With the identity for the rounding the rounded definitions are the exact
    ones. *)
Lemma rounded_exact_is_rain_locked (dm : DataManager) (date zone : string) :
  Rounded.is_rain_locked (fun x => x) dm date zone
  = BiosolidSimulator.is_rain_locked dm date zone.
Proof. reflexivity. Qed.

Lemma rounded_exact_score_option (dm : DataManager) (per_ha : dict Q) (stp : STP)
    (available : Q) (fid : string) (farm : Farm) :
  Rounded.score_option (fun x => x) dm per_ha stp available fid farm
  = CorrectedSolver.score_option dm per_ha stp available fid farm.
Proof. reflexivity. Qed.

Lemma rounded_exact_delivery_options (dm : DataManager) (date : string)
    (per_ha : dict Q) (stp : STP) (available : Q) (visited : list string)
    (items : dict Farm) :
  Rounded.delivery_options (fun x => x) dm date per_ha stp available visited items
  = CorrectedSolver.delivery_options dm date per_ha stp available visited items.
Proof.
  induction items as [|[fid farm] items IH]; simpl; [reflexivity|].
  rewrite IH, rounded_exact_is_rain_locked, rounded_exact_score_option. reflexivity.
Qed.

Lemma rounded_exact_dispatch (stp : STP) (options : list CorrectedSolver.DeliveryOption) :
  forall available actions visited,
    Rounded.dispatch (fun x => x) stp options available actions visited
    = CorrectedSolver.dispatch stp options available actions visited.
Proof.
  induction options as [|[[[nb dist] fid] load] options IH];
    intros available actions visited; simpl; [reflexivity|].
  destruct (Qltb available 1); [reflexivity|].
  destruct (py_div (current_storage stp) (max_storage stp)) as [ratio|e];
    [|reflexivity].
  cbn [bind]. destruct (Qltb 0 nb || Qltb (8 # 10) ratio); [apply IH | reflexivity].
Qed.

Lemma rounded_exact_solve_stp (dm : DataManager) (date : string) (per_ha : dict Q)
    (st : list Action * list string) (stp : STP) :
  Rounded.solve_stp (fun x => x) dm date per_ha st stp
  = CorrectedSolver.solve_stp dm date per_ha st stp.
Proof.
  unfold Rounded.solve_stp, CorrectedSolver.solve_stp.
  destruct (Qltb (current_storage stp + daily_output stp) 1); [reflexivity|].
  rewrite rounded_exact_delivery_options.
  destruct (CorrectedSolver.delivery_options dm date per_ha stp
              (current_storage stp + daily_output stp) (snd st) (farms dm));
    [|reflexivity].
  cbn [bind]. now rewrite rounded_exact_dispatch.
Qed.

Lemma rounded_exact_solve_day (dm : DataManager) (date : string) :
  Rounded.solve_day (fun x => x) dm date = CorrectedSolver.solve_day dm date.
Proof.
  unfold Rounded.solve_day, CorrectedSolver.solve_day.
  change (Rounded.sorted_stps (fun x => x) dm) with (CorrectedSolver.sorted_stps dm).
  generalize (CorrectedSolver.sorted_stps dm) (@nil Action, @nil string).
  intros l. induction l as [|stp l IH]; intro st; [reflexivity|].
  cbn [foldM]. rewrite rounded_exact_solve_stp.
  destruct (CorrectedSolver.solve_stp dm date (get_daily_demand_per_ha dm date) st stp)
    as [st'|e]; [|reflexivity].
  cbn [bind] in *. apply IH.
Qed.

(** The candidate loop keeps every farm that is neither visited nor
    rain-locked. *)
Lemma rounded_delivery_options_eligible (rnd : Q -> Q) (dm : DataManager)
    (date : string) (per_ha : dict Q) (stp : STP) (available : Q)
    (visited : list string) (fid : string) (farm : Farm) (items : dict Farm) :
  forall opts,
    Rounded.delivery_options rnd dm date per_ha stp available visited items = Ok opts ->
    In (fid, farm) items -> mem fid visited = false ->
    Rounded.is_rain_locked rnd dm date (zone farm) = Ok false ->
    opts <> [].
Proof.
  induction items as [|[fid0 farm0] items IH]; intros opts H Hin Hm Hr; simpl in *.
  - contradiction.
  - destruct Hin as [Heq | Hin].
    + injection Heq as -> ->. rewrite Hm, Hr in H. cbn [bind] in H.
      do 2 bind_inv H. injection H as <-. discriminate.
    + destruct (mem fid0 visited); [eauto|].
      bind_inv H. destruct a; [eauto|].
      do 2 bind_inv H. injection H as <-. discriminate.
Qed.

(** The loop of lines 115-130 is the walk of the specification. *)
Lemma rounded_dispatch_walk (rnd : Q -> Q) (stp : STP)
    (options : list CorrectedSolver.DeliveryOption) :
  ~ max_storage stp == 0 ->
  forall available actions visited,
    exists left new,
      Rounded.dispatch rnd stp options available actions visited
      = Ok (left, actions ++ new, rev (map farm_id new) ++ visited) /\
      ranked_walk rnd (stp_ident stp)
        (Qltb (rnd (8 # 10)) (rnd (current_storage stp / max_storage stp)))
        options available new.
Proof.
  intro Hm.
  remember (Qltb (rnd (8 # 10)) (rnd (current_storage stp / max_storage stp)))
    as panic eqn:Ep.
  induction options as [|[[[nb dist] fid] load] options IH];
    intros available actions visited; cbn [Rounded.dispatch].
  - exists available, []. rewrite app_nil_r. split; [reflexivity | constructor].
  - destruct (Qltb available 1) eqn:Ea.
    { exists available, []. rewrite app_nil_r. split; [reflexivity|].
      apply walk_short. now apply Qltb_lt. }
    apply Qltb_ge in Ea.
    rewrite (py_div_nonzero _ _ Hm). cbn [bind]. rewrite <- Ep.
    destruct (IH (rnd (available - py_min available load))
                (actions ++ [mkAction (stp_ident stp) fid (py_min available load)])
                (fid :: visited)) as (left & new & Hd & Hw).
    destruct (Qltb 0 nb || panic) eqn:Ec.
    + exists left, (mkAction (stp_ident stp) fid (py_min available load) :: new).
      rewrite Hd. cbn [map rev farm_id]. rewrite <- !app_assoc. cbn [app].
      split; [reflexivity|].
      apply (walk_accept rnd (stp_ident stp) panic (nb, dist, fid, load)); auto.
      apply orb_true_iff in Ec. destruct Ec as [Ec|Ec]; [left | now right].
      now apply Qltb_lt.
    + apply orb_false_iff in Ec. destruct Ec as [En Epf].
      exists available, []. rewrite app_nil_r. split; [reflexivity|].
      apply walk_cutoff; auto. now apply Qltb_ge.
Qed.

(** The walk determines the actions. *)
Lemma ranked_walk_functional (rnd : Q -> Q) (source : string) (panic : bool)
    (options : list CorrectedSolver.DeliveryOption) (remaining : Q)
    (new : list Action) :
  ranked_walk rnd source panic options remaining new ->
  forall other, ranked_walk rnd source panic options remaining other -> other = new.
Proof.
  intro Hw. induction Hw as [r|o rest r Hlt|o rest r Hge Hnb Hp|o rest r new Hge Hacc Hw IH];
    intros other Ho; inversion Ho; subst; try reflexivity; try lra; try congruence;
    try match goal with
        | H : _ \/ _ |- _ => destruct H as [Hpos|Hpt]; [lra | congruence]
        end.
  f_equal. now apply IH.
Qed.

(** C4, as the code has it. For a plant with a capacity other than 0,
    [solve_day]'s pass over the plant ranks the candidates of its candidate
    loop by descending Net Carbon Impact (a stable rearrangement) and walks
    them in that order from the plant's available material: a candidate met
    while at least 1.0 ton remains is accepted (an action for
    [min(remaining, load)] is appended to the plan, the farm is marked
    visited, the remaining material is reduced) when its impact is positive
    or the fill ratio is above 0.8, and the walk ends at the first candidate
    met with less than 1.0 ton remaining or failing both conditions; the
    walk determines the actions.  So a plant above 0.8 with at least 1.0 ton
    and an eligible farm sends at least one delivery whatever the impacts
    are, and a plant at or below 0.8 whose best candidate has an impact of
    at most 0 sends none.  The statement holds for every rounding of the
    float operations, the exact arithmetic and the doubles included. *)
Theorem dispatch_walk_rule (rnd : Q -> Q) (dm : DataManager) (date : string)
    (per_ha : dict Q) (st : list Action * list string) (stp : STP)
    (opts : list CorrectedSolver.DeliveryOption) :
  ~ max_storage stp == 0 ->
  let start := rnd (current_storage stp + daily_output stp) in
  let panic := Qltb (rnd (8 # 10)) (rnd (current_storage stp / max_storage stp)) in
  let ranked := sorted_desc CorrectedSolver.net_benefit_of opts in
  Rounded.delivery_options rnd dm date per_ha stp start (snd st) (farms dm) = Ok opts ->
  Permutation ranked opts /\
  StronglySorted (desc CorrectedSolver.net_benefit_of) ranked /\
  exists new,
    Rounded.solve_stp rnd dm date per_ha st stp
    = Ok (fst st ++ new, rev (map farm_id new) ++ snd st) /\
    ranked_walk rnd (stp_ident stp) panic ranked start new /\
    (forall other, ranked_walk rnd (stp_ident stp) panic ranked start other ->
                   other = new) /\
    (panic = true -> 1 <= start -> eligible_farm rnd dm date (snd st) ->
     new <> []) /\
    (panic = false ->
     (forall best rest, ranked = best :: rest ->
        CorrectedSolver.net_benefit_of best <= 0) ->
     new = []).
Proof.
  intros Hm start panic ranked Hopts.
  split; [apply sorted_desc_perm|]. split; [apply sorted_desc_sorted|].
  assert (Hsolve : exists new,
            Rounded.solve_stp rnd dm date per_ha st stp
            = Ok (fst st ++ new, rev (map farm_id new) ++ snd st) /\
            ranked_walk rnd (stp_ident stp) panic ranked start new).
  { unfold Rounded.solve_stp. fold start.
    destruct (Qltb start 1) eqn:Ea.
    - exists []. rewrite app_nil_r. cbn [map rev app]. split; [now destruct st|].
      apply Qltb_lt in Ea. destruct ranked; [apply walk_done | now apply walk_short].
    - rewrite Hopts. cbn [bind]. fold ranked.
      destruct (rounded_dispatch_walk rnd stp ranked Hm start (fst st) (snd st))
        as (left & new & Hd & Hw).
      exists new. rewrite Hd. split; [reflexivity | exact Hw]. }
  destruct Hsolve as (new & Hs & Hw). exists new.
  split; [exact Hs|]. split; [exact Hw|].
  split; [exact (ranked_walk_functional _ _ _ _ _ _ Hw)|]. split.
  - intros Hp Hstart (fid & farm & Hin & Hv & Hr) ->.
    pose proof (rounded_delivery_options_eligible rnd _ _ _ _ _ _ _ _ _ _
                  Hopts Hin Hv Hr) as Hne.
    inversion Hw as [r Ho|o rest r Hlt Ho|o rest r Hge Hnb Hpf Ho|]; subst.
    + apply Hne. eapply sorted_desc_nil. symmetry. exact Ho.
    + lra.
    + congruence.
  - intros Hp Hbest. inversion Hw as [| | |o rest r new' Hge Hacc Hw' Ho];
      subst; try reflexivity.
    exfalso. symmetry in Ho. specialize (Hbest _ _ Ho).
    destruct Hacc as [Hpos|Hpt]; [lra | congruence].
Qed.

(** C4, as the specification words it, fails: STP_A holds 10.5 tons, its two
    nearest farms both have a positive Net Carbon Impact, and the second one
    gets nothing, because the 0.5 ton left after the first delivery is under
    the 1.0 ton threshold. *)
Lemma positive_option_left_out :
  ~ every_positive_option_accepted ex_dm_single "2025-01-01" ex_stp_a.
Proof.
  intro H.
  edestruct H as (a & Hin & Hf & _).
  - vm_compute. reflexivity.
  - vm_compute. reflexivity.
  - simpl. right. left. reflexivity.
  - vm_compute. reflexivity.
  - simpl in Hin. destruct Hin as [<- | []]. vm_compute in Hf. discriminate.
Qed.

(** C2. A plant registered with capacity 0 has triage key 0, as the guard of
    the sort key says; but with 5 tons to send and a dry, unvisited farm the
    walk divides its storage by the capacity and [solve_day] raises
    ZeroDivisionError. *)
Theorem zero_capacity_plant_raises :
  max_storage ex_stp_zero == 0 /\
  CorrectedSolver.triage_key ex_stp_zero = 0 /\
  1 <= current_storage ex_stp_zero + daily_output ex_stp_zero /\
  (exists o,
     CorrectedSolver.delivery_options ex_dm_zero "2025-01-01"
       (get_daily_demand_per_ha ex_dm_zero "2025-01-01") ex_stp_zero
       (current_storage ex_stp_zero + daily_output ex_stp_zero) [] (farms ex_dm_zero)
     = Ok [o]) /\
  CorrectedSolver.solve_day ex_dm_zero "2025-01-01" = Raise ZeroDivisionError.
Proof.
  split; [reflexivity|]. split; [reflexivity|].
  split; [vm_compute; discriminate|].
  split; [eexists; vm_compute; reflexivity|].
  vm_compute. reflexivity.
Qed.

(** ** The frame *)

Lemma same_static_refl (dm : DataManager) : same_static dm dm.
Proof. unfold same_static. repeat split; reflexivity. Qed.

Lemma same_static_trans (dm1 dm2 dm3 : DataManager) :
  same_static dm1 dm2 -> same_static dm2 dm3 -> same_static dm1 dm3.
Proof.
  unfold same_static. intros (A1 & A2 & A3 & A4 & A5 & A6) (B1 & B2 & B3 & B4 & B5 & B6).
  repeat split; congruence.
Qed.

Lemma simulate_day_inv (st st' : dict (list Action) * DataManager) (date : string) :
  simulate_day st date = Ok st' ->
  exists actions res,
    CorrectedSolver.solve_day (snd st) date = Ok actions /\
    run_day (snd st) date actions = Ok (res, snd st') /\
    fst st' = dict_set (fst st) date actions.
Proof.
  unfold simulate_day. intro H. do 2 bind_inv H. injection H as <-.
  exists a, (fst a0). cbn [fst snd]. destruct a0. auto.
Qed.

(** A step that returns the store as it got it, followed by steps that do
    the same, returns the store as it got it. *)
Lemma st_bind_reader {A B : Type} (m : Stateful.St A) (f : A -> Stateful.St B)
    (r : result A) (g : A -> result B) (dm : DataManager) :
  m dm = (r, dm) -> (forall a, f a dm = (g a, dm)) ->
  Stateful.bind m f dm = (bind r g, dm).
Proof.
  intros Hm Hf. unfold Stateful.bind. rewrite Hm.
  destruct r as [a|e]; [apply Hf | reflexivity].
Qed.

Lemma stateful_get_weather_forecast (date zone : string) (k : nat) (dm : DataManager) :
  Stateful.get_weather_forecast date zone k dm = (get_weather_forecast dm date zone k, dm).
Proof.
  unfold Stateful.get_weather_forecast, get_weather_forecast,
    Stateful.bind, Stateful.gets, Stateful.lift, Stateful.ret.
  destruct (index_of date (df_date (weather_df dm))); [|reflexivity].
  destruct (dict_index (df_cols (weather_df dm)) zone); reflexivity.
Qed.

Lemma stateful_get_daily_demand_per_ha (date : string) (dm : DataManager) :
  Stateful.get_daily_demand_per_ha date dm = (Ok (get_daily_demand_per_ha dm date), dm).
Proof.
  unfold Stateful.get_daily_demand_per_ha, get_daily_demand_per_ha,
    Stateful.bind, Stateful.gets, Stateful.ret.
  destruct (index_of date (df_date (n_demand_df dm))); reflexivity.
Qed.

Lemma stateful_is_rain_locked (date zone : string) (dm : DataManager) :
  Stateful.is_rain_locked date zone dm
  = (BiosolidSimulator.is_rain_locked dm date zone, dm).
Proof.
  unfold Stateful.is_rain_locked, BiosolidSimulator.is_rain_locked.
  unfold Stateful.bind at 1. unfold Stateful.gets at 1.
  apply st_bind_reader; [apply stateful_get_weather_forecast|].
  intro forecast. reflexivity.
Qed.

Lemma stateful_score_option (per_ha : dict Q) (stp : STP) (available : Q)
    (fid : string) (farm : Farm) (dm : DataManager) :
  Stateful.score_option per_ha stp available fid farm dm
  = (CorrectedSolver.score_option dm per_ha stp available fid farm, dm).
Proof.
  unfold Stateful.score_option, CorrectedSolver.score_option,
    Stateful.bind, Stateful.gets, Stateful.lift, Stateful.ret.
  destruct (dict_index (distances farm) (stp_ident stp)); reflexivity.
Qed.

Lemma stateful_delivery_options (date : string) (per_ha : dict Q) (stp : STP)
    (available : Q) (visited : list string) (items : dict Farm) (dm : DataManager) :
  Stateful.delivery_options date per_ha stp available visited items dm
  = (CorrectedSolver.delivery_options dm date per_ha stp available visited items, dm).
Proof.
  induction items as [|[fid farm] items IH];
    cbn [Stateful.delivery_options CorrectedSolver.delivery_options]; [reflexivity|].
  destruct (mem fid visited); [exact IH|].
  apply st_bind_reader; [apply stateful_is_rain_locked|].
  intros [|]; [exact IH|].
  apply st_bind_reader; [apply stateful_score_option|].
  intro o. apply st_bind_reader; [exact IH|]. reflexivity.
Qed.

Lemma stateful_dispatch (stp : STP) (options : list CorrectedSolver.DeliveryOption)
    (dm : DataManager) :
  forall available actions visited,
    Stateful.dispatch stp options available actions visited dm
    = (CorrectedSolver.dispatch stp options available actions visited, dm).
Proof.
  induction options as [|[[[nb dist] fid] load] options IH];
    intros available actions visited;
    cbn [Stateful.dispatch CorrectedSolver.dispatch]; [reflexivity|].
  destruct (Qltb available 1); [reflexivity|].
  apply st_bind_reader; [reflexivity|].
  intro ratio. destruct (Qltb 0 nb || Qltb (8 # 10) ratio); [apply IH | reflexivity].
Qed.

Lemma stateful_solve_stp (date : string) (per_ha : dict Q)
    (st : list Action * list string) (stp : STP) (dm : DataManager) :
  Stateful.solve_stp date per_ha st stp dm
  = (CorrectedSolver.solve_stp dm date per_ha st stp, dm).
Proof.
  unfold Stateful.solve_stp, CorrectedSolver.solve_stp.
  destruct (Qltb (current_storage stp + daily_output stp) 1); [reflexivity|].
  unfold Stateful.bind at 1. unfold Stateful.gets at 1.
  apply st_bind_reader; [apply stateful_delivery_options|].
  intro options. apply st_bind_reader; [apply stateful_dispatch|]. reflexivity.
Qed.

Lemma stateful_foldM_solve_stp (date : string) (per_ha : dict Q) (plants : list STP)
    (dm : DataManager) :
  forall st,
    Stateful.foldM (Stateful.solve_stp date per_ha) plants st dm
    = (foldM (CorrectedSolver.solve_stp dm date per_ha) plants st, dm).
Proof.
  induction plants as [|stp plants IH]; intro st;
    cbn [Stateful.foldM foldM]; [reflexivity|].
  apply st_bind_reader; [apply stateful_solve_stp | exact IH].
Qed.

(** On the shared store [solve_day] returns what the reader returns, and the
    store as it got it. *)
Lemma stateful_solve_day (date : string) (dm : DataManager) :
  Stateful.solve_day date dm = (CorrectedSolver.solve_day dm date, dm).
Proof.
  unfold Stateful.solve_day, CorrectedSolver.solve_day.
  unfold Stateful.bind at 1. rewrite stateful_get_daily_demand_per_ha.
  unfold Stateful.bind at 1. unfold Stateful.gets at 1.
  apply st_bind_reader; [apply stateful_foldM_solve_stp|]. reflexivity.
Qed.

(** One day of the loop on the shared store is [simulate_day]. *)
Lemma stateful_simulate_day (date : string) (dm dm' : DataManager)
    (r : list Action * DailyResult) :
  Stateful.simulate_day date dm = (Ok r, dm') ->
  CorrectedSolver.solve_day dm date = Ok (fst r) /\
  run_day dm date (fst r) = Ok (snd r, dm').
Proof.
  unfold Stateful.simulate_day. unfold Stateful.bind at 1.
  rewrite stateful_solve_day.
  destruct (CorrectedSolver.solve_day dm date) as [actions|e]; [|discriminate].
  unfold Stateful.bind, Stateful.run_day, Stateful.ret.
  destruct (run_day dm date actions) as [[res dm1]|e] eqn:Er; [|discriminate].
  intro H. injection H as <- <-. auto.
Qed.

(** C9. The current storage of the plants is the only state that changes
    from day to day, and [run_day] is what changes it.  Whatever the
    actions, [run_day] returns a store with the same configuration, farms
    (distances included), weather and demand tables, and the same plants in
    the same order with the same id, daily output, capacity and coordinates.
    [solve_day], run on the shared store, hands the store back as it got it,
    storage levels included, together with the plan that the reader
    [CorrectedSolver.solve_day] computes.  So one day of the loop on the
    shared store is [run_day] applied to the store [solve_day] was given,
    and after any number of days everything but the current storage is as at
    start-up. *)
Theorem storage_only_mutable_state :
  (forall dm date actions res dm',
     run_day dm date actions = Ok (res, dm') -> same_static dm dm') /\
  (forall dm date,
     Stateful.solve_day date dm = (CorrectedSolver.solve_day dm date, dm)) /\
  (forall dm date r dm',
     Stateful.simulate_day date dm = (Ok r, dm') ->
     CorrectedSolver.solve_day dm date = Ok (fst r) /\
     run_day dm date (fst r) = Ok (snd r, dm') /\
     same_static dm dm') /\
  (forall st date st',
     simulate_day st date = Ok st' ->
     exists actions res,
       Stateful.simulate_day date (snd st) = (Ok (actions, res), snd st') /\
       fst st' = dict_set (fst st) date actions) /\
  (forall dm dates r, run_simulation dm dates = Ok r -> same_static dm (snd r)).
Proof.
  assert (Hrun : forall dm date actions res dm',
            run_day dm date actions = Ok (res, dm') -> same_static dm dm').
  { intros dm date actions res dm' H. unfold same_static.
    now apply run_day_frame in H. }
  split; [exact Hrun|]. split; [intros; apply stateful_solve_day|].
  split; [|split].
  - intros dm date r dm' H. apply stateful_simulate_day in H.
    destruct H as [Hs Hr]. eauto.
  - intros st date st' H. apply simulate_day_inv in H.
    destruct H as (actions & res & Hs & Hr & Hd).
    exists actions, res. split; [|exact Hd].
    unfold Stateful.simulate_day. unfold Stateful.bind at 1.
    rewrite stateful_solve_day, Hs.
    unfold Stateful.bind, Stateful.run_day, Stateful.ret. now rewrite Hr.
  - unfold run_simulation. intros dm dates.
    generalize (@nil (string * list Action)).
    revert dm. induction dates as [|d dates IH]; intros dm acc r H; simpl in H.
    + injection H as <-. apply same_static_refl.
    + bind_inv H. apply simulate_day_inv in E.
      destruct E as (actions & res & _ & Hr & _). cbn [snd] in Hr.
      destruct a as [acc' dm1]. cbn [snd] in Hr.
      eapply same_static_trans; [eapply Hrun, Hr | eapply IH, H].
Qed.

(** ** Start-up *)

Lemma dict_set_keys_In {V : Type} (d : dict V) (k k0 : string) (v : V) :
  In k0 (keys (dict_set d k v)) <-> k0 = k \/ In k0 (keys d).
Proof.
  unfold keys. induction d as [|[k' v'] d IH]; simpl.
  - intuition.
  - destruct (String.eqb k' k) eqn:E; simpl.
    + apply String.eqb_eq in E. subst. intuition.
    + rewrite IH. intuition.
Qed.

Lemma dict_set_NoDup {V : Type} (d : dict V) (k : string) (v : V) :
  NoDup (keys d) -> NoDup (keys (dict_set d k v)).
Proof.
  induction d as [|[k' v'] d IH]; simpl; intro H.
  - repeat constructor. simpl. tauto.
  - unfold keys in H. simpl in H. apply NoDup_cons_iff in H. destruct H as [Hni Hnd].
    destruct (String.eqb k' k) eqn:E.
    + unfold keys. simpl. constructor; assumption.
    + unfold keys. simpl. constructor; [|apply IH, Hnd].
      change (~ In k' (keys (dict_set d k v))). rewrite dict_set_keys_In.
      intros [Heq | Hin]; [|contradiction].
      subst. rewrite String.eqb_refl in E. discriminate.
Qed.

Lemma fold_dict_set_inv {V R : Type} (P : dict V -> Prop) (key : R -> string)
    (val : R -> V) (rows : list R) :
  (forall d r, P d -> P (dict_set d (key r) (val r))) ->
  forall d, P d -> P (fold_left (fun d r => dict_set d (key r) (val r)) rows d).
Proof.
  intro Hstep. induction rows as [|r rows IH]; intros d Hd; simpl; auto.
Qed.

Lemma dict_set_keys_append {V : Type} (d : dict V) (k : string) (v : V) :
  ~ In k (keys d) -> keys (dict_set d k v) = keys d ++ [k].
Proof.
  unfold keys. induction d as [|[k' v'] d IH]; simpl; intro H; [reflexivity|].
  destruct (String.eqb k' k) eqn:E.
  - apply String.eqb_eq in E. subst. tauto.
  - simpl. rewrite IH; [reflexivity | tauto].
Qed.

Lemma initialize_distances_keys (h : Q -> Q -> Q -> Q -> Q -> Q) (radius : Q)
    (stps : dict STP) (lat lon : Q) :
  NoDup (keys stps) -> keys (initialize_distances h radius stps lat lon) = keys stps.
Proof.
  unfold initialize_distances.
  assert (H : forall (acc : dict Q),
            NoDup (keys acc ++ keys stps) ->
            keys (fold_left
                    (fun distances item =>
                       dict_set distances (fst item)
                         (h (stp_lat (snd item)) (stp_lon (snd item)) lat lon radius))
                    stps acc)
            = keys acc ++ keys stps).
  { induction stps as [|[k s] stps IH]; intros acc Hnd.
    - cbn [fold_left]. change (keys (@nil (string * STP))) with (@nil string).
      now rewrite app_nil_r.
    - change (keys ((k, s) :: stps)) with (k :: keys stps) in *.
      assert (Hni : ~ In k (keys acc)).
      { apply NoDup_remove_2 in Hnd. intro Hin. apply Hnd, in_or_app. now left. }
      cbn [fold_left fst snd]. rewrite IH; rewrite dict_set_keys_append by exact Hni;
        rewrite <- app_assoc; [reflexivity | exact Hnd]. }
  intro Hnd. apply (H [] Hnd).
Qed.

(** The store built at start-up is well formed, every plant is empty and
    every farm has one distance per plant. *)
Lemma initialize_well_formed (h : Q -> Q -> Q -> Q -> Q -> Q) (cfg : Config)
    (stp_df : list StpRow) (farm_df : list FarmRow) (weather n_demand : DataFrame) :
  let dm := initialize h cfg stp_df farm_df weather n_demand in
  well_formed dm /\ distances_complete dm /\
  Forall (fun item => current_storage (snd item) = 0) (stps dm).
Proof.
  cbv zeta. unfold well_formed, distances_complete, initialize.
  cbn [stps farms].
  assert (Hs : NoDup (keys (initialize_stps stp_df)) /\
               Forall (fun item => stp_ident (snd item) = fst item /\
                                   current_storage (snd item) = 0)
                      (initialize_stps stp_df)).
  { unfold initialize_stps.
    apply (fold_dict_set_inv
             (fun d => NoDup (keys d) /\
                       Forall (fun item => stp_ident (snd item) = fst item /\
                                           current_storage (snd item) = 0) d)
             row_stp_id
             (fun row => mkSTP (row_stp_id row) (daily_output_tons row)
                           (storage_max_tons row) (row_stp_lat row)
                           (row_stp_lon row) 0)).
    - intros d r [Hnd HF]. split; [now apply dict_set_NoDup|].
      clear Hnd. induction HF as [|[k' v'] d Hi HF IH]; simpl.
      + repeat constructor.
      + destruct (String.eqb k' (row_stp_id r)) eqn:E.
        * apply String.eqb_eq in E. constructor; [simpl; auto | exact HF].
        * constructor; assumption.
    - split; constructor. }
  destruct Hs as [Hnd HF].
  split; [split; [exact Hnd | split]|split].
  - eapply Forall_impl; [|exact HF]. now intros item [H _].
  - unfold initialize_farms.
    apply (fold_dict_set_inv (fun d : dict Farm => NoDup (keys d)) row_farm_id
             (fun row => mkFarm (row_farm_id row) (row_zone row) (row_area_ha row)
                           (row_farm_lat row) (row_farm_lon row)
                           (initialize_distances h (haversine_earth_radius_km cfg)
                              (initialize_stps stp_df) (row_farm_lat row)
                              (row_farm_lon row)))).
    + intros d r. apply dict_set_NoDup.
    + constructor.
  - unfold initialize_farms.
    apply (fold_dict_set_inv
             (fun d : dict Farm =>
                Forall (fun item => keys (distances (snd item))
                                    = keys (initialize_stps stp_df)) d)
             row_farm_id
             (fun row => mkFarm (row_farm_id row) (row_zone row) (row_area_ha row)
                           (row_farm_lat row) (row_farm_lon row)
                           (initialize_distances h (haversine_earth_radius_km cfg)
                              (initialize_stps stp_df) (row_farm_lat row)
                              (row_farm_lon row)))).
    + intros d r HFd. induction HFd as [|[k' v'] d Hi HFd IH]; simpl.
      * constructor; [|constructor]. simpl. now apply initialize_distances_keys.
      * destruct (String.eqb k' (row_farm_id r)).
        -- constructor; [|exact HFd]. simpl. now apply initialize_distances_keys.
        -- constructor; assumption.
    + constructor.
  - eapply Forall_impl; [|exact HF]. now intros item [_ H].
Qed.

(** [run_day] keeps the store well formed. *)
Lemma run_day_well_formed (dm : DataManager) (date : string) (actions : list Action)
    (res : DailyResult) (dm' : DataManager) :
  run_day dm date actions = Ok (res, dm') ->
  well_formed dm -> well_formed dm'.
Proof.
  intros H (Hnd & Hid & Hf). apply run_day_inv in H.
  destruct H as (t1 & t2 & t3 & stps3 & _ & _ & H3 & _ & ->).
  apply process_stps_tally in H3. destruct H3 as (HF & _).
  unfold well_formed. cbn [stps farms set_stps].
  assert (Hk : keys stps3 = keys (stps dm)).
  { unfold keys. clear -HF.
    induction HF as [|i i' l l' (Hk & _) _ IH]; simpl; congruence. }
  rewrite Hk. repeat split; try assumption.
  clear -HF Hid. induction HF as [|i i' l l' (Hk & Hst & _) _ IH].
  - constructor.
  - inversion Hid; subst. constructor; [|auto].
    unfold stp_static in Hst. injection Hst as Hi _ _ _ _. congruence.
Qed.

(** ** No exception in the operating range *)

Lemma is_rain_locked_total (dm : DataManager) (date zone : string) :
  In zone (keys (df_cols (weather_df dm))) ->
  exists locked, is_rain_locked dm date zone = Ok locked.
Proof.
  intro Hz.
  destruct (forecast_sum dm date zone (forecast_window dm) (or_introl Hz))
    as (forecast & Hf & _).
  unfold is_rain_locked. rewrite Hf. cbn [bind]. eauto.
Qed.

Lemma delivery_options_total (dm : DataManager) (date : string) (per_ha : dict Q)
    (stp : STP) (available : Q) (visited : list string) (items : dict Farm) :
  Forall (fun item =>
            In (zone (snd item)) (keys (df_cols (weather_df dm))) /\
            dict_get (distances (snd item)) (stp_ident stp) <> None) items ->
  exists opts,
    CorrectedSolver.delivery_options dm date per_ha stp available visited items = Ok opts.
Proof.
  induction 1 as [|[fid farm] items [Hz Hd] _ [opts IH]]; simpl.
  - eauto.
  - destruct (mem fid visited); [eauto|].
    cbn [snd] in Hz, Hd.
    destruct (is_rain_locked_total dm date (zone farm) Hz) as [locked ->].
    cbn [bind]. destruct locked; [eauto|].
    unfold CorrectedSolver.score_option, dict_index.
    destruct (dict_get (distances farm) (stp_ident stp)); [|contradiction].
    cbn [bind]. rewrite IH. cbn [bind]. eauto.
Qed.

(** A plant of capacity 0 with material to send and an eligible farm makes
    the body of the plant loop raise. *)
Lemma solve_stp_zero_capacity (dm : DataManager) (date : string) (per_ha : dict Q)
    (st : list Action * list string) (stp : STP)
    (opts : list CorrectedSolver.DeliveryOption) :
  max_storage stp == 0 ->
  1 <= current_storage stp + daily_output stp ->
  CorrectedSolver.delivery_options dm date per_ha stp
    (current_storage stp + daily_output stp) (snd st) (farms dm) = Ok opts ->
  opts <> [] ->
  CorrectedSolver.solve_stp dm date per_ha st stp = Raise ZeroDivisionError.
Proof.
  intros Hm Ha Ho Hne. unfold CorrectedSolver.solve_stp.
  assert (Qltb (current_storage stp + daily_output stp) 1 = false) as ->
    by now apply Qltb_ge.
  rewrite Ho. cbn [bind].
  destruct (sorted_desc CorrectedSolver.net_benefit_of opts) as [|o rest] eqn:Es.
  - apply sorted_desc_nil in Es. contradiction.
  - now rewrite (dispatch_zero_capacity stp o rest _ _ _ Hm Ha).
Qed.

Lemma solve_day_total (dm : DataManager) (date : string) :
  operating_range dm -> exists actions, CorrectedSolver.solve_day dm date = Ok actions.
Proof.
  intros ((Hnd & Hid & _) & Hdist & Hzones & Hcap).
  unfold CorrectedSolver.solve_day.
  assert (Hall : Forall (fun stp => ~ max_storage stp == 0 /\
                                    In (stp_ident stp) (keys (stps dm)))
                        (CorrectedSolver.sorted_stps dm)).
  { eapply Permutation_Forall; [apply Permutation_sym, sorted_desc_perm|].
    unfold values in *. rewrite Forall_map in Hcap. rewrite Forall_map.
    rewrite Forall_forall in *. intros item Hin. split; [now apply Hcap|].
    rewrite (Hid _ Hin). unfold keys. now apply in_map. }
  assert (Hfold : forall st, exists r,
            foldM (CorrectedSolver.solve_stp dm date (get_daily_demand_per_ha dm date))
                  (CorrectedSolver.sorted_stps dm) st = Ok r).
  { induction Hall as [|stp l [Hm Hk] _ IH]; intro st; simpl; [eauto|].
    assert (Hstep : exists st1,
              CorrectedSolver.solve_stp dm date (get_daily_demand_per_ha dm date) st stp
              = Ok st1).
    { unfold CorrectedSolver.solve_stp.
      destruct (Qltb (current_storage stp + daily_output stp) 1); [eauto|].
      destruct (delivery_options_total dm date (get_daily_demand_per_ha dm date) stp
                  (current_storage stp + daily_output stp) (snd st) (farms dm))
        as [opts ->].
      - unfold distances_complete in Hdist. rewrite Forall_forall in *.
        intros item Hin. split; [now apply Hzones|].
        apply dict_get_keys. now rewrite (Hdist _ Hin).
      - cbn [bind].
        destruct (dispatch_total stp
                    (sorted_desc CorrectedSolver.net_benefit_of opts) Hm
                    (current_storage stp + daily_output stp) (fst st) (snd st))
          as [r ->].
        cbn [bind]. eauto. }
    destruct Hstep as [st1 ->]. cbn [bind]. apply IH. }
  destruct (Hfold ([], [])) as [r ->]. cbn [bind]. eauto.
Qed.

Lemma run_day_operating_range (dm : DataManager) (date : string)
    (actions : list Action) (res : DailyResult) (dm' : DataManager) :
  run_day dm date actions = Ok (res, dm') ->
  operating_range dm -> operating_range dm'.
Proof.
  intros H (Hwf & Hdist & Hzones & Hcap).
  pose proof (run_day_well_formed _ _ _ _ _ H Hwf) as Hwf'.
  apply run_day_frame in H. destruct H as (_ & Hf & Hw & _ & Hk & Hst).
  unfold operating_range, distances_complete in *. rewrite Hf, Hw, Hk.
  split; [exact Hwf'|]. split; [exact Hdist|]. split; [exact Hzones|].
  assert (Hc : Forall (fun c : string * Q * Q * Q * Q => ~ snd (fst (fst c)) == 0)
                      (map stp_static (values (stps dm)))).
  { rewrite Forall_map. exact Hcap. }
  rewrite <- Hst, Forall_map in Hc. exact Hc.
Qed.

(** In the operating range the day loop returns a result for every day. *)
Lemma run_simulation_total (dm : DataManager) (dates : list string) :
  operating_range dm -> ~ truck_capacity dm == 0 ->
  exists r, run_simulation dm dates = Ok r.
Proof.
  unfold run_simulation. generalize (@nil (string * list Action)).
  revert dm. induction dates as [|d dates IH]; intros dm acc Hop Hc; simpl.
  - eauto.
  - unfold simulate_day at 1. cbn [fst snd].
    destruct (solve_day_total dm d Hop) as [actions Hs]. rewrite Hs. cbn [bind].
    destruct Hop as (Hwf & Hrest).
    destruct (run_day_deliverable_total dm d actions
                (solve_day_deliverable dm d actions Hwf Hs) Hc)
      as (res & dm' & Hr).
    rewrite Hr. cbn [bind snd].
    apply IH.
    + eapply run_day_operating_range; [exact Hr | split; assumption].
    + apply run_day_frame in Hr. destruct Hr as (Hcfg & _).
      unfold truck_capacity in *. now rewrite Hcfg.
Qed.

(** ** The properties on the example registry *)

Lemma ex_dm_well_formed : well_formed ex_dm.
Proof.
  unfold well_formed. repeat split.
  - repeat constructor; simpl; intuition discriminate.
  - repeat constructor.
  - repeat constructor; simpl; intuition discriminate.
Qed.


(** [ex_plan] asks STP_A for more than it has and leaves STP_B one ton above
    its capacity. *)
Lemma run_day_storage_bounds_witness :
  exists res dm',
    run_day ex_dm "2025-01-01" ex_plan = Ok (res, dm') /\
    Forall (fun item' => 0 <= current_storage (snd item') <= max_storage (snd item'))
           (stps dm') /\
    overflow_tons res == 1.
Proof.
  eexists _, _. split; [vm_compute; reflexivity|].
  match goal with |- Forall _ (stps ?dm') /\ overflow_tons ?res == _ =>
    assert (Hrun : run_day ex_dm "2025-01-01" ex_plan = Ok (res, dm'))
      by (vm_compute; reflexivity)
  end.
  destruct (run_day_storage_bounds _ _ _ _ _ Hrun) as (t1 & H1 & _ & Hb & Ho & _).
  split.
  - apply Hb. repeat constructor; vm_compute; discriminate.
  - vm_compute in H1. injection H1 as <-. rewrite Ho. vm_compute. reflexivity.
Defined.

(** In doubles.  STP_F is empty and has 3 tons for a farm 80 km away without
    demand: the impact is 0 in exact arithmetic and 2^-43 in doubles, so the
    code sends the 3 tons.  STP_G is 90% full and delivers although its only
    candidate has an impact of -120.  STP_A has 10.5 tons: the best farm
    takes 10 and the walk stops at the second, with 0.5 ton left.  In exact
    arithmetic STP_F, at fill ratio 0 with a best impact of 0, sends
    nothing. *)
Lemma dispatch_walk_rule_witness :
  (exists new,
     Rounded.solve_stp binary64 ex_dm_float "2025-01-01"
       (get_daily_demand_per_ha ex_dm_float "2025-01-01") ([], []) ex_stp_f
     = Ok (new, rev (map farm_id new)) /\
     new = [mkAction "STP_F" "F_080" 3]) /\
  (exists new,
     Rounded.solve_stp binary64 ex_dm_float "2025-01-01"
       (get_daily_demand_per_ha ex_dm_float "2025-01-01") ([], []) ex_stp_g
     = Ok (new, rev (map farm_id new)) /\
     new <> []) /\
  (exists new,
     Rounded.solve_stp binary64 ex_dm_single "2025-01-01"
       (get_daily_demand_per_ha ex_dm_single "2025-01-01") ([], []) ex_stp_a
     = Ok (new, rev (map farm_id new)) /\
     new = [mkAction "STP_A" "F_001" 10]) /\
  (exists new,
     Rounded.solve_stp (fun x => x) ex_dm_float "2025-01-01"
       (get_daily_demand_per_ha ex_dm_float "2025-01-01") ([], []) ex_stp_f
     = Ok (new, rev (map farm_id new)) /\
     new = []).
Proof.
  split; [|split; [|split]].
  - destruct (dispatch_walk_rule binary64 ex_dm_float "2025-01-01"
                (get_daily_demand_per_ha ex_dm_float "2025-01-01") ([], []) ex_stp_f
                [(1 # 8796093022208, 80, "F_080"%string, 3)])
      as (_ & _ & new & Hs & _).
    + intro H. vm_compute in H. discriminate.
    + vm_compute. reflexivity.
    + exists new. cbn [fst snd app] in Hs. rewrite app_nil_r in Hs.
      split; [exact Hs|].
      vm_compute in Hs. injection Hs as Hs _. symmetry. exact Hs.
  - destruct (dispatch_walk_rule binary64 ex_dm_float "2025-01-01"
                (get_daily_demand_per_ha ex_dm_float "2025-01-01") ([], []) ex_stp_g
                [(- (120), 400, "F_080"%string, 10)])
      as (_ & _ & new & Hs & _ & _ & Hpanic & _).
    + intro H. vm_compute in H. discriminate.
    + vm_compute. reflexivity.
    + exists new. cbn [fst snd app] in Hs. rewrite app_nil_r in Hs.
      split; [exact Hs|]. apply Hpanic.
      * vm_compute. reflexivity.
      * vm_compute. discriminate.
      * exists "F_080"%string. eexists. split; [left; reflexivity|].
        split; vm_compute; reflexivity.
  - assert (Hopts : exists opts,
              Rounded.delivery_options binary64 ex_dm_single "2025-01-01"
                (get_daily_demand_per_ha ex_dm_single "2025-01-01") ex_stp_a
                (binary64 (current_storage ex_stp_a + daily_output ex_stp_a)) []
                (farms ex_dm_single) = Ok opts)
      by (eexists; vm_compute; reflexivity).
    destruct Hopts as [opts Hopts].
    destruct (dispatch_walk_rule binary64 ex_dm_single "2025-01-01"
                (get_daily_demand_per_ha ex_dm_single "2025-01-01") ([], []) ex_stp_a
                opts)
      as (_ & _ & new & Hs & _).
    + intro H. vm_compute in H. discriminate.
    + exact Hopts.
    + exists new. cbn [fst snd app] in Hs. rewrite app_nil_r in Hs.
      split; [exact Hs|].
      vm_compute in Hs. injection Hs as Hs _. symmetry. exact Hs.
  - destruct (dispatch_walk_rule (fun x => x) ex_dm_float "2025-01-01"
                (get_daily_demand_per_ha ex_dm_float "2025-01-01") ([], []) ex_stp_f
                [(0 # 100000, 80, "F_080"%string, 3)])
      as (_ & _ & new & Hs & _ & _ & _ & Hcut).
    + intro H. vm_compute in H. discriminate.
    + vm_compute. reflexivity.
    + exists new. cbn [fst snd app] in Hs. rewrite app_nil_r in Hs.
      split; [exact Hs|]. apply Hcut.
      * vm_compute. reflexivity.
      * intros best rest Hr. vm_compute in Hr. injection Hr as <- _.
        vm_compute. discriminate.
Defined.

(** The plan for 2025-01-01 takes 30 of the 55 tons of STP_B and nothing from
    STP_A. *)
Lemma solve_day_tonnage_feasible_witness :
  well_formed ex_dm /\
  CorrectedSolver.solve_day ex_dm "2025-01-01" = Ok ex_solved /\
  Forall (fun a => 1 <= amount_tons a /\ 0 < amount_tons a /\
                   In (stp_id a) (keys (stps ex_dm))) ex_solved /\
  tons_from "STP_B" ex_solved <= 55 /\
  tons_from "STP_A" ex_solved <= 21 # 2.
Proof.
  assert (Hs : CorrectedSolver.solve_day ex_dm "2025-01-01" = Ok ex_solved)
    by (vm_compute; reflexivity).
  destruct (solve_day_tonnage_feasible ex_dm "2025-01-01" ex_solved
              ex_dm_well_formed Hs) as [HF Hsum].
  split; [exact ex_dm_well_formed|]. split; [exact Hs|]. split; [exact HF|].
  split.
  - destruct (Hsum "STP_B"%string ex_stp_b eq_refl) as [_ Hle].
    eapply Qle_trans; [apply Hle; vm_compute; discriminate|].
    vm_compute. discriminate.
  - destruct (Hsum "STP_A"%string ex_stp_a eq_refl) as [_ Hle].
    eapply Qle_trans; [apply Hle; vm_compute; discriminate|].
    vm_compute. discriminate.
Defined.

(** The plan for 2025-01-01 visits three different farms. *)
Lemma solve_day_one_delivery_per_farm_witness :
  NoDup (keys (farms ex_dm)) /\
  CorrectedSolver.solve_day ex_dm "2025-01-01" = Ok ex_solved /\
  NoDup (map farm_id ex_solved).
Proof.
  assert (Hk : NoDup (keys (farms ex_dm))) by apply ex_dm_well_formed.
  assert (Hs : CorrectedSolver.solve_day ex_dm "2025-01-01" = Ok ex_solved)
    by (vm_compute; reflexivity).
  split; [exact Hk|]. split; [exact Hs|].
  apply (solve_day_one_delivery_per_farm ex_dm "2025-01-01" ex_solved Hk Hs).
Defined.

(** The plan for 2025-01-01 runs without a rejection. *)
Lemma solver_plan_never_banned_witness :
  well_formed ex_dm /\
  CorrectedSolver.solve_day ex_dm "2025-01-01" = Ok ex_solved /\
  exists res dm',
    run_day ex_dm "2025-01-01" ex_solved = Ok (res, dm') /\ banned_actions res = O.
Proof.
  assert (Hs : CorrectedSolver.solve_day ex_dm "2025-01-01" = Ok ex_solved)
    by (vm_compute; reflexivity).
  split; [exact ex_dm_well_formed|]. split; [exact Hs|].
  apply (solver_plan_never_banned ex_dm "2025-01-01" ex_solved ex_dm_well_formed Hs).
  intro H. vm_compute in H. discriminate.
Defined.

(** The three options of STP_B on 2025-01-01, each for a load of 10 tons. *)
Lemma net_carbon_impact_formula_witness :
  application_buffer_percent (config ex_dm) == 10 /\
  exists opts,
    CorrectedSolver.delivery_options ex_dm "2025-01-01"
      (get_daily_demand_per_ha ex_dm "2025-01-01") ex_stp_b 55 [] (farms ex_dm)
    = Ok opts /\
    List.length opts = 3%nat /\
    Forall (fun o =>
              exists farm dist,
                In (CorrectedSolver.farm_of o, farm) (farms ex_dm) /\
                dict_get (distances farm) "STP_B" = Some dist /\
                CorrectedSolver.net_benefit_of o ==
                  nci_spec 10 25 dist
                    (dict_get_default (get_daily_demand_per_ha ex_dm "2025-01-01")
                       (CorrectedSolver.farm_of o) 0)
                    (area_ha farm))
           opts.
Proof.
  assert (Hb : application_buffer_percent (config ex_dm) == 10) by reflexivity.
  split; [exact Hb|]. eexists. split; [vm_compute; reflexivity|].
  split; [reflexivity|].
  match goal with |- Forall _ ?opts =>
    assert (Ho : CorrectedSolver.delivery_options ex_dm "2025-01-01"
                   (get_daily_demand_per_ha ex_dm "2025-01-01") ex_stp_b 55 []
                   (farms ex_dm) = Ok opts) by (vm_compute; reflexivity)
  end.
  pose proof (net_carbon_impact_formula ex_dm "2025-01-01" ex_stp_b 55 [] _ Hb Ho) as HF.
  eapply Forall_impl; [|exact HF]. cbv beta zeta.
  intros o (farm & dist & Hin & Hd & Hl & Hn).
  exists farm, dist. split; [exact Hin|]. split; [exact Hd|].
  rewrite Hn, Hl. unfold nci_spec, dict_get_default. reflexivity.
Defined.

(** On 2025-01-01 the solver hands [ex_dm] back as it is, the day as a
    whole does not; after two days the static data are as before, the
    storage levels are not. *)
Lemma storage_only_mutable_state_witness :
  snd (Stateful.solve_day "2025-01-01" ex_dm) = ex_dm /\
  snd (Stateful.simulate_day "2025-01-01" ex_dm) <> ex_dm /\
  exists r,
    run_simulation ex_dm ["2025-01-01"; "2025-01-02"]%string = Ok r /\
    same_static ex_dm (snd r) /\
    map (fun item => current_storage (snd item)) (stps (snd r)) <>
    map (fun item => current_storage (snd item)) (stps ex_dm).
Proof.
  destruct storage_only_mutable_state as (_ & Hsolve & _ & _ & Hsim).
  split; [now rewrite Hsolve|].
  split; [intro H; vm_compute in H; discriminate|].
  eexists. split; [vm_compute; reflexivity|].
  split.
  - apply (Hsim ex_dm ["2025-01-01"; "2025-01-02"]%string). vm_compute. reflexivity.
  - vm_compute. discriminate.
Defined.


(** * Further properties of the code *)

(** ** data.py *)

(** X1. A forecast that is returned has exactly [lookahead_days] entries: the
    rainfall of the zone on the row of the date and the rows after it, and 0
    for every day past the end of the table. *)
Theorem get_weather_forecast_shape (dm : DataManager) (date zone : string)
    (lookahead_days start_idx : nat) (col : list Q) :
  index_of date (df_date (weather_df dm)) = Some start_idx ->
  dict_get (df_cols (weather_df dm)) zone = Some col ->
  exists forecast,
    get_weather_forecast dm date zone lookahead_days = Ok forecast /\
    List.length forecast = lookahead_days /\
    forall j, (j < lookahead_days)%nat ->
      nth j forecast 0 = nth (start_idx + j) col 0 /\
      ((List.length col <= start_idx + j)%nat -> nth j forecast 0 = 0).
Proof.
  intros Hi Hc. unfold get_weather_forecast, dict_index. rewrite Hi, Hc. cbn [bind].
  eexists. split; [reflexivity|]. rewrite padded_window.
  split; [now rewrite length_map, length_seq|].
  intros j Hj.
  assert (Hn : nth j (map (fun j0 => nth j0 (skipn start_idx col) 0) (seq 0 lookahead_days)) 0
               = nth (start_idx + j) col 0).
  { rewrite <- nth_skipn_add.
    rewrite (nth_indep _ 0 (nth 0 (skipn start_idx col) 0))
      by (now rewrite length_map, length_seq).
    rewrite (map_nth (fun j0 => nth j0 (skipn start_idx col) 0)).
    now rewrite seq_nth. }
  split; [exact Hn|]. intro Hlen. rewrite Hn. now apply nth_overflow.
Qed.

(** On 2025-01-04 the table has three rows left: the last two of the five
    entries are padding. *)
Lemma get_weather_forecast_shape_witness :
  exists forecast,
    get_weather_forecast ex_dm "2025-01-04" "north" 5 = Ok forecast /\
    List.length forecast = 5%nat /\
    nth 2 forecast 0 = 501 # 100 /\
    nth 3 forecast 0 = 0.
Proof.
  destruct (get_weather_forecast_shape ex_dm "2025-01-04" "north" 5 3
              [5; 10; 5; 5; 5; 501 # 100] eq_refl eq_refl)
    as (forecast & Hf & Hlen & Hnth).
  exists forecast. split; [exact Hf|]. split; [exact Hlen|]. split.
  - destruct (Hnth 2%nat) as [H _]; [repeat constructor|]. rewrite H. reflexivity.
  - destruct (Hnth 3%nat) as [_ H]; [repeat constructor|]. apply H. simpl. lia.
Defined.

(** X2. For a date the weather table does not have, no zone is rain-locked,
    known or not, as long as the threshold is not negative; for a date of the
    table a zone that is neither one of its columns nor the name of its date
    column makes [is_rain_locked] raise KeyError (the handler of
    [get_weather_forecast] catches IndexError only). *)
Theorem is_rain_locked_outside_table (dm : DataManager) (date zone : string) :
  0 <= rain_threshold dm ->
  (index_of date (df_date (weather_df dm)) = None ->
   is_rain_locked dm date zone = Ok false) /\
  (index_of date (df_date (weather_df dm)) <> None ->
   zone <> "date"%string ->
   dict_get (df_cols (weather_df dm)) zone = None ->
   is_rain_locked dm date zone = Raise (KeyError zone)).
Proof.
  intro Ht. unfold is_rain_locked, get_weather_forecast. split.
  - intros ->. cbn [bind]. f_equal. apply Qltb_ge.
    rewrite py_sum_repeat0. exact Ht.
  - intros Hi _ Hz. destruct (index_of date (df_date (weather_df dm))); [|contradiction].
    unfold dict_index. rewrite Hz. reflexivity.
Qed.

(** A date after the six days of the table, and a zone that is no column. *)
Lemma is_rain_locked_outside_table_witness :
  is_rain_locked ex_dm "2025-02-01" "nowhere" = Ok false /\
  is_rain_locked ex_dm "2025-01-01" "nowhere" = Raise (KeyError "nowhere").
Proof.
  assert (Ht : 0 <= rain_threshold ex_dm) by (vm_compute; discriminate).
  destruct (is_rain_locked_outside_table ex_dm "2025-02-01" "nowhere" Ht) as [H1 _].
  destruct (is_rain_locked_outside_table ex_dm "2025-01-01" "nowhere" Ht) as [_ H2].
  split; [apply H1; reflexivity | apply H2; [discriminate | discriminate | reflexivity]].
Defined.

Lemma window_sum_ge (f : nat -> Q) (k j : nat) :
  (forall i, (i < k)%nat -> 0 <= f i) -> (j < k)%nat -> f j <= window_sum f k.
Proof.
  induction k as [|k IH]; intros Hnn Hj; [lia|]. simpl.
  assert (Hk : 0 <= f k) by (apply Hnn; lia).
  assert (Hpos : 0 <= window_sum f k).
  { clear -Hnn. induction k as [|k IH]; simpl; [lra|].
    assert (0 <= f k) by (apply Hnn; lia).
    assert (0 <= window_sum f k) by (apply IH; intros; apply Hnn; lia). lra. }
  destruct (Nat.eq_dec j k) as [-> | Hne]; [lra|].
  assert (f j <= window_sum f k) by (apply IH; [intros; apply Hnn|]; lia). lra.
Qed.

(** X3. With no negative rainfall in the window, one day of the window above
    the threshold is enough for the lock (the test of the docstring, on ANY
    day, implies the cumulative test of the code). *)
Theorem is_rain_locked_single_day (dm : DataManager) (date zone : string) (j : nat) :
  In zone (keys (df_cols (weather_df dm))) ->
  (forall i, (i < forecast_window dm)%nat -> 0 <= forecast_rain dm date zone i) ->
  (j < forecast_window dm)%nat ->
  rain_threshold dm < forecast_rain dm date zone j ->
  is_rain_locked dm date zone = Ok true.
Proof.
  intros Hz Hnn Hj Hr.
  destruct (forecast_sum dm date zone (forecast_window dm) (or_introl Hz))
    as (forecast & Hf & Hs).
  unfold is_rain_locked. rewrite Hf. cbn [bind]. f_equal.
  apply Qltb_lt. rewrite Hs.
  pose proof (window_sum_ge (forecast_rain dm date zone) _ j Hnn Hj). lra.
Qed.

(** The coast gets 40 mm on 2025-01-01. *)
Lemma is_rain_locked_single_day_witness :
  is_rain_locked ex_dm "2025-01-01" "coast" = Ok true.
Proof.
  apply (is_rain_locked_single_day ex_dm "2025-01-01" "coast" 0).
  - simpl. auto.
  - intros i Hi. change (forecast_window ex_dm) with 5%nat in Hi.
    do 5 (destruct i as [|i]; [vm_compute; discriminate|]). lia.
  - vm_compute. lia.
  - vm_compute. reflexivity.
Defined.

Lemma dict_get_map {V W : Type} (f : V -> W) (d : dict V) (k : string) :
  dict_get (map (fun c => (fst c, f (snd c))) d) k = option_map f (dict_get d k).
Proof.
  induction d as [|[k' v] d IH]; simpl; [reflexivity|].
  destruct (String.eqb k' k); [reflexivity | exact IH].
Qed.

(** X4. The demand [get_daily_demand_per_ha(date).get(farm, 0.0)] is the cell
    of the farm's column on the row of the date, and 0 when the table has no
    such date or no such column; the dict has the columns of the table, in
    their order, or is empty. *)
Theorem get_daily_demand_lookup (dm : DataManager) (date farm : string) :
  dict_get_default (get_daily_demand_per_ha dm date) farm 0 =
    match index_of date (df_date (n_demand_df dm)),
          dict_get (df_cols (n_demand_df dm)) farm with
    | Some i, Some col => nth i col 0
    | _, _ => 0
    end /\
  keys (get_daily_demand_per_ha dm date) =
    match index_of date (df_date (n_demand_df dm)) with
    | Some _ => keys (df_cols (n_demand_df dm))
    | None => []
    end.
Proof.
  unfold get_daily_demand_per_ha, dict_get_default.
  destruct (index_of date (df_date (n_demand_df dm))) as [i|]; [|split; reflexivity].
  rewrite (dict_get_map (fun col => nth i col 0)). split.
  - now destruct (dict_get (df_cols (n_demand_df dm)) farm).
  - unfold keys. rewrite map_map. reflexivity.
Qed.

Lemma dict_get_set {V : Type} (d : dict V) (k k0 : string) (v : V) :
  dict_get (dict_set d k v) k0 = if String.eqb k k0 then Some v else dict_get d k0.
Proof.
  destruct (String.eqb k k0) eqn:E.
  - apply String.eqb_eq in E. subst. apply dict_get_set_same.
  - apply dict_get_set_other. intros ->. rewrite String.eqb_refl in E. discriminate.
Qed.

Lemma find_app {A : Type} (p : A -> bool) (l1 l2 : list A) :
  find p (l1 ++ l2) = match find p l1 with Some x => Some x | None => find p l2 end.
Proof.
  induction l1 as [|x l1 IH]; simpl; [reflexivity|].
  destruct (p x); [reflexivity | exact IH].
Qed.

(** Looking up a dict filled row by row: the last row with the key wins. *)
Lemma fold_dict_set_lookup {V R : Type} (key : R -> string) (val : R -> V)
    (rows : list R) (k : string) :
  forall d,
    dict_get (fold_left (fun d r => dict_set d (key r) (val r)) rows d) k =
      match find (fun r => String.eqb (key r) k) (rev rows) with
      | Some r => Some (val r)
      | None => dict_get d k
      end.
Proof.
  induction rows as [|r rows IH]; intro d; simpl; [reflexivity|].
  rewrite IH, find_app. destruct (find _ (rev rows)); [reflexivity|].
  simpl. rewrite dict_get_set. now destruct (String.eqb (key r) k).
Qed.

Lemma find_key_NoDup {V : Type} (d : dict V) (k : string) (v : V) :
  NoDup (keys d) -> In (k, v) d ->
  find (fun item => String.eqb (fst item) k) d = Some (k, v).
Proof.
  unfold keys. induction d as [|[k' v'] d IH]; simpl; [tauto|].
  intros Hnd Hin. apply NoDup_cons_iff in Hnd. destruct Hnd as [Hni Hnd].
  destruct Hin as [Heq | Hin].
  - injection Heq as -> ->. now rewrite String.eqb_refl.
  - destruct (String.eqb k' k) eqn:E; [|auto].
    apply String.eqb_eq in E. subst. exfalso. apply Hni.
    change k with (fst (k, v)). now apply in_map.
Qed.

(** X5. Start-up builds a registry in which every plant id and every farm id
    has one entry, every plant is filed under its own id and is empty, and
    every farm has exactly the plants' ids, in the plants' order, as the keys
    of its distances. *)
Theorem initialize_registry (h : Q -> Q -> Q -> Q -> Q -> Q) (cfg : Config)
    (stp_df : list StpRow) (farm_df : list FarmRow) (weather n_demand : DataFrame) :
  let dm := initialize h cfg stp_df farm_df weather n_demand in
  NoDup (keys (stps dm)) /\
  NoDup (keys (farms dm)) /\
  (forall k, In k (keys (stps dm)) <-> In k (map row_stp_id stp_df)) /\
  (forall k, In k (keys (farms dm)) <-> In k (map row_farm_id farm_df)) /\
  Forall (fun item => stp_ident (snd item) = fst item /\
                      current_storage (snd item) = 0) (stps dm) /\
  Forall (fun item => keys (distances (snd item)) = keys (stps dm)) (farms dm).
Proof.
  cbv zeta.
  destruct (initialize_well_formed h cfg stp_df farm_df weather n_demand)
    as ((Hnd & Hid & Hfk) & Hdist & Hzero).
  split; [exact Hnd|]. split; [exact Hfk|].
  assert (Hkeys : forall (V R : Type) (key : R -> string) (val : R -> V) rows k,
            In k (keys (fold_left (fun d r => dict_set d (key r) (val r)) rows []))
            <-> In k (map key rows)).
  { intros V R key val rows k.
    assert (H : forall d,
              In k (keys (fold_left (fun d r => dict_set d (key r) (val r)) rows d))
              <-> In k (keys d) \/ In k (map key rows)).
    { induction rows as [|r rows IH]; intro d; simpl; [tauto|].
      rewrite IH, dict_set_keys_In. intuition. }
    rewrite H. simpl. tauto. }
  split; [|split; [|split]].
  - intro k. apply (Hkeys STP StpRow).
  - intro k. apply (Hkeys Farm FarmRow).
  - rewrite Forall_forall in *. intros item Hin. split; auto.
  - exact Hdist.
Qed.

(** X6. A plant id that occurs on several rows of the registry gets the data
    of its last row, and starts empty; an id on no row is not a plant. *)
Theorem initialize_stps_last_row (stp_df : list StpRow) (k : string) :
  dict_get (initialize_stps stp_df) k =
    match find (fun row => String.eqb (row_stp_id row) k) (rev stp_df) with
    | Some row =>
        Some (mkSTP k (daily_output_tons row) (storage_max_tons row)
                    (row_stp_lat row) (row_stp_lon row) 0)
    | None => None
    end.
Proof.
  unfold initialize_stps.
  rewrite (fold_dict_set_lookup row_stp_id
             (fun row => mkSTP (row_stp_id row) (daily_output_tons row)
                           (storage_max_tons row) (row_stp_lat row)
                           (row_stp_lon row) 0)).
  destruct (find _ (rev stp_df)) as [row|] eqn:E; [|reflexivity].
  apply find_some in E. destruct E as [_ E]. apply String.eqb_eq in E.
  now rewrite E.
Qed.

(** X7. After start-up the distance a farm keeps for a plant is the
    great-circle distance from the plant's coordinates to the farm's own
    coordinates, at the configured radius. *)
Theorem initialize_distances_values (h : Q -> Q -> Q -> Q -> Q -> Q) (cfg : Config)
    (stp_df : list StpRow) (farm_df : list FarmRow) (weather n_demand : DataFrame)
    (fid k : string) (farm : Farm) (stp : STP) :
  let dm := initialize h cfg stp_df farm_df weather n_demand in
  In (fid, farm) (farms dm) ->
  In (k, stp) (stps dm) ->
  dict_get (distances farm) k =
    Some (h (stp_lat stp) (stp_lon stp) (farm_lat farm) (farm_lon farm)
            (haversine_earth_radius_km cfg)).
Proof.
  cbv zeta. intros Hf Hs.
  destruct (initialize_well_formed h cfg stp_df farm_df weather n_demand)
    as ((Hnd & _) & _).
  unfold initialize in *. cbn [stps farms] in *.
  assert (Hbuilt : Forall (fun item =>
            distances (snd item) =
              initialize_distances h (haversine_earth_radius_km cfg)
                (initialize_stps stp_df) (farm_lat (snd item)) (farm_lon (snd item)))
            (initialize_farms h (haversine_earth_radius_km cfg)
               (initialize_stps stp_df) farm_df)).
  { unfold initialize_farms.
    apply (fold_dict_set_inv
             (fun d : dict Farm =>
                Forall (fun item =>
                  distances (snd item) =
                    initialize_distances h (haversine_earth_radius_km cfg)
                      (initialize_stps stp_df) (farm_lat (snd item))
                      (farm_lon (snd item))) d)
             row_farm_id
             (fun row => mkFarm (row_farm_id row) (row_zone row) (row_area_ha row)
                           (row_farm_lat row) (row_farm_lon row)
                           (initialize_distances h (haversine_earth_radius_km cfg)
                              (initialize_stps stp_df) (row_farm_lat row)
                              (row_farm_lon row)))).
    - intros d r HFd. induction HFd as [|[k' v'] d Hi HFd IH]; simpl.
      + repeat constructor.
      + destruct (String.eqb k' (row_farm_id r)); constructor; auto.
    - constructor. }
  rewrite Forall_forall in Hbuilt. pose proof (Hbuilt _ Hf) as Hb.
  cbn [snd] in Hb. rewrite Hb. unfold initialize_distances.
  rewrite (fold_dict_set_lookup (fun item : string * STP => fst item)
             (fun item => h (stp_lat (snd item)) (stp_lon (snd item))
                            (farm_lat farm) (farm_lon farm)
                            (haversine_earth_radius_km cfg))).
  rewrite (find_key_NoDup (rev (initialize_stps stp_df)) k stp).
  - reflexivity.
  - unfold keys in *. rewrite map_rev. now apply NoDup_rev.
  - now apply in_rev in Hs.
Qed.

(** ** simulator.py: what a day adds up to *)

Lemma dict_get_default_set {V : Type} (d : dict V) (k k0 : string) (v dflt : V) :
  dict_get_default (dict_set d k v) k0 dflt =
    if String.eqb k k0 then v else dict_get_default d k0 dflt.
Proof.
  unfold dict_get_default. rewrite dict_get_set. now destruct (String.eqb k k0).
Qed.

(** One pass of the action loop, with the rain-lock test named. *)
Lemma process_action_effect (dm : DataManager) (date : string) (t t' : Tally)
    (a : Action) :
  process_action dm date t a = Ok t' ->
  daily_emissions t' = daily_emissions t + action_emission dm a /\
  daily_delivered t' =
    (if action_locked dm date a then daily_delivered t
     else daily_delivered t + amount_tons a) /\
  banned_count t' =
    (if action_locked dm date a then S (banned_count t) else banned_count t) /\
  daily_penalties t' =
    (if action_locked dm date a
     then daily_penalties t + amount_tons a * overflow_penalty dm
     else daily_penalties t) /\
  stp_dispatches t' =
    dict_set (stp_dispatches t) (stp_id a)
      (dict_get_default (stp_dispatches t) (stp_id a) 0 + amount_tons a) /\
  farm_deliveries t' =
    (if action_locked dm date a then farm_deliveries t
     else dict_set (farm_deliveries t) (farm_id a)
            (dict_get_default (farm_deliveries t) (farm_id a) 0 + amount_tons a)).
Proof.
  unfold process_action. intro H. do 3 bind_inv H.
  apply dict_index_Ok in E. unfold action_locked, action_emission.
  rewrite E, E1.
  destruct a2; do 2 bind_inv H; injection H as <-;
    apply dict_index_Ok in E2; rewrite E2;
    apply py_div_Ok in E3; destruct E3 as [_ ->];
    tally_simpl; repeat split; reflexivity.
Qed.

Lemma tons_from_cons (key : string) (a : Action) (l : list Action) :
  tons_from key (a :: l) ==
    (if String.eqb (stp_id a) key then amount_tons a else 0) + tons_from key l.
Proof.
  unfold tons_from. cbn [filter]. destruct (String.eqb (stp_id a) key); cbn [map].
  - rewrite Qsum_cons. reflexivity.
  - lra.
Qed.

Lemma tons_to_cons (key : string) (a : Action) (l : list Action) :
  tons_to key (a :: l) ==
    (if String.eqb (farm_id a) key then amount_tons a else 0) + tons_to key l.
Proof.
  unfold tons_to. cbn [filter]. destruct (String.eqb (farm_id a) key); cbn [map].
  - rewrite Qsum_cons. reflexivity.
  - lra.
Qed.

(** The whole action loop. *)
Lemma process_actions_effect (dm : DataManager) (date : string)
    (actions : list Action) :
  forall t t', foldM (process_action dm date) actions t = Ok t' ->
    daily_emissions t' == daily_emissions t + Qsum (map (action_emission dm) actions) /\
    daily_delivered t' ==
      daily_delivered t + total_tons (filter (action_accepted dm date) actions) /\
    banned_count t' =
      (banned_count t + List.length (filter (action_locked dm date) actions))%nat /\
    daily_penalties t' ==
      daily_penalties t
      + total_tons (filter (action_locked dm date) actions) * overflow_penalty dm /\
    (forall k, dict_get_default (stp_dispatches t') k 0 ==
               dict_get_default (stp_dispatches t) k 0 + tons_from k actions) /\
    (forall k, dict_get_default (farm_deliveries t') k 0 ==
               dict_get_default (farm_deliveries t) k 0
               + tons_to k (filter (action_accepted dm date) actions)) /\
    (NoDup (keys (farm_deliveries t)) -> NoDup (keys (farm_deliveries t'))) /\
    (forall k, In k (keys (farm_deliveries t')) <->
               In k (keys (farm_deliveries t)) \/
               In k (map farm_id (filter (action_accepted dm date) actions))).
Proof.
  induction actions as [|a actions IH]; intros t t' H; simpl in H.
  - injection H as <-. unfold total_tons. cbn [map filter List.length].
    rewrite Qsum_nil, Nat.add_0_r.
    repeat split; try lra; try tauto;
      try (intro k; unfold tons_from, tons_to; cbn [filter map]; rewrite Qsum_nil; lra).
    intros [H|[]]. exact H.
  - bind_inv H. apply process_action_effect in E.
    destruct E as (He & Hd & Hb & Hp & Hs & Hf).
    apply IH in H. destruct H as (He' & Hd' & Hb' & Hp' & Hs' & Hf' & Hnd' & Hk').
    unfold total_tons, action_accepted in *. cbn [map filter].
    rewrite Qsum_cons.
    split; [rewrite He', He; lra|].
    split; [rewrite Hd', Hd; destruct (action_locked dm date a); cbn [negb map];
            rewrite ?Qsum_cons; lra|].
    split; [rewrite Hb', Hb; destruct (action_locked dm date a); cbn [List.length]; lia|].
    split; [rewrite Hp', Hp; destruct (action_locked dm date a); cbn [map];
            rewrite ?Qsum_cons; lra|].
    split; [|split; [|split]].
    + intro k. rewrite Hs', Hs, dict_get_default_set, tons_from_cons.
      destruct (String.eqb (stp_id a) k) eqn:Ek; [|lra].
      apply String.eqb_eq in Ek. subst k. lra.
    + intro k. rewrite Hf', Hf.
      destruct (action_locked dm date a); cbn [negb]; [lra|].
      rewrite dict_get_default_set, tons_to_cons.
      destruct (String.eqb (farm_id a) k) eqn:Ek; [|lra].
      apply String.eqb_eq in Ek. subst k. lra.
    + intro Hnd. apply Hnd'. rewrite Hf.
      destruct (action_locked dm date a); [exact Hnd | now apply dict_set_NoDup].
    + intro k. rewrite Hk', Hf.
      destruct (action_locked dm date a); cbn [negb map]; [tauto|].
      rewrite dict_set_keys_In. simpl. intuition.
Qed.

(** X8. Transport emissions are charged for every action of the day, the
    rejected ones included: [emissions] is the sum over all actions of
    distance * ceil(tons / truck_capacity) * emission_factor. *)
Theorem run_day_emissions (dm : DataManager) (date : string) (actions : list Action)
    (res : DailyResult) (dm' : DataManager) :
  run_day dm date actions = Ok (res, dm') ->
  emissions res == Qsum (map (action_emission dm) actions).
Proof.
  intro H. apply run_day_inv in H.
  destruct H as (t1 & t2 & t3 & stps3 & H1 & H2 & H3 & -> & _).
  cbn [emissions].
  apply process_actions_effect in H1. destruct H1 as (He & _).
  apply process_farms_tally in H2. destruct H2 as (_ & _ & He2 & _).
  apply process_stps_tally in H3. destruct H3 as (_ & _ & _ & _ & He3 & _).
  rewrite He3, He2, He. cbn [daily_emissions tally0]. lra.
Qed.

(** X9. [run_day] splits the actions in two: those whose farm is rain-locked
    are counted in [banned_actions], the tons of the others add up to
    [delivered_tons]; no action is in both or in neither. *)
Theorem run_day_delivered_and_banned (dm : DataManager) (date : string)
    (actions : list Action) (res : DailyResult) (dm' : DataManager) :
  run_day dm date actions = Ok (res, dm') ->
  banned_actions res = List.length (filter (action_locked dm date) actions) /\
  delivered_tons res == total_tons (filter (action_accepted dm date) actions) /\
  (banned_actions res
   + List.length (filter (action_accepted dm date) actions))%nat
  = List.length actions.
Proof.
  intro H. apply run_day_inv in H.
  destruct H as (t1 & t2 & t3 & stps3 & H1 & H2 & H3 & -> & _).
  cbn [banned_actions delivered_tons].
  apply process_actions_effect in H1. destruct H1 as (_ & Hd & Hb & _).
  apply process_farms_tally in H2. destruct H2 as (_ & _ & _ & Hd2 & _ & Hb2 & _).
  apply process_stps_tally in H3.
  destruct H3 as (_ & _ & _ & _ & _ & Hd3 & Hb3 & _).
  rewrite Hb3, Hb2, Hb, Hd3, Hd2, Hd. cbn [banned_count daily_delivered tally0].
  split; [reflexivity|]. split; [lra|].
  unfold action_accepted. clear.
  induction actions as [|a l IH]; simpl; [reflexivity|].
  destruct (action_locked dm date a); simpl; lia.
Qed.

(** X10. Credits and leaching are computed once per farm, on the sum of the
    tons it accepted that day; the penalties of a day are the dump penalty on the tons of the
    rejected actions, the leaching penalty of every farm that received a
    delivery, and the overflow penalty on the day's overflow. *)
Theorem run_day_farm_accounting (dm : DataManager) (date : string) (actions : list Action)
    (res : DailyResult) (dm' : DataManager) :
  run_day dm date actions = Ok (res, dm') ->
  exists deliveries,
    NoDup (keys deliveries) /\
    (forall k, In k (keys deliveries) <->
               In k (map farm_id (filter (action_accepted dm date) actions))) /\
    (forall k, dict_get_default deliveries k 0 ==
               tons_to k (filter (action_accepted dm date) actions)) /\
    penalties res ==
      total_tons (filter (action_locked dm date) actions) * overflow_penalty dm
      + Qsum (map (farm_leaching dm (get_daily_demand_per_ha dm date)) deliveries)
      + overflow_tons res * overflow_penalty dm /\
    credits res ==
      Qsum (map (farm_credit dm (get_daily_demand_per_ha dm date)) deliveries).
Proof.
  intro H. apply run_day_inv in H.
  destruct H as (t1 & t2 & t3 & stps3 & H1 & H2 & H3 & -> & _).
  cbn [penalties overflow_tons credits].
  destruct (process_actions_frame _ _ _ _ _ H1) as [Hc1 Ho1].
  apply process_actions_effect in H1.
  destruct H1 as (_ & _ & _ & Hp & _ & Hf & Hnd & Hk).
  apply process_farms_tally in H2.
  destruct H2 as (Hc2 & Hp2 & _ & _ & Ho2 & _ & _ & Hs2).
  apply process_stps_tally in H3.
  destruct H3 as (_ & Ho3 & Hp3 & Hc3 & _).
  cbn [daily_credits daily_overflow daily_penalties farm_deliveries tally0 keys map] in *.
  exists (farm_deliveries t1). split; [apply Hnd; constructor|].
  split; [intro k; rewrite Hk; simpl; tauto|].
  split; [intro k; rewrite Hf;
          change (dict_get_default (@nil (string * Q)) k 0) with 0; lra|].
  split.
  - rewrite Hp3, Hp2, Hp, Ho3, Ho2, Ho1. lra.
  - rewrite Hc3, Hc2, Hc1. lra.
Qed.

(** The settled storage of a plant, from the tons dispatched. *)
Lemma settled_storage_closed_form (cs out d d' cap v : Q) :
  d == d' ->
  v = (if Qltb cap (py_max 0 (cs + out - d)) then cap else py_max 0 (cs + out - d)) ->
  v == Qmin (Qmax 0 (cs + out - d')) cap.
Proof.
  intros Hd ->.
  pose proof (py_max_Qmax 0 (cs + out - d)) as Hpm.
  pose proof (Q.max_spec 0 (cs + out - d)) as H1.
  pose proof (Q.max_spec 0 (cs + out - d')) as H2.
  pose proof (Q.min_spec (Qmax 0 (cs + out - d')) cap) as H3.
  set (m := Qmax 0 (cs + out - d)) in *.
  set (m' := Qmax 0 (cs + out - d')) in *.
  set (p := py_max 0 (cs + out - d)) in *.
  set (r := Qmin m' cap) in *.
  destruct (Qltb cap p) eqn:E; [apply Qltb_lt in E | apply Qltb_ge in E];
    destruct H1 as [[? ?]|[? ?]], H2 as [[? ?]|[? ?]], H3 as [[? ?]|[? ?]]; lra.
Qed.

(** X11. Whatever the rain locks, every ton named by an action leaves its
    plant: after [run_day] a plant holds
    min(max(0, storage + output - tons of all its actions), capacity). *)
Theorem run_day_storage_closed_form (dm : DataManager) (date : string)
    (actions : list Action) (res : DailyResult) (dm' : DataManager) :
  run_day dm date actions = Ok (res, dm') ->
  Forall2 (fun item item' =>
             fst item' = fst item /\
             current_storage (snd item') ==
               Qmin (Qmax 0 (current_storage (snd item) + daily_output (snd item)
                             - tons_from (fst item) actions))
                    (max_storage (snd item)))
          (stps dm) (stps dm').
Proof.
  intro H. apply run_day_inv in H.
  destruct H as (t1 & t2 & t3 & stps3 & H1 & H2 & H3 & _ & ->).
  cbn [stps set_stps].
  apply process_actions_effect in H1. destruct H1 as (_ & _ & _ & _ & Hs & _).
  apply process_farms_tally in H2. destruct H2 as (_ & _ & _ & _ & _ & _ & _ & Hs2).
  apply process_stps_tally in H3. destruct H3 as (HF & _). rewrite Hs2 in HF.
  clear -HF Hs. induction HF as [|item item' l l' (Hk & _ & Hv) _ IH];
    constructor; [|exact IH].
  split; [exact Hk|].
  eapply settled_storage_closed_form; [|exact Hv].
  rewrite Hs. change (dict_get_default (stp_dispatches tally0) (fst item) 0) with 0. lra.
Qed.

(** A sum over a list, split by a test. *)
Lemma Qsum_filter_split {A : Type} (f : A -> Q) (p : A -> bool) (l : list A) :
  Qsum (map f l)
  == Qsum (map f (filter (fun a => negb (p a)) l)) + Qsum (map f (filter p l)).
Proof.
  induction l as [|a l IH]; cbn [map filter]; [rewrite Qsum_nil; lra|].
  rewrite Qsum_cons, IH. destruct (p a); cbn [negb map]; rewrite Qsum_cons; lra.
Qed.

Lemma tons_from_filter_split (key : string) (p : Action -> bool) (l : list Action) :
  tons_from key l
  == tons_from key (filter (fun a => negb (p a)) l) + tons_from key (filter p l).
Proof.
  induction l as [|a l IH]; cbn [filter].
  - unfold tons_from. cbn [filter map]. rewrite Qsum_nil. lra.
  - rewrite tons_from_cons, IH.
    destruct (p a); cbn [negb]; rewrite tons_from_cons; lra.
Qed.

(** C3. What [run_day] does with the actions whose destination zone is
    rain-locked on the date ([rejected]; the others are [accepted]): every
    one of them is counted in [banned_actions]; its transport emissions
    (distance * ceil(tons / truck_capacity) * emission_factor) are charged
    like those of an accepted action; its tons are charged the overflow-rate
    penalty; it adds nothing to [delivered_tons] and nothing to the per-farm
    deliveries from which credits (nitrogen uptake, soil carbon) and leaching
    are computed; and its tons leave the source plant like delivered ones. *)
Theorem rain_locked_action_rejected (dm : DataManager) (date : string)
    (actions : list Action) (res : DailyResult) (dm' : DataManager) :
  run_day dm date actions = Ok (res, dm') ->
  let rejected := filter (action_locked dm date) actions in
  let accepted := filter (action_accepted dm date) actions in
  (forall a farm,
     In a actions -> dict_get (farms dm) (farm_id a) = Some farm ->
     is_rain_locked dm date (zone farm) = Ok true ->
     In a rejected /\ ~ In a accepted) /\
  banned_actions res = List.length rejected /\
  emissions res ==
    Qsum (map (action_emission dm) accepted)
    + Qsum (map (action_emission dm) rejected) /\
  delivered_tons res == total_tons accepted /\
  (exists deliveries,
     NoDup (keys deliveries) /\
     (forall k, In k (keys deliveries) <-> In k (map farm_id accepted)) /\
     (forall k, dict_get_default deliveries k 0 == tons_to k accepted) /\
     credits res ==
       Qsum (map (farm_credit dm (get_daily_demand_per_ha dm date)) deliveries) /\
     penalties res ==
       total_tons rejected * overflow_penalty dm
       + Qsum (map (farm_leaching dm (get_daily_demand_per_ha dm date)) deliveries)
       + overflow_tons res * overflow_penalty dm) /\
  Forall2 (fun item item' =>
             fst item' = fst item /\
             current_storage (snd item') ==
               Qmin (Qmax 0 (current_storage (snd item) + daily_output (snd item)
                             - (tons_from (fst item) accepted
                                + tons_from (fst item) rejected)))
                    (max_storage (snd item)))
          (stps dm) (stps dm').
Proof.
  intros H rejected accepted. subst rejected accepted. apply run_day_inv in H.
  destruct H as (t1 & t2 & t3 & stps3 & H1 & H2 & H3 & -> & ->).
  cbn [banned_actions emissions delivered_tons credits penalties overflow_tons
       stps set_stps].
  destruct (process_actions_frame _ _ _ _ _ H1) as [Hc1 Ho1].
  apply process_actions_effect in H1.
  destruct H1 as (He & Hd & Hb & Hp & Hs & Hf & Hnd & Hk).
  apply process_farms_tally in H2.
  destruct H2 as (Hc2 & Hp2 & He2 & Hd2 & Ho2 & Hb2 & _ & Hs2).
  apply process_stps_tally in H3.
  destruct H3 as (HF & Ho3 & Hp3 & Hc3 & He3 & Hd3 & Hb3 & _).
  cbn [daily_credits daily_overflow daily_penalties daily_emissions daily_delivered
       banned_count farm_deliveries tally0 keys map] in *.
  split; [|split; [|split; [|split; [|split]]]].
  - intros a farm Hin Hfarm Hlock.
    assert (Hl : action_locked dm date a = true)
      by (unfold action_locked; now rewrite Hfarm, Hlock).
    split; [apply filter_In; auto|].
    intro Hacc. apply filter_In in Hacc. destruct Hacc as [_ Hacc].
    unfold action_accepted in Hacc. rewrite Hl in Hacc. discriminate.
  - rewrite Hb3, Hb2, Hb. reflexivity.
  - rewrite He3, He2, He.
    rewrite (Qsum_filter_split (action_emission dm) (action_locked dm date) actions).
    change (filter (fun a => negb (action_locked dm date a)) actions)
      with (filter (action_accepted dm date) actions). lra.
  - rewrite Hd3, Hd2, Hd. lra.
  - exists (farm_deliveries t1). split; [apply Hnd; constructor|].
    split; [intro k; rewrite Hk; simpl; tauto|].
    split; [intro k; rewrite Hf;
            change (dict_get_default (@nil (string * Q)) k 0) with 0; lra|].
    split.
    + rewrite Hc3, Hc2, Hc1. lra.
    + rewrite Hp3, Hp2, Hp, Ho3, Ho2, Ho1. lra.
  - rewrite Hs2 in HF. clear -HF Hs.
    induction HF as [|item item' l l' (Hk & _ & Hv) _ IH]; constructor; [|exact IH].
    split; [exact Hk|].
    eapply settled_storage_closed_form; [|exact Hv].
    rewrite Hs. change (dict_get_default (stp_dispatches tally0) (fst item) 0) with 0.
    rewrite (tons_from_filter_split (fst item) (action_locked dm date) actions).
    change (filter (fun a => negb (action_locked dm date a)) actions)
      with (filter (action_accepted dm date) actions). lra.
Qed.

(** [ex_plan] on 2025-01-01: the 4 tons sent from STP_B to the coast are
    rejected, the 20 tons sent from STP_A to F_001 are delivered; both
    journeys emit, and the 4 tons are gone from STP_B. *)
Lemma rain_locked_action_rejected_witness :
  exists res dm',
    run_day ex_dm "2025-01-01" ex_plan = Ok (res, dm') /\
    banned_actions res = 1%nat /\
    delivered_tons res == 20 /\
    emissions res == (108 # 5) + (9 # 2) /\
    Forall2 (fun item item' =>
               fst item' = fst item /\
               current_storage (snd item') ==
                 Qmin (Qmax 0 (current_storage (snd item) + daily_output (snd item)
                               - (tons_from (fst item) [mkAction "STP_A" "F_001" 20]
                                  + tons_from (fst item) [mkAction "STP_B" "F_003" 4])))
                      (max_storage (snd item)))
            (stps ex_dm) (stps dm').
Proof.
  eexists _, _.
  match goal with |- run_day _ _ _ = Ok (?res, ?dm') /\ _ =>
    assert (Hrun : run_day ex_dm "2025-01-01" ex_plan = Ok (res, dm'))
      by (vm_compute; reflexivity)
  end.
  destruct (rain_locked_action_rejected _ _ _ _ _ Hrun) as (_ & Hb & He & Hd & _ & Hs).
  split; [exact Hrun|].
  split; [rewrite Hb; vm_compute; reflexivity|].
  split; [rewrite Hd; vm_compute; reflexivity|].
  split; [rewrite He; vm_compute; reflexivity|].
  exact Hs.
Defined.

(** X12. A day without actions never raises: it earns and emits nothing,
    delivers and rejects nothing, and its score is minus the overflow
    penalty. *)
Theorem run_day_no_actions (dm : DataManager) (date : string) :
  exists res dm',
    run_day dm date [] = Ok (res, dm') /\
    credits res = 0 /\ emissions res = 0 /\ delivered_tons res = 0 /\
    banned_actions res = O /\
    penalties res == overflow_tons res * overflow_penalty dm /\
    net_score res == - (overflow_tons res * overflow_penalty dm).
Proof.
  unfold run_day. cbn [foldM bind farm_deliveries tally0].
  destruct (process_stps dm tally0 (stps dm)) as [t3 stps3] eqn:E3.
  eexists _, _. split; [reflexivity|].
  apply process_stps_tally in E3.
  destruct E3 as (_ & Ho & Hp & Hc & He & Hd & Hb & _).
  cbn [credits emissions delivered_tons banned_actions penalties overflow_tons
       net_score daily_credits daily_emissions daily_delivered banned_count
       daily_overflow daily_penalties tally0] in *.
  rewrite Hc, He, Hd, Hb. repeat split; try reflexivity.
  - rewrite Hp, Ho. lra.
  - rewrite Hp, Ho. lra.
Qed.

Lemma Qsum_indicator (x : string) (v : Q) (ks : list string) :
  NoDup ks -> In x ks ->
  Qsum (map (fun k => if String.eqb x k then v else 0) ks) == v.
Proof.
  induction ks as [|k ks IH]; intros Hnd Hin; [contradiction|].
  apply NoDup_cons_iff in Hnd. destruct Hnd as [Hni Hnd].
  cbn [map]. rewrite Qsum_cons. destruct Hin as [-> | Hin].
  - rewrite String.eqb_refl.
    assert (Hz : Qsum (map (fun k => if String.eqb x k then v else 0) ks) == 0).
    { clear -Hni. induction ks as [|k ks IH]; [reflexivity|].
      cbn [map]. rewrite Qsum_cons.
      destruct (String.eqb x k) eqn:E.
      - apply String.eqb_eq in E. subst. exfalso. apply Hni. now left.
      - rewrite IH; [lra|]. intro H. apply Hni. now right. }
    lra.
  - destruct (String.eqb x k) eqn:E.
    + apply String.eqb_eq in E. subst. contradiction.
    + rewrite (IH Hnd Hin). lra.
Qed.

Lemma Qsum_map_plus {A : Type} (f g : A -> Q) (l : list A) :
  Qsum (map (fun x => f x + g x) l) == Qsum (map f l) + Qsum (map g l).
Proof.
  induction l as [|x l IH]; cbn [map]; [rewrite !Qsum_nil; lra|].
  rewrite !Qsum_cons, IH. lra.
Qed.

Lemma Qsum_map_ext {A : Type} (f g : A -> Q) (l : list A) :
  (forall x, f x == g x) -> Qsum (map f l) == Qsum (map g l).
Proof.
  intro H. induction l as [|x l IH]; cbn [map]; [reflexivity|].
  rewrite !Qsum_cons, IH, H. reflexivity.
Qed.

(** Summing the tons plant by plant counts every action once. *)
Lemma tons_from_all_plants (ks : list string) (actions : list Action) :
  NoDup ks -> Forall (fun a => In (stp_id a) ks) actions ->
  Qsum (map (fun k => tons_from k actions) ks) == total_tons actions.
Proof.
  intros Hnd. induction 1 as [|a l Ha _ IH].
  - unfold total_tons. cbn [map]. rewrite Qsum_nil.
    clear. induction ks as [|k ks IH]; cbn [map]; [reflexivity|].
    rewrite Qsum_cons, IH. unfold tons_from. cbn [filter map]. rewrite Qsum_nil. lra.
  - unfold total_tons in *. cbn [map]. rewrite Qsum_cons, <- IH.
    rewrite (Qsum_map_ext _ (fun k => (if String.eqb (stp_id a) k then amount_tons a else 0)
                                      + tons_from k l))
      by (intro k; apply tons_from_cons).
    rewrite Qsum_map_plus, (Qsum_indicator _ _ _ Hnd Ha). reflexivity.
Qed.

(** Every action [run_day] went through names a plant of the registry. *)
Lemma process_actions_known_plants (dm : DataManager) (date : string)
    (actions : list Action) :
  forall t t', foldM (process_action dm date) actions t = Ok t' ->
    Forall (fun a => In (stp_id a) (keys (stps dm))) actions.
Proof.
  induction actions as [|a actions IH]; intros t t' H; simpl in H; constructor.
  - bind_inv H. unfold process_action in E. do 2 bind_inv E.
    apply dict_index_Ok, dict_get_In in E1.
    unfold keys. change (stp_id a) with (fst (stp_id a, a2)). now apply in_map.
  - bind_inv H. eauto.
Qed.

(** The balance of one day for a plan no plant is short for. *)
Lemma run_day_balance (dm : DataManager) (date : string)
    (actions : list Action) (res : DailyResult) (dm' : DataManager) :
  NoDup (keys (stps dm)) ->
  Forall (fun item => tons_from (fst item) actions
                      <= current_storage (snd item) + daily_output (snd item))
         (stps dm) ->
  run_day dm date actions = Ok (res, dm') ->
  Qsum (map current_storage (values (stps dm')))
  + overflow_tons res + total_tons actions
  == Qsum (map current_storage (values (stps dm)))
     + Qsum (map daily_output (values (stps dm))).
Proof.
  intros Hnd Hfeas H. apply run_day_inv in H.
  destruct H as (t1 & t2 & t3 & stps3 & H1 & H2 & H3 & -> & ->).
  cbn [stps set_stps overflow_tons].
  pose proof (process_actions_known_plants _ _ _ _ _ H1) as Hknown.
  destruct (process_actions_frame _ _ _ _ _ H1) as [_ Ho1].
  apply process_actions_effect in H1. destruct H1 as (_ & _ & _ & _ & Hs & _).
  apply process_farms_tally in H2.
  destruct H2 as (_ & _ & _ & _ & Ho2 & _ & _ & Hs2).
  apply process_stps_tally in H3. destruct H3 as (HF & Ho3 & _).
  rewrite Hs2 in *. rewrite Ho3, Ho2, Ho1. cbn [daily_overflow tally0].
  rewrite <- (tons_from_all_plants _ _ Hnd Hknown).
  assert (Hd : forall k, dict_get_default (stp_dispatches t1) k 0 == tons_from k actions).
  { intro k. rewrite Hs.
    change (dict_get_default (stp_dispatches tally0) k 0) with 0. lra. }
  clear -HF Hfeas Hd. unfold values, keys.
  induction HF as [|item item' l l' (Hk & _ & Hv) _ IH]; cbn [map].
  - rewrite !Qsum_nil. lra.
  - inversion Hfeas as [|? ? Hf1 Hf2]; subst. specialize (IH Hf2).
    rewrite !Qsum_cons.
    assert (Hitem : current_storage (snd item') + overflow_of (stp_dispatches t1) item
                    + tons_from (fst item) actions
                    == current_storage (snd item) + daily_output (snd item)).
    { cbn [fst snd] in Hf1. rewrite <- (Hd (fst item)) in Hf1 |- *.
      rewrite Hv. unfold overflow_of, new_storage.
      set (x := current_storage (snd item) + daily_output (snd item)
                - dict_get_default (stp_dispatches t1) (fst item) 0).
      assert (Hx : 0 <= x) by (unfold x; lra).
      destruct (py_max_spec 0 x) as (Hm1 & Hm2 & _).
      assert (Hp : py_max 0 x == x).
      { unfold py_max in *. destruct (Qltb 0 x) eqn:E; [reflexivity|].
        apply Qltb_ge in E. lra. }
      set (p := py_max 0 x) in *.
      destruct (Qltb (max_storage (snd item)) p); unfold x in Hp; lra. }
    lra.
Qed.

(** X13. Mass balance of a day. When no plant is asked for more than its
    storage plus its output, nothing disappears: what the plants hold after
    the day, plus the overflow, plus the tons of all the actions, is what
    they held before plus what they produced. *)
Theorem run_day_mass_balance (dm : DataManager) (date : string)
    (actions : list Action) (res : DailyResult) (dm' : DataManager) :
  NoDup (keys (stps dm)) ->
  Forall (fun item => tons_from (fst item) actions
                      <= current_storage (snd item) + daily_output (snd item))
         (stps dm) ->
  run_day dm date actions = Ok (res, dm') ->
  Qsum (map current_storage (values (stps dm')))
  + overflow_tons res + total_tons actions
  == Qsum (map current_storage (values (stps dm)))
     + Qsum (map daily_output (values (stps dm))).
Proof. exact (run_day_balance dm date actions res dm'). Qed.

(** The plan of the solver asks no plant for more than it has. *)
Lemma solve_day_within_stock (dm : DataManager) (date : string)
    (actions : list Action) :
  well_formed dm ->
  Forall (fun item => 0 <= current_storage (snd item) + daily_output (snd item))
         (stps dm) ->
  CorrectedSolver.solve_day dm date = Ok actions ->
  Forall (fun item => tons_from (fst item) actions
                      <= current_storage (snd item) + daily_output (snd item))
         (stps dm).
Proof.
  intros Hwf Hpos H. destruct (sorted_stps_idents dm Hwf) as [Hnd _].
  apply solve_day_inv in H. destruct H as (_ & _ & Hper). specialize (Hper Hnd).
  destruct Hwf as (_ & Hid & _).
  rewrite Forall_forall in *. intros [key stp] Hin. cbn [fst snd].
  pose proof (Hid _ Hin) as Hident. cbn [fst snd] in Hident.
  assert (Hs : In stp (CorrectedSolver.sorted_stps dm)).
  { eapply Permutation_in; [apply Permutation_sym, sorted_desc_perm|].
    unfold values. change stp with (snd (key, stp)). now apply in_map. }
  destruct (Hper stp Hs) as [_ Hle]. rewrite Hident in Hle.
  apply Hle. exact (Hpos _ Hin).
Qed.

Lemma deliverable_accepted (dm : DataManager) (date : string) (actions : list Action) :
  Forall (deliverable dm date) actions ->
  filter (action_accepted dm date) actions = actions.
Proof.
  induction 1 as [|a l (_ & farm & Hf & Hr & _) _ IH]; simpl; [reflexivity|].
  unfold action_accepted at 1, action_locked. rewrite Hf, Hr. simpl. now rewrite IH.
Qed.

(** X14. Mass balance of a solved day: with the plan of [solve_day] and no
    plant in deficit, the storage after the day plus the overflow plus the
    delivered tons is the storage before plus the day's production. *)
Theorem solved_day_mass_balance (dm : DataManager) (date : string)
    (actions : list Action) (res : DailyResult) (dm' : DataManager) :
  well_formed dm ->
  Forall (fun item => 0 <= current_storage (snd item) + daily_output (snd item))
         (stps dm) ->
  CorrectedSolver.solve_day dm date = Ok actions ->
  run_day dm date actions = Ok (res, dm') ->
  Qsum (map current_storage (values (stps dm')))
  + overflow_tons res + delivered_tons res
  == Qsum (map current_storage (values (stps dm)))
     + Qsum (map daily_output (values (stps dm))).
Proof.
  intros Hwf Hpos Hs Hr.
  pose proof (solve_day_within_stock dm date actions Hwf Hpos Hs) as Hfeas.
  pose proof (solve_day_deliverable dm date actions Hwf Hs) as Hdel.
  destruct Hwf as (Hnd & _).
  rewrite <- (run_day_balance dm date actions res dm' Hnd Hfeas Hr).
  apply run_day_inv in Hr.
  destruct Hr as (t1 & t2 & t3 & stps3 & H1 & H2 & H3 & -> & ->).
  apply process_actions_effect in H1. destruct H1 as (_ & Hd & _).
  apply process_farms_tally in H2. destruct H2 as (_ & _ & _ & Hd2 & _).
  apply process_stps_tally in H3. destruct H3 as (_ & _ & _ & _ & _ & Hd3 & _).
  cbn [delivered_tons overflow_tons stps set_stps].
  rewrite Hd3, Hd2, Hd, (deliverable_accepted _ _ _ Hdel).
  cbn [daily_delivered tally0]. lra.
Qed.

(** One day keeps the capacities and leaves every plant within them. *)
Lemma run_day_storage_ok (dm : DataManager) (date : string) (actions : list Action)
    (res : DailyResult) (dm' : DataManager) :
  Forall (fun item => 0 <= max_storage (snd item)) (stps dm) ->
  run_day dm date actions = Ok (res, dm') ->
  Forall (fun item => 0 <= max_storage (snd item)) (stps dm') /\ storage_ok dm'.
Proof.
  intros Hcap H. apply run_day_inv in H.
  destruct H as (t1 & t2 & t3 & stps3 & _ & _ & H3 & _ & ->).
  apply process_stps_tally in H3. destruct H3 as (HF & _).
  unfold storage_ok. cbn [stps set_stps]. set (sd := stp_dispatches t2) in *.
  clearbody sd. clear -HF Hcap.
  induction HF as [|item item' l l' (_ & Hst & Hv) _ IH].
  - split; constructor.
  - inversion Hcap as [|? ? Hc1 Hc2]; subst. destruct (IH Hc2) as [IH1 IH2].
    unfold stp_static in Hst. injection Hst as _ _ Hm _ _.
    assert (Hn : 0 <= new_storage sd item) by (unfold new_storage; apply py_max_spec).
    split; constructor; auto.
    + now rewrite Hm.
    + rewrite Hm, Hv.
      destruct (Qltb (max_storage (snd item)) (new_storage sd item)) eqn:E;
        [apply Qltb_lt in E | apply Qltb_ge in E]; lra.
Qed.

(** X15. From start-up on, with no negative capacity in the registry, every
    plant holds between 0 and its capacity after any number of simulated
    days. *)
Theorem run_simulation_storage_ok (h : Q -> Q -> Q -> Q -> Q -> Q) (cfg : Config)
    (stp_df : list StpRow) (farm_df : list FarmRow) (weather n_demand : DataFrame)
    (dates : list string) (r : dict (list Action) * DataManager) :
  Forall (fun row => 0 <= storage_max_tons row) stp_df ->
  run_simulation (initialize h cfg stp_df farm_df weather n_demand) dates = Ok r ->
  storage_ok (snd r).
Proof.
  intros Hrows H.
  set (dm0 := initialize h cfg stp_df farm_df weather n_demand) in *.
  assert (Hcap0 : Forall (fun item => 0 <= max_storage (snd item)) (stps dm0)).
  { apply Forall_forall. intros [k stp] Hin. cbn [snd].
    destruct (initialize_well_formed h cfg stp_df farm_df weather n_demand)
      as ((Hnd & _) & _).
    pose proof (In_dict_get _ _ _ Hnd Hin) as Hget.
    unfold dm0, initialize in Hget. cbn [stps] in Hget.
    unfold initialize_stps in Hget.
    rewrite (fold_dict_set_lookup row_stp_id
               (fun row => mkSTP (row_stp_id row) (daily_output_tons row)
                             (storage_max_tons row) (row_stp_lat row)
                             (row_stp_lon row) 0)) in Hget.
    destruct (find _ (rev stp_df)) as [row|] eqn:E; [|discriminate].
    injection Hget as <-. cbn [max_storage].
    apply find_some in E. destruct E as [E _]. apply in_rev in E.
    rewrite Forall_forall in Hrows. now apply Hrows. }
  assert (Hok0 : storage_ok dm0).
  { destruct (initialize_well_formed h cfg stp_df farm_df weather n_demand)
      as (_ & _ & Hzero).
    unfold storage_ok. fold dm0 in Hzero. rewrite Forall_forall in *.
    intros item Hin. rewrite (Hzero _ Hin). split; [lra | now apply Hcap0]. }
  clearbody dm0. revert H. unfold run_simulation.
  generalize (@nil (string * list Action)).
  revert dm0 Hcap0 Hok0. induction dates as [|d dates IH]; intros dm Hcap Hok acc H;
    simpl in H.
  - injection H as <-. exact Hok.
  - bind_inv H. apply simulate_day_inv in E.
    destruct E as (actions & res & _ & Hr & _). destruct a as [acc' dm1].
    cbn [snd] in Hr. destruct (run_day_storage_ok _ _ _ _ _ Hcap Hr) as [Hcap1 Hok1].
    eapply IH; eauto.
Qed.

(** ** corrected_solver.py: the shape of a plan *)

Lemma dispatch_amounts_le (stp : STP) (c : Q)
    (options : list CorrectedSolver.DeliveryOption) :
  forall available actions visited r,
    CorrectedSolver.dispatch stp options available actions visited = Ok r ->
    Forall (fun o => CorrectedSolver.load_of o <= c) options ->
    Forall (fun a => amount_tons a <= c) actions ->
    Forall (fun a => amount_tons a <= c) (snd (fst r)).
Proof.
  induction options as [|[[[nb dist] fid] load] options IH];
    intros available actions visited r H Hl Ha; simpl in H.
  - now injection H as <-.
  - destruct (Qltb available 1); [now injection H as <-|].
    bind_inv H. inversion Hl as [|? ? Hl1 Hl2]; subst.
    cbn [CorrectedSolver.load_of snd] in Hl1.
    destruct (Qltb 0 nb || Qltb (8 # 10) a); [|now injection H as <-].
    eapply IH; [exact H | exact Hl2 |].
    apply Forall_app. split; [exact Ha|]. constructor; [|constructor].
    cbn [amount_tons]. destruct (py_min_spec available load) as (_ & Hm & _). lra.
Qed.

Lemma Qceiling_unit (x : Q) : 0 < x -> x <= 1 -> Qceiling x = 1%Z.
Proof.
  intros H0 H1.
  pose proof (Qle_ceiling x) as Hu. pose proof (Qceiling_lt x) as Hl.
  assert (Ha : inject_Z 0 < inject_Z (Qceiling x)).
  { change (inject_Z 0) with 0. now apply Qlt_le_trans with x. }
  assert (Hb : inject_Z (Qceiling x - 1) < inject_Z 1).
  { change (inject_Z 1) with 1. now apply Qlt_le_trans with x. }
  rewrite <- Zlt_Qlt in Ha, Hb. lia.
Qed.

(** X16. Every action of a plan carries between 1 and 10 tons, so it is the
    load of exactly one 10-ton truck. *)
Theorem solve_day_one_truck_each (dm : DataManager) (date : string)
    (actions : list Action) :
  CorrectedSolver.solve_day dm date = Ok actions ->
  Forall (fun a => 1 <= amount_tons a <= 10 /\
                   py_ceil (amount_tons a / 10) = 1) actions.
Proof.
  intro H. pose proof (solve_day_inv dm date actions H) as (Hone & _ & _).
  assert (Hten : Forall (fun a => amount_tons a <= 10) actions).
  { unfold CorrectedSolver.solve_day in H. bind_inv H. injection H as <-.
    assert (Hfold : forall l st st',
              foldM (CorrectedSolver.solve_stp dm date (get_daily_demand_per_ha dm date))
                    l st = Ok st' ->
              Forall (fun a => amount_tons a <= 10) (fst st) ->
              Forall (fun a => amount_tons a <= 10) (fst st')).
    { induction l as [|stp l IH]; intros st st' Hf Hst; simpl in Hf.
      - now injection Hf as <-.
      - bind_inv Hf. apply (IH _ _ Hf). clear IH Hf.
        unfold CorrectedSolver.solve_stp in E0.
        destruct (Qltb (current_storage stp + daily_output stp) 1);
          [now injection E0 as <-|].
        do 2 bind_inv E0. injection E0 as <-. cbn [fst].
        eapply dispatch_amounts_le; [exact E2 | | exact Hst].
        apply delivery_options_inv in E1. destruct E1 as [HF _].
        eapply Permutation_Forall; [apply Permutation_sym, sorted_desc_perm|].
        eapply Forall_impl; [|exact HF]. intros o (farm & _ & _ & _ & Hsc).
        apply score_option_inv in Hsc. destruct Hsc as (_ & _ & _ & -> & _).
        apply py_min_spec. }
    apply (Hfold _ _ _ E). constructor. }
  rewrite Forall_forall in *. intros a Hin.
  destruct (Hone _ Hin) as (_ & H1 & _). specialize (Hten _ Hin).
  split; [split; assumption|].
  unfold py_ceil. rewrite Qceiling_unit; [reflexivity | |].
  - apply Qlt_shift_div_l; lra.
  - apply Qle_shift_div_r; lra.
Qed.

(** X17. A plan has at most one action per farm of the registry: it is never
    longer than the farm registry, and every destination is a registered
    farm. *)
Theorem solve_day_plan_size (dm : DataManager) (date : string)
    (actions : list Action) :
  NoDup (keys (farms dm)) ->
  CorrectedSolver.solve_day dm date = Ok actions ->
  (List.length actions <= List.length (farms dm))%nat /\
  Forall (fun a => In (farm_id a) (keys (farms dm))) actions.
Proof.
  intros Hk H. apply solve_day_inv in H. destruct H as (HF & Hnd & _).
  specialize (Hnd Hk).
  assert (Hin : Forall (fun a => In (farm_id a) (keys (farms dm))) actions).
  { eapply Forall_impl; [|exact HF]. intros a (_ & _ & farm & Hin & _).
    unfold keys. change (farm_id a) with (fst (farm_id a, farm)). now apply in_map. }
  split; [|exact Hin].
  rewrite <- (length_map farm_id actions).
  replace (List.length (farms dm)) with (List.length (keys (farms dm)))
    by (unfold keys; apply length_map).
  apply NoDup_incl_length; [exact Hnd|].
  intros fid Hf. apply in_map_iff in Hf. destruct Hf as (a & <- & Ha).
  rewrite Forall_forall in Hin. now apply Hin.
Qed.

Lemma delivery_options_all_locked (dm : DataManager) (date : string) (per_ha : dict Q)
    (stp : STP) (available : Q) (visited : list string) (items : dict Farm) :
  Forall (fun item => is_rain_locked dm date (zone (snd item)) = Ok true) items ->
  CorrectedSolver.delivery_options dm date per_ha stp available visited items = Ok [].
Proof.
  induction 1 as [|[fid farm] items Hi _ IH]; simpl; [reflexivity|].
  destruct (mem fid visited); [exact IH|].
  cbn [snd] in Hi. rewrite Hi. cbn [bind]. exact IH.
Qed.

(** X18. On a day on which every farm is rain-locked the plan is empty, and
    [solve_day] returns it whatever the plants are (a plant of capacity 0
    included: the fill ratio is never computed). *)
Theorem solve_day_all_locked (dm : DataManager) (date : string) :
  Forall (fun item => is_rain_locked dm date (zone (snd item)) = Ok true) (farms dm) ->
  CorrectedSolver.solve_day dm date = Ok [].
Proof.
  intro Hl. unfold CorrectedSolver.solve_day.
  assert (Hfold : forall l,
            foldM (CorrectedSolver.solve_stp dm date (get_daily_demand_per_ha dm date))
                  l ([], []) = Ok ([], [])).
  { induction l as [|stp l IH]; simpl; [reflexivity|].
    unfold CorrectedSolver.solve_stp at 1.
    destruct (Qltb (current_storage stp + daily_output stp) 1); cbn [bind]; [exact IH|].
    cbn [snd fst]. rewrite (delivery_options_all_locked _ _ _ _ _ _ _ Hl).
    cbn [bind sorted_desc fold_right CorrectedSolver.dispatch fst snd]. exact IH. }
  rewrite Hfold. reflexivity.
Qed.

Section SortingStability.
Context {A : Type}.
Variable key : A -> Q.

Lemma insert_desc_filter (q : Q) (x : A) (l : list A) :
  filter (fun y => Qeq_bool (key y) q) (insert_desc key x l)
  = filter (fun y => Qeq_bool (key y) q) (x :: l).
Proof.
  induction l as [|y l IH]; [reflexivity|].
  cbn [insert_desc]. destruct (Qltb (key x) (key y)) eqn:E; [|reflexivity].
  cbn [filter] in *. rewrite IH.
  destruct (Qeq_bool (key y) q) eqn:Ey, (Qeq_bool (key x) q) eqn:Ex; try reflexivity.
  apply Qeq_bool_iff in Ey, Ex. apply Qltb_lt in E. lra.
Qed.

Lemma sorted_desc_stable (q : Q) (l : list A) :
  filter (fun y => Qeq_bool (key y) q) (sorted_desc key l)
  = filter (fun y => Qeq_bool (key y) q) l.
Proof.
  induction l as [|x l IH]; [reflexivity|].
  cbn [sorted_desc fold_right]. rewrite insert_desc_filter.
  cbn [filter]. fold (sorted_desc key l). now rewrite IH.
Qed.

Lemma StronglySorted_app_inv (R : A -> A -> Prop) (l1 l2 : list A) :
  StronglySorted R (l1 ++ l2) ->
  forall x y, In x l1 -> In y l2 -> R x y.
Proof.
  induction l1 as [|z l1 IH]; intros Hs x y Hx Hy; [contradiction|].
  cbn [app] in Hs. inversion Hs as [|? ? Hs' Hall]; subst.
  destruct Hx as [-> | Hx]; [|eauto].
  rewrite Forall_forall in Hall. apply Hall, in_or_app. now right.
Qed.
End SortingStability.

(** X19. The plants are handled in descending order of the triage key
    (storage over capacity, 0 for a capacity that is not positive); the order
    is a rearrangement of the registry in which plants with the same key keep
    their registry order. *)
Theorem sorted_stps_triage (dm : DataManager) :
  Permutation (CorrectedSolver.sorted_stps dm) (values (stps dm)) /\
  StronglySorted (desc CorrectedSolver.triage_key) (CorrectedSolver.sorted_stps dm) /\
  (forall q,
     filter (fun s => Qeq_bool (CorrectedSolver.triage_key s) q)
            (CorrectedSolver.sorted_stps dm)
     = filter (fun s => Qeq_bool (CorrectedSolver.triage_key s) q) (values (stps dm))) /\
  (forall s, In s (values (stps dm)) -> max_storage s <= 0 ->
             CorrectedSolver.triage_key s = 0).
Proof.
  unfold CorrectedSolver.sorted_stps. split; [apply sorted_desc_perm|].
  split; [apply sorted_desc_sorted|]. split; [intro q; apply sorted_desc_stable|].
  intros s _ Hm. unfold CorrectedSolver.triage_key.
  apply Qltb_ge in Hm. now rewrite Hm.
Qed.

(** X20. The deliveries of one plant go to the farms of its [k] best-ranked
    options, in rank order, for some [k]: no option left out has a higher Net
    Carbon Impact than an accepted one. *)
Theorem solve_stp_greedy_prefix (dm : DataManager) (date : string) (per_ha : dict Q)
    (st st' : list Action * list string) (stp : STP) :
  1 <= current_storage stp + daily_output stp ->
  CorrectedSolver.solve_stp dm date per_ha st stp = Ok st' ->
  exists opts new k,
    CorrectedSolver.delivery_options dm date per_ha stp
      (current_storage stp + daily_output stp) (snd st) (farms dm) = Ok opts /\
    fst st' = fst st ++ new /\
    let ranked := sorted_desc CorrectedSolver.net_benefit_of opts in
    map farm_id new = map CorrectedSolver.farm_of (firstn k ranked) /\
    forall taken left, In taken (firstn k ranked) -> In left (skipn k ranked) ->
      CorrectedSolver.net_benefit_of left <= CorrectedSolver.net_benefit_of taken.
Proof.
  intros Ha H. unfold CorrectedSolver.solve_stp in H.
  assert (Qltb (current_storage stp + daily_output stp) 1 = false) as E
    by now apply Qltb_ge.
  rewrite E in H. do 2 bind_inv H. injection H as <-. cbn [fst snd].
  apply dispatch_inv in E1. destruct E1 as (new & Hn & _ & _ & [k Hk] & _).
  exists a, new, k. split; [exact E0|]. split; [exact Hn|]. cbv zeta.
  split; [now rewrite Hk, firstn_map|].
  intros taken left Ht Hl.
  pose proof (sorted_desc_sorted CorrectedSolver.net_benefit_of a) as Hs.
  rewrite <- (firstn_skipn k) in Hs.
  exact (StronglySorted_app_inv _ _ _ Hs taken left Ht Hl).
Qed.

(** X21. For every plant of capacity 0 that has at least 1.0 ton to send while
    an unvisited farm outside the rain lock is left, the walk divides by the
    capacity: the plant loop raises ZeroDivisionError at this plant, whatever
    plants follow. *)
Theorem zero_capacity_walk_raises (dm : DataManager) (date : string)
    (per_ha : dict Q) (st : list Action * list string) (stp : STP)
    (opts : list CorrectedSolver.DeliveryOption) (rest : list STP) :
  max_storage stp == 0 ->
  1 <= current_storage stp + daily_output stp ->
  CorrectedSolver.delivery_options dm date per_ha stp
    (current_storage stp + daily_output stp) (snd st) (farms dm) = Ok opts ->
  (exists fid farm, In (fid, farm) (farms dm) /\ mem fid (snd st) = false /\
                    is_rain_locked dm date (zone farm) = Ok false) ->
  foldM (CorrectedSolver.solve_stp dm date per_ha) (stp :: rest) st
  = Raise ZeroDivisionError.
Proof.
  intros Hm Ha Ho (fid & farm & Hin & Hv & Hr). cbn [foldM].
  rewrite (solve_stp_zero_capacity dm date per_ha st stp opts Hm Ha Ho); [reflexivity|].
  eapply delivery_options_eligible; eauto.
Qed.

(** An entry of a dict filled row by row comes from one of the rows. *)
Lemma fold_dict_set_In {V R : Type} (key : R -> string) (val : R -> V)
    (rows : list R) (k : string) (v : V) :
  In (k, v) (fold_left (fun d r => dict_set d (key r) (val r)) rows []) ->
  exists r, In r rows /\ key r = k /\ val r = v.
Proof.
  intro Hin.
  assert (Hnd : NoDup (keys (fold_left (fun d r => dict_set d (key r) (val r)) rows []))).
  { apply (fold_dict_set_inv (fun d : dict V => NoDup (keys d)) key val).
    - intros d r. apply dict_set_NoDup.
    - constructor. }
  pose proof (In_dict_get _ _ _ Hnd Hin) as Hget.
  rewrite fold_dict_set_lookup in Hget.
  destruct (find _ (rev rows)) as [r|] eqn:E; [|discriminate].
  injection Hget as <-. apply find_some in E. destruct E as [E1 E2].
  exists r. split; [now apply in_rev in E1|]. split; [now apply String.eqb_eq|reflexivity].
Qed.

Lemma run_simulation_dates (dates : list string) :
  forall st r, foldM simulate_day dates st = Ok r ->
    forall d, In d (keys (fst r)) <-> In d (keys (fst st)) \/ In d dates.
Proof.
  induction dates as [|d0 dates IH]; intros st r H d; simpl in H.
  - injection H as <-. simpl. tauto.
  - bind_inv H. rewrite (IH _ _ H).
    unfold simulate_day in E. do 2 bind_inv E. injection E as <-. cbn [fst].
    rewrite dict_set_keys_In. simpl. intuition.
Qed.

(** X22. From start-up on the day loop never raises when every farm of the
    registry lies in a zone of the weather table, no plant of the registry
    has capacity 0 and the truck capacity is not 0: a plan is made and
    recorded for every date. *)
Theorem run_simulation_never_raises (h : Q -> Q -> Q -> Q -> Q -> Q) (cfg : Config)
    (stp_df : list StpRow) (farm_df : list FarmRow) (weather n_demand : DataFrame)
    (dates : list string) :
  Forall (fun row => In (row_zone row) (keys (df_cols weather))) farm_df ->
  Forall (fun row => ~ storage_max_tons row == 0) stp_df ->
  ~ truck_capacity_tons cfg == 0 ->
  exists r,
    run_simulation (initialize h cfg stp_df farm_df weather n_demand) dates = Ok r /\
    forall d, In d (keys (fst r)) <-> In d dates.
Proof.
  intros Hz Hc Ht.
  destruct (initialize_well_formed h cfg stp_df farm_df weather n_demand)
    as (Hwf & Hdist & _).
  set (dm := initialize h cfg stp_df farm_df weather n_demand) in *.
  assert (Hop : operating_range dm).
  { split; [exact Hwf|]. split; [exact Hdist|]. split.
    - apply Forall_forall. intros [fid farm] Hin. cbn [snd].
      unfold dm, initialize in Hin. cbn [farms] in Hin.
      apply fold_dict_set_In in Hin. destruct Hin as (row & Hrow & _ & <-).
      cbn [zone weather_df]. rewrite Forall_forall in Hz. now apply Hz.
    - unfold values. rewrite Forall_map. apply Forall_forall.
      intros [k stp] Hin. cbn [snd].
      unfold dm, initialize in Hin. cbn [stps] in Hin.
      apply fold_dict_set_In in Hin. destruct Hin as (row & Hrow & _ & <-).
      cbn [max_storage]. rewrite Forall_forall in Hc. now apply Hc. }
  destruct (run_simulation_total dm dates Hop Ht) as [r Hr].
  exists r. split; [exact Hr|]. intro d.
  unfold run_simulation in Hr. rewrite (run_simulation_dates _ _ _ Hr). simpl. tauto.
Qed.

(** ** run.py: the solution table *)

Lemma ascii_compare_refl (a : Ascii.ascii) : Ascii.compare a a = Eq.
Proof. unfold Ascii.compare. apply N.compare_refl. Qed.

Lemma string_compare_refl (s : string) : String.compare s s = Eq.
Proof.
  induction s as [|a s IH]; simpl; [reflexivity|].
  now rewrite ascii_compare_refl.
Qed.

Lemma string_compare_lt_trans (s1 s2 s3 : string) :
  String.compare s1 s2 = Lt -> String.compare s2 s3 = Lt -> String.compare s1 s3 = Lt.
Proof.
  revert s2 s3. induction s1 as [|a s1 IH]; intros [|b s2] [|c s3]; simpl;
    try discriminate; try reflexivity.
  unfold Ascii.compare.
  destruct (N.compare_spec (Ascii.N_of_ascii a) (Ascii.N_of_ascii b)) as [Hab|Hab|Hab];
    destruct (N.compare_spec (Ascii.N_of_ascii b) (Ascii.N_of_ascii c)) as [Hbc|Hbc|Hbc];
    try discriminate; intros H1 H2.
  - rewrite Hab, Hbc, N.compare_refl. eapply IH; eauto.
  - rewrite Hab. now apply N.compare_lt_iff in Hbc as ->.
  - rewrite <- Hbc. now apply N.compare_lt_iff in Hab as ->.
  - assert (Hac : (Ascii.N_of_ascii a < Ascii.N_of_ascii c)%N) by lia.
    now apply N.compare_lt_iff in Hac as ->.
Qed.

Lemma string_leb_trans (s1 s2 s3 : string) :
  String.leb s1 s2 = true -> String.leb s2 s3 = true -> String.leb s1 s3 = true.
Proof.
  unfold String.leb.
  destruct (String.compare s1 s2) eqn:E12; try discriminate;
    destruct (String.compare s2 s3) eqn:E23; try discriminate; intros _ _.
  - apply String.compare_eq_iff in E12, E23. subst. now rewrite string_compare_refl.
  - apply String.compare_eq_iff in E12. subst. now rewrite E23.
  - apply String.compare_eq_iff in E23. subst. now rewrite E12.
  - now rewrite (string_compare_lt_trans _ _ _ E12 E23).
Qed.

Lemma string_ltb_leb (s1 s2 : string) : String.ltb s1 s2 = true -> String.leb s1 s2 = true.
Proof.
  unfold String.ltb, String.leb. now destruct (String.compare s1 s2).
Qed.

Lemma string_nltb_leb (s1 s2 : string) : String.ltb s1 s2 = false -> String.leb s2 s1 = true.
Proof.
  unfold String.ltb, String.leb. rewrite (String.compare_antisym s2 s1).
  now destruct (String.compare s1 s2).
Qed.

Section SortingAscendingFacts.
Context {A : Type}.
Variable lt : A -> A -> bool.
Variable le : A -> A -> Prop.
Hypothesis lt_le : forall x y, lt x y = true -> le x y.
Hypothesis nlt_le : forall x y, lt x y = false -> le y x.
Hypothesis le_trans : forall x y z, le x y -> le y z -> le x z.

Lemma insert_asc_perm (x : A) (l : list A) : Permutation (insert_asc lt x l) (x :: l).
Proof.
  induction l as [|y l IH]; simpl; [apply Permutation_refl|].
  destruct (lt y x); [|apply Permutation_refl].
  eapply Permutation_trans; [apply perm_skip, IH | apply perm_swap].
Qed.

Lemma sorted_asc_perm (l : list A) : Permutation (sorted_asc lt l) l.
Proof.
  induction l as [|x l IH]; simpl; [apply perm_nil|].
  eapply Permutation_trans; [apply insert_asc_perm | apply perm_skip, IH].
Qed.

Lemma insert_asc_sorted (x : A) (l : list A) :
  StronglySorted le l -> StronglySorted le (insert_asc lt x l).
Proof.
  induction 1 as [|y l Hs IH Hall]; simpl.
  - constructor; constructor.
  - destruct (lt y x) eqn:E.
    + constructor; [exact IH|].
      eapply Permutation_Forall; [apply Permutation_sym, insert_asc_perm|].
      constructor; [now apply lt_le | exact Hall].
    + apply nlt_le in E. constructor; [now constructor|].
      constructor; [exact E|].
      eapply Forall_impl; [|exact Hall]. intros z Hz. eapply le_trans; eauto.
Qed.

Lemma sorted_asc_sorted (l : list A) : StronglySorted le (sorted_asc lt l).
Proof.
  induction l as [|x l IH]; simpl; [constructor | now apply insert_asc_sorted].
Qed.

(** Among the elements [p] selects, when [lt] never holds between two of
    them, the order is the original one. *)
Lemma sorted_asc_stable (p : A -> bool) (l : list A) :
  (forall x y, p x = true -> p y = true -> lt x y = false) ->
  filter p (sorted_asc lt l) = filter p l.
Proof.
  intro Hp.
  assert (Hins : forall x l0, filter p (insert_asc lt x l0) = filter p (x :: l0)).
  { intros x l0. induction l0 as [|y l0 IH]; [reflexivity|].
    cbn [insert_asc]. destruct (lt y x) eqn:E; [|reflexivity].
    cbn [filter] in *. rewrite IH.
    destruct (p y) eqn:Ey, (p x) eqn:Ex; try reflexivity.
    rewrite (Hp y x Ey Ex) in E. discriminate. }
  induction l as [|x l IH]; [reflexivity|].
  cbn [sorted_asc fold_right]. rewrite Hins. cbn [filter].
  fold (sorted_asc lt l). now rewrite IH.
Qed.
End SortingAscendingFacts.

Lemma find_hd_filter {A : Type} (p : A -> bool) (l : list A) :
  find p l = hd_error (filter p l).
Proof.
  induction l as [|x l IH]; simpl; [reflexivity|].
  destruct (p x); [reflexivity | exact IH].
Qed.

(** X23. The plant written for a farm without a delivery is its nearest one:
    no distance of the farm is smaller, and among equally near plants it is
    the first in the order of the plant registry; only a farm without any
    distance has none (the IndexError of the script). *)
Theorem closest_stp_nearest (farm : Farm) :
  match closest_stp farm with
  | Some k =>
      exists d,
        In (k, d) (distances farm) /\
        (forall k' d', In (k', d') (distances farm) -> d <= d') /\
        find (fun e => Qeq_bool (snd e) d) (distances farm) = Some (k, d)
  | None => distances farm = []
  end.
Proof.
  unfold closest_stp.
  set (lt := fun a b : string * Q => Qltb (snd a) (snd b)).
  pose proof (sorted_asc_perm lt (distances farm)) as Hperm.
  pose proof (sorted_asc_sorted lt (fun a b => snd a <= snd b)) as Hsorted.
  specialize (Hsorted
    (fun x y H => Qlt_le_weak _ _ (proj1 (Qltb_lt _ _) H))
    (fun x y H => proj1 (Qltb_ge _ _) H)
    (fun x y z H1 H2 => Qle_trans _ _ _ H1 H2) (distances farm)).
  destruct (sorted_asc lt (distances farm)) as [|[k d] rest] eqn:Es.
  - now apply Permutation_nil in Hperm.
  - exists d. inversion Hsorted as [|? ? _ Hall]; subst.
    split; [eapply Permutation_in; [exact Hperm | now left]|]. split.
    + intros k' d' Hin. apply (Permutation_in _ (Permutation_sym Hperm)) in Hin.
      destruct Hin as [Heq | Hin]; [injection Heq as _ <-; lra|].
      rewrite Forall_forall in Hall. exact (Hall _ Hin).
    + rewrite find_hd_filter.
      rewrite <- (sorted_asc_stable lt (fun e => Qeq_bool (snd e) d) (distances farm)).
      * rewrite Es. cbn [filter snd].
        assert (Qeq_bool d d = true) as -> by (apply Qeq_bool_iff; reflexivity).
        reflexivity.
      * intros x y Hx Hy. apply Qeq_bool_iff in Hx, Hy. apply Qltb_ge. lra.
Qed.

Lemma solution_row_keys (m : pair_dict (string * Q)) (c f d : string) :
  out_farm_id (solution_row m c f d) = f /\ out_date (solution_row m c f d) = d.
Proof.
  unfold solution_row. destruct (pair_get m (d, f)) as [[s a]|]; split; reflexivity.
Qed.

(** The rows of the table, farm by farm and date by date. *)
Lemma all_rows_grid (dm : DataManager) (closest : dict string)
    (m : pair_dict (string * Q)) (all_dates : list string) :
  let ids := sorted_asc String.ltb (keys (farms dm)) in
  map (fun r => (out_farm_id r, out_date r)) (all_rows dm closest m all_dates)
    = list_prod ids all_dates /\
  List.length (all_rows dm closest m all_dates)
    = (List.length (farms dm) * List.length all_dates)%nat /\
  Permutation ids (keys (farms dm)) /\
  StronglySorted (fun a b => String.leb a b = true) ids.
Proof.
  cbv zeta. unfold all_rows.
  pose proof (sorted_asc_perm String.ltb (keys (farms dm))) as Hperm.
  set (ids := sorted_asc String.ltb (keys (farms dm))) in *.
  assert (Hmap : map (fun r => (out_farm_id r, out_date r))
                   (flat_map
                      (fun farm_id =>
                         map (solution_row m
                                (dict_get_default closest farm_id "STP_TVM"%string)
                                farm_id) all_dates) ids)
                 = list_prod ids all_dates).
  { clear Hperm. induction ids as [|f ids IH]; [reflexivity|].
    cbn [flat_map list_prod]. rewrite map_app, IH. f_equal.
    rewrite map_map. apply map_ext. intro d.
    destruct (solution_row_keys m (dict_get_default closest f "STP_TVM"%string) f d)
      as [-> ->]. reflexivity. }
  split; [exact Hmap|]. split; [|split; [exact Hperm|]].
  - rewrite <- (length_map (fun r => (out_farm_id r, out_date r))), Hmap, length_prod.
    f_equal. rewrite (Permutation_length Hperm). unfold keys. apply length_map.
  - apply (sorted_asc_sorted String.ltb (fun a b => String.leb a b = true)).
    + apply string_ltb_leb.
    + apply string_nltb_leb.
    + apply string_leb_trans.
Qed.

Lemma pair_eqb_refl (k : string * string) : pair_eqb k k = true.
Proof. unfold pair_eqb. now rewrite !String.eqb_refl. Qed.

Lemma pair_eqb_eq (k k' : string * string) : pair_eqb k k' = true <-> k = k'.
Proof.
  unfold pair_eqb. destruct k, k'. cbn [fst snd].
  rewrite andb_true_iff, !String.eqb_eq. split; [intros [-> ->] | intro H; inversion H]; auto.
Qed.

Lemma pair_get_set {V : Type} (d : pair_dict V) (k k0 : string * string) (v : V) :
  pair_get (pair_set d k v) k0 = if pair_eqb k k0 then Some v else pair_get d k0.
Proof.
  induction d as [|[k' v'] d IH]; simpl; [reflexivity|].
  destruct (pair_eqb k' k) eqn:E; simpl.
  - apply pair_eqb_eq in E. subst k'. now destruct (pair_eqb k k0).
  - rewrite IH. destruct (pair_eqb k' k0) eqn:E0; [|reflexivity].
    destruct (pair_eqb k k0) eqn:E1; [|reflexivity].
    apply pair_eqb_eq in E0, E1. subst. rewrite pair_eqb_refl in E. discriminate.
Qed.

(** The inner loop of lines 66-68 for the plan of one date. *)
Lemma action_map_plan (date d f : string) (plan : list Action) :
  forall m,
    pair_get
      (fold_left
         (fun m action =>
            pair_set m (date, farm_id action) (stp_id action, amount_tons action))
         plan m)
      (d, f)
    = if String.eqb date d
      then match last_action_for f plan with
           | Some a => Some (stp_id a, amount_tons a)
           | None => pair_get m (d, f)
           end
      else pair_get m (d, f).
Proof.
  unfold last_action_for.
  induction plan as [|a plan IH]; intro m; cbn [fold_left rev].
  - cbn [find]. now destruct (String.eqb date d).
  - rewrite IH, find_app, pair_get_set. unfold pair_eqb. cbn [fst snd find].
    destruct (String.eqb date d); [|reflexivity]. cbn [andb].
    destruct (find _ (rev plan)); [reflexivity|].
    now destruct (String.eqb (farm_id a) f).
Qed.

Lemma dict_get_not_key {V : Type} (d : dict V) (k : string) :
  ~ In k (keys d) -> dict_get d k = None.
Proof.
  intro H. destruct (dict_get d k) eqn:E; [|reflexivity].
  exfalso. apply H. apply dict_get_In in E. unfold keys.
  change k with (fst (k, v)). now apply in_map.
Qed.

(** Looking a date and a farm up in the action map. *)
Lemma action_map_get (daily_actions : dict (list Action)) (d f : string) :
  NoDup (keys daily_actions) ->
  pair_get (action_map daily_actions) (d, f) =
    match dict_get daily_actions d with
    | Some plan =>
        match last_action_for f plan with
        | Some a => Some (stp_id a, amount_tons a)
        | None => None
        end
    | None => None
    end.
Proof.
  unfold action_map.
  assert (H : forall m, NoDup (keys daily_actions) ->
    pair_get
      (fold_left
         (fun m item =>
            fold_left
              (fun m action =>
                 pair_set m (fst item, farm_id action) (stp_id action, amount_tons action))
              (snd item) m)
         daily_actions m) (d, f)
    = match dict_get daily_actions d with
      | Some plan =>
          match last_action_for f plan with
          | Some a => Some (stp_id a, amount_tons a)
          | None => pair_get m (d, f)
          end
      | None => pair_get m (d, f)
      end).
  { induction daily_actions as [|[d0 plan0] rest IH]; intros m Hnd; [reflexivity|].
    unfold keys in Hnd. cbn [map fst] in Hnd. apply NoDup_cons_iff in Hnd.
    destruct Hnd as [Hni Hnd]. cbn [fold_left fst snd dict_get].
    rewrite (IH _ Hnd), action_map_plan.
    destruct (String.eqb d0 d) eqn:E.
    - apply String.eqb_eq in E. subst d0.
      now rewrite (dict_get_not_key rest d Hni).
    - reflexivity. }
  intro Hnd. rewrite (H [] Hnd).
  destruct (dict_get daily_actions d) as [plan|]; [|reflexivity].
  now destruct (last_action_for f plan).
Qed.

Lemma filter_eqb_NoDup (d : string) (dates : list string) :
  NoDup dates -> In d dates -> filter (fun d' => String.eqb d' d) dates = [d].
Proof.
  induction dates as [|d0 dates IH]; intros Hnd Hin; [contradiction|].
  apply NoDup_cons_iff in Hnd. destruct Hnd as [Hni Hnd]. cbn [filter].
  destruct (String.eqb d0 d) eqn:E.
  - apply String.eqb_eq in E. subst d0. f_equal.
    clear -Hni. induction dates as [|d1 dates IH]; [reflexivity|]. cbn [filter].
    destruct (String.eqb d1 d) eqn:E.
    + apply String.eqb_eq in E. subst. exfalso. apply Hni. now left.
    + apply IH. intro H. apply Hni. now right.
  - destruct Hin as [-> | Hin]; [rewrite String.eqb_refl in E; discriminate|].
    now apply IH.
Qed.

Lemma tons_to_all_farms (ks : list string) (actions : list Action) :
  NoDup ks -> Forall (fun a => In (farm_id a) ks) actions ->
  Qsum (map (fun k => tons_to k actions) ks) == total_tons actions.
Proof.
  intros Hnd. induction 1 as [|a l Ha _ IH].
  - unfold total_tons. cbn [map]. rewrite Qsum_nil.
    clear. induction ks as [|k ks IH]; cbn [map]; [reflexivity|].
    rewrite Qsum_cons, IH. unfold tons_to. cbn [filter map]. rewrite Qsum_nil. lra.
  - unfold total_tons in *. cbn [map]. rewrite Qsum_cons, <- IH.
    rewrite (Qsum_map_ext _ (fun k => (if String.eqb (farm_id a) k then amount_tons a else 0)
                                      + tons_to k l))
      by (intro k; apply tons_to_cons).
    rewrite Qsum_map_plus, (Qsum_indicator _ _ _ Hnd Ha). reflexivity.
Qed.

Lemma last_action_tons (f : string) (plan : list Action) :
  NoDup (map farm_id plan) ->
  match last_action_for f plan with
  | Some a => amount_tons a
  | None => 0
  end == tons_to f plan.
Proof.
  unfold last_action_for.
  induction plan as [|a plan IH]; intro Hnd.
  - unfold tons_to. cbn [rev find filter map]. rewrite Qsum_nil. reflexivity.
  - cbn [map] in Hnd. apply NoDup_cons_iff in Hnd. destruct Hnd as [Hni Hnd].
    cbn [rev]. rewrite find_app, tons_to_cons. cbn [find].
    destruct (String.eqb (farm_id a) f) eqn:E.
    + apply String.eqb_eq in E. subst f.
      assert (Hnone : find (fun a0 => String.eqb (farm_id a0) (farm_id a)) (rev plan)
                      = None).
      { destruct (find _ (rev plan)) as [x|] eqn:Ef; [|reflexivity].
        apply find_some in Ef. destruct Ef as [Hin Heq].
        apply String.eqb_eq in Heq. apply in_rev in Hin.
        exfalso. apply Hni. rewrite <- Heq. now apply in_map. }
      specialize (IH Hnd). rewrite Hnone in IH |- *. lra.
    + specialize (IH Hnd). destruct (find _ (rev plan)); lra.
Qed.

(** The tons the table reports on one date. *)
Lemma rows_tons_of_day (dm : DataManager) (closest : dict string)
    (daily_actions : dict (list Action)) (all_dates : list string) (d : string) :
  NoDup all_dates -> In d all_dates ->
  NoDup (keys (farms dm)) -> NoDup (keys daily_actions) ->
  match dict_get daily_actions d with
  | Some plan =>
      NoDup (map farm_id plan) ->
      Forall (fun a => In (farm_id a) (keys (farms dm))) plan ->
      table_tons_on d (all_rows dm closest (action_map daily_actions) all_dates)
        == total_tons plan
  | None =>
      table_tons_on d (all_rows dm closest (action_map daily_actions) all_dates) == 0
  end.
Proof.
  intros Hdates Hd Hfarms Hdaily.
  assert (Hrows : forall tons : string -> Q,
            (forall f, match pair_get (action_map daily_actions) (d, f) with
                       | Some (_, amount) => amount
                       | None => 0
                       end = tons f) ->
            table_tons_on d (all_rows dm closest (action_map daily_actions) all_dates)
            == Qsum (map tons (sorted_asc String.ltb (keys (farms dm))))).
  { intros tons Ht. unfold table_tons_on, all_rows.
    induction (sorted_asc String.ltb (keys (farms dm))) as [|f ids IH];
      [reflexivity|].
    cbn [flat_map map]. rewrite filter_app, map_app, Qsum_app, IH, Qsum_cons.
    assert (Hf : filter (fun r => String.eqb (out_date r) d)
                   (map (solution_row (action_map daily_actions)
                           (dict_get_default closest f "STP_TVM"%string) f) all_dates)
                 = [solution_row (action_map daily_actions)
                      (dict_get_default closest f "STP_TVM"%string) f d]).
    { assert (Hl : forall l,
                filter (fun r => String.eqb (out_date r) d)
                  (map (solution_row (action_map daily_actions)
                          (dict_get_default closest f "STP_TVM"%string) f) l)
                = map (solution_row (action_map daily_actions)
                         (dict_get_default closest f "STP_TVM"%string) f)
                    (filter (fun d' => String.eqb d' d) l)).
      { induction l as [|d0 l IHl]; [reflexivity|]. cbn [map filter].
        rewrite (proj2 (solution_row_keys _ _ f d0)).
        destruct (String.eqb d0 d); cbn [map]; now rewrite IHl. }
      now rewrite Hl, (filter_eqb_NoDup d all_dates Hdates Hd). }
    rewrite Hf. cbn [map]. rewrite Qsum_cons, Qsum_nil, <- (Ht f).
    unfold solution_row.
    destruct (pair_get (action_map daily_actions) (d, f)) as [[s a]|];
      cbn [out_tons]; lra. }
  pose proof (sorted_asc_perm String.ltb (keys (farms dm))) as Hperm.
  destruct (dict_get daily_actions d) as [plan|] eqn:Eg.
  - intros Hnd Hall.
    rewrite (Hrows (fun f => match last_action_for f plan with
                             | Some a => amount_tons a
                             | None => 0
                             end)).
    + rewrite (Qsum_map_ext _ (fun f => tons_to f plan))
        by (intro f; now apply last_action_tons).
      apply tons_to_all_farms.
      * eapply Permutation_NoDup; [apply Permutation_sym, Hperm | exact Hfarms].
      * eapply Forall_impl; [|exact Hall]. intros a Ha.
        eapply Permutation_in; [apply Permutation_sym, Hperm | exact Ha].
    + intro f. rewrite (action_map_get _ d f Hdaily), Eg.
      now destruct (last_action_for f plan).
  - rewrite (Hrows (fun _ => 0)).
    + clear. induction (sorted_asc String.ltb (keys (farms dm))); cbn [map];
        [reflexivity | rewrite Qsum_cons, IHl; lra].
    + intro f. now rewrite (action_map_get _ d f Hdaily), Eg.
Qed.

(** X24. The table has one row for every farm of the registry and every date
    of the calendar, and no other: the farms in ascending order of their ids,
    and for each farm the dates in calendar order. *)
Theorem all_rows_layout (dm : DataManager) (closest : dict string)
    (m : pair_dict (string * Q)) (all_dates : list string) :
  let ids := sorted_asc String.ltb (keys (farms dm)) in
  map (fun r => (out_farm_id r, out_date r)) (all_rows dm closest m all_dates)
    = list_prod ids all_dates /\
  List.length (all_rows dm closest m all_dates)
    = (List.length (farms dm) * List.length all_dates)%nat /\
  Permutation ids (keys (farms dm)) /\
  StronglySorted (fun a b => String.leb a b = true) ids.
Proof. exact (all_rows_grid dm closest m all_dates). Qed.

(** X25. What the table keeps of the recorded plans: for a date and a farm,
    the plant and the tons of the last action of that date's plan for the
    farm, and nothing when the date has no plan or the plan no such action. *)
Theorem action_map_lookup (daily_actions : dict (list Action)) (d f : string) :
  NoDup (keys daily_actions) ->
  pair_get (action_map daily_actions) (d, f) =
    match dict_get daily_actions d with
    | Some plan =>
        match last_action_for f plan with
        | Some a => Some (stp_id a, amount_tons a)
        | None => None
        end
    | None => None
    end.
Proof. exact (action_map_get daily_actions d f). Qed.

(** X26. The table accounts for every planned ton once: on a date of the
    calendar whose recorded plan names registered farms, none of them twice,
    the tons of the rows of that date add up to the tons of the plan; a date
    without a recorded plan has only rows of 0 tons. *)
Theorem all_rows_tons_of_day (dm : DataManager) (closest : dict string)
    (daily_actions : dict (list Action)) (all_dates : list string) (d : string) :
  NoDup all_dates -> In d all_dates ->
  NoDup (keys (farms dm)) -> NoDup (keys daily_actions) ->
  match dict_get daily_actions d with
  | Some plan =>
      NoDup (map farm_id plan) ->
      Forall (fun a => In (farm_id a) (keys (farms dm))) plan ->
      table_tons_on d (all_rows dm closest (action_map daily_actions) all_dates)
        == total_tons plan
  | None =>
      table_tons_on d (all_rows dm closest (action_map daily_actions) all_dates) == 0
  end.
Proof. exact (rows_tons_of_day dm closest daily_actions all_dates d). Qed.

Lemma dict_set_Forall {V : Type} (P : string * V -> Prop) (d : dict V)
    (k : string) (v : V) :
  Forall P d -> P (k, v) -> (forall k' v', P (k', v') -> k' = k -> P (k', v)) ->
  Forall P (dict_set d k v).
Proof.
  intros Hd Hk Hrep. induction Hd as [|[k' v'] d Hi Hd IH]; simpl.
  - constructor; [exact Hk | constructor].
  - destruct (String.eqb k' k) eqn:E; constructor; auto.
    apply String.eqb_eq in E. eapply Hrep; eauto.
Qed.

(** The plans the day loop records. *)
Lemma run_simulation_plans (dates : list string) :
  forall (st r : dict (list Action) * DataManager),
    foldM simulate_day dates st = Ok r ->
    NoDup (keys (farms (snd st))) ->
    NoDup (keys (fst st)) ->
    Forall (fun item => NoDup (map farm_id (snd item)) /\
                        Forall (fun a => In (farm_id a) (keys (farms (snd st))))
                               (snd item)) (fst st) ->
    farms (snd r) = farms (snd st) /\
    NoDup (keys (fst r)) /\
    Forall (fun item => NoDup (map farm_id (snd item)) /\
                        Forall (fun a => In (farm_id a) (keys (farms (snd st))))
                               (snd item)) (fst r).
Proof.
  induction dates as [|d dates IH]; intros st r H Hf Hnd Hall; simpl in H.
  - injection H as <-. auto.
  - bind_inv H. unfold simulate_day in E. do 2 bind_inv E. injection E as <-.
    pose proof (solve_day_inv _ _ _ E0) as (Hacts & Hnodup & _).
    destruct a1 as [res dm1]. apply run_day_frame in E1.
    destruct E1 as (_ & Hfarms & _).
    specialize (IH _ _ H). cbn [fst snd] in IH. rewrite Hfarms in IH.
    apply IH; [exact Hf | now apply dict_set_NoDup |].
    apply dict_set_Forall; [exact Hall | |].
    + cbn [snd]. split; [now apply Hnodup|].
      eapply Forall_impl; [|exact Hacts]. intros act (_ & _ & farm & Hin & _).
      unfold keys. change (farm_id act) with (fst (farm_id act, farm)). now apply in_map.
    + intros k' v' _ _. cbn [snd]. split; [now apply Hnodup|].
      eapply Forall_impl; [|exact Hacts]. intros act (_ & _ & farm & Hin & _).
      unfold keys. change (farm_id act) with (fst (farm_id act, farm)). now apply in_map.
Qed.

Lemma farm_closest_stp_total (items : dict Farm) :
  Forall (fun item => distances (snd item) <> []) items ->
  forall acc, exists closest, farm_closest_stp items acc = Some closest.
Proof.
  induction 1 as [|[fid farm] items Hi _ IH]; intro acc; simpl; [eauto|].
  unfold closest_stp.
  pose proof (sorted_asc_perm (fun a b : string * Q => Qltb (snd a) (snd b))
                (distances farm)) as Hp.
  destruct (sorted_asc _ (distances farm)) as [|[k d] rest].
  - apply Permutation_nil in Hp. cbn [snd] in Hi. contradiction.
  - apply IH.
Qed.

(** X27. In the operating range, with at least one plant, a truck capacity
    other than 0 and a calendar without repeated dates, the script produces
    its table: one row per farm and date, and on every date the tons of the
    rows add up to the tons of the plan the solver made for that date. *)
Theorem solution_table_complete (dm : DataManager) (all_dates : list string) :
  operating_range dm -> stps dm <> [] -> ~ truck_capacity dm == 0 ->
  NoDup all_dates ->
  exists rows r,
    run_simulation dm all_dates = Ok r /\
    solution_table dm all_dates = inl rows /\
    List.length rows = (List.length (farms dm) * List.length all_dates)%nat /\
    forall d, In d all_dates ->
      exists plan,
        dict_get (fst r) d = Some plan /\
        table_tons_on d rows == total_tons plan.
Proof.
  intros Hop Hstps Ht Hdates.
  destruct (run_simulation_total dm all_dates Hop Ht) as [r Hr].
  destruct Hop as ((_ & _ & Hfk) & Hdist & _).
  destruct (farm_closest_stp_total (farms dm)) with (acc := @nil (string * string))
    as [closest Hc].
  { unfold distances_complete in Hdist. eapply Forall_impl; [|exact Hdist].
    intros item Hk Hnil. cbv beta in Hk. rewrite Hnil in Hk. unfold keys in Hk.
    destruct (stps dm); [contradiction | discriminate]. }
  unfold solution_table. rewrite Hc, Hr.
  exists (all_rows (snd r) closest (action_map (fst r)) all_dates), r.
  split; [reflexivity|]. split; [reflexivity|].
  unfold run_simulation in Hr.
  destruct (run_simulation_plans _ _ _ Hr Hfk (NoDup_nil _) (Forall_nil _))
    as (Hfarms & Hnd & Hall).
  cbn [fst snd] in *. split.
  - destruct (all_rows_grid (snd r) closest (action_map (fst r)) all_dates)
      as (_ & -> & _). now rewrite Hfarms.
  - intros d Hd.
    assert (Hkey : In d (keys (fst r))).
    { apply (run_simulation_dates _ _ _ Hr). now right. }
    destruct (dict_get (fst r) d) as [plan|] eqn:Eg;
      [|now apply dict_get_keys in Hkey].
    exists plan. split; [reflexivity|].
    pose proof (rows_tons_of_day (snd r) closest (fst r) all_dates d Hdates Hd) as Hrows.
    rewrite Hfarms, Eg in Hrows. specialize (Hrows Hfk Hnd).
    apply dict_get_In in Eg. rewrite Forall_forall in Hall.
    destruct (Hall _ Eg) as [Hp1 Hp2]. now apply Hrows.
Qed.

(** X28. With an empty plant registry and at least one farm the script stops
    with an IndexError before the first day: a farm without distances has no
    nearest plant. *)
Theorem solution_table_no_plants (h : Q -> Q -> Q -> Q -> Q -> Q) (cfg : Config)
    (farm_df : list FarmRow) (weather n_demand : DataFrame) (all_dates : list string) :
  farm_df <> [] ->
  solution_table (initialize h cfg [] farm_df weather n_demand) all_dates
  = inr IndexError.
Proof.
  intro Hne. unfold solution_table, initialize. cbn [farms initialize_stps fold_left].
  assert (Hall : Forall (fun item : string * Farm => distances (snd item) = [])
                   (initialize_farms h (haversine_earth_radius_km cfg) [] farm_df)).
  { apply Forall_forall. intros [fid farm] Hin. unfold initialize_farms in Hin.
    apply fold_dict_set_In in Hin. destruct Hin as (row & _ & _ & <-). reflexivity. }
  assert (Hnonempty : initialize_farms h (haversine_earth_radius_km cfg) [] farm_df <> []).
  { destruct farm_df as [|row rows]; [contradiction|].
    unfold initialize_farms. cbn [fold_left dict_set].
    apply (fold_dict_set_inv (fun d : dict Farm => d <> []) row_farm_id
             (fun row => mkFarm (row_farm_id row) (row_zone row) (row_area_ha row)
                           (row_farm_lat row) (row_farm_lon row)
                           (initialize_distances h (haversine_earth_radius_km cfg) []
                              (row_farm_lat row) (row_farm_lon row)))).
    - intros d r Hd. destruct d as [|[k v] d]; [contradiction|]. simpl.
      destruct (String.eqb k (row_farm_id r)); discriminate.
    - discriminate. }
  destruct (initialize_farms h (haversine_earth_radius_km cfg) [] farm_df)
    as [|[fid farm] items]; [contradiction|].
  inversion Hall as [|? ? Hd _]; subst. cbn [snd] in Hd.
  cbn [farm_closest_stp]. unfold closest_stp. now rewrite Hd.
Qed.

(** ** The further properties on the example registry *)

Lemma ex_dm_operating_range : operating_range ex_dm.
Proof.
  split; [exact ex_dm_well_formed|]. split; [|split].
  - repeat apply Forall_cons; try apply Forall_nil; reflexivity.
  - repeat apply Forall_cons; try apply Forall_nil; simpl; auto.
  - repeat apply Forall_cons; try apply Forall_nil; intro H; vm_compute in H;
      discriminate.
Qed.

(** The distance of F_001 to STP_A after start-up from the example rows. *)
Lemma initialize_distances_values_witness :
  exists farm stp,
    In ("F_001"%string, farm) (farms ex_dm0) /\
    In ("STP_A"%string, stp) (stps ex_dm0) /\
    dict_get (distances farm) "STP_A" =
      Some (ex_distance (stp_lat stp) (stp_lon stp) (farm_lat farm) (farm_lon farm)
              6371).
Proof.
  eexists _, _.
  split; [vm_compute; right; left; reflexivity|].
  split; [vm_compute; left; reflexivity|].
  apply (initialize_distances_values ex_distance ex_config ex_stp_rows ex_farm_rows
           ex_weather ex_demand "F_001" "STP_A").
  - vm_compute. right. left. reflexivity.
  - vm_compute. left. reflexivity.
Defined.

(** [ex_plan]: 20 tons to F_001 and 4 tons into the locked coast zone. *)
Lemma run_day_emissions_witness :
  exists res dm',
    run_day ex_dm "2025-01-01" ex_plan = Ok (res, dm') /\
    emissions res == Qsum (map (action_emission ex_dm) ex_plan).
Proof.
  eexists _, _. split; [vm_compute; reflexivity|].
  eapply (run_day_emissions ex_dm "2025-01-01" ex_plan). vm_compute. reflexivity.
Defined.

Lemma run_day_delivered_and_banned_witness :
  exists res dm',
    run_day ex_dm "2025-01-01" ex_plan = Ok (res, dm') /\
    banned_actions res = 1%nat /\ delivered_tons res == 20.
Proof.
  eexists _, _. split; [vm_compute; reflexivity|].
  edestruct (run_day_delivered_and_banned ex_dm "2025-01-01" ex_plan) as (Hb & Hd & _).
  - vm_compute. reflexivity.
  - split; [rewrite Hb; vm_compute; reflexivity | rewrite Hd; vm_compute; reflexivity].
Defined.

Lemma run_day_farm_accounting_witness :
  exists res dm' deliveries,
    run_day ex_dm "2025-01-01" ex_plan = Ok (res, dm') /\
    NoDup (keys deliveries) /\
    dict_get_default deliveries "F_001" 0 == 20 /\
    credits res ==
      Qsum (map (farm_credit ex_dm (get_daily_demand_per_ha ex_dm "2025-01-01"))
              deliveries).
Proof.
  eexists _, _.
  match goal with |- exists deliveries, run_day _ _ _ = Ok (?res, ?dm') /\ _ =>
    assert (Hrun : run_day ex_dm "2025-01-01" ex_plan = Ok (res, dm'))
      by (vm_compute; reflexivity)
  end.
  destruct (run_day_farm_accounting _ _ _ _ _ Hrun) as (deliveries & Hnd & _ & Ht & _ & Hc).
  exists deliveries. split; [exact Hrun|]. split; [exact Hnd|].
  split; [rewrite Ht; vm_compute; reflexivity | exact Hc].
Defined.

Lemma run_day_storage_closed_form_witness :
  exists res dm',
    run_day ex_dm "2025-01-01" ex_plan = Ok (res, dm') /\
    Forall2 (fun item item' =>
               fst item' = fst item /\
               current_storage (snd item') ==
                 Qmin (Qmax 0 (current_storage (snd item) + daily_output (snd item)
                               - tons_from (fst item) ex_plan))
                      (max_storage (snd item)))
            (stps ex_dm) (stps dm').
Proof.
  eexists _, _. split; [vm_compute; reflexivity|].
  eapply (run_day_storage_closed_form ex_dm "2025-01-01" ex_plan).
  vm_compute. reflexivity.
Defined.

(** The solver's plan for 2025-01-01 is within every plant's stock. *)
Lemma run_day_mass_balance_witness :
  exists res dm',
    run_day ex_dm "2025-01-01" ex_solved = Ok (res, dm') /\
    Qsum (map current_storage (values (stps dm')))
    + overflow_tons res + total_tons ex_solved
    == Qsum (map current_storage (values (stps ex_dm)))
       + Qsum (map daily_output (values (stps ex_dm))).
Proof.
  eexists _, _. split; [vm_compute; reflexivity|].
  eapply (run_day_mass_balance ex_dm "2025-01-01" ex_solved).
  - apply ex_dm_well_formed.
  - repeat constructor; vm_compute; discriminate.
  - vm_compute. reflexivity.
Defined.

Lemma solved_day_mass_balance_witness :
  exists res dm',
    CorrectedSolver.solve_day ex_dm "2025-01-01" = Ok ex_solved /\
    run_day ex_dm "2025-01-01" ex_solved = Ok (res, dm') /\
    Qsum (map current_storage (values (stps dm')))
    + overflow_tons res + delivered_tons res
    == Qsum (map current_storage (values (stps ex_dm)))
       + Qsum (map daily_output (values (stps ex_dm))).
Proof.
  eexists _, _. split; [vm_compute; reflexivity|].
  split; [vm_compute; reflexivity|].
  eapply (solved_day_mass_balance ex_dm "2025-01-01" ex_solved).
  - apply ex_dm_well_formed.
  - repeat constructor; vm_compute; discriminate.
  - vm_compute. reflexivity.
  - vm_compute. reflexivity.
Defined.

(** Two days from the example rows. *)
Lemma run_simulation_storage_ok_witness :
  exists r,
    run_simulation ex_dm0 ["2025-01-01"; "2025-01-02"]%string = Ok r /\
    storage_ok (snd r).
Proof.
  eexists. split; [vm_compute; reflexivity|].
  eapply (run_simulation_storage_ok ex_distance ex_config ex_stp_rows ex_farm_rows
            ex_weather ex_demand ["2025-01-01"; "2025-01-02"]%string).
  - repeat constructor; vm_compute; discriminate.
  - vm_compute. reflexivity.
Defined.

Lemma solve_day_one_truck_each_witness :
  CorrectedSolver.solve_day ex_dm "2025-01-01" = Ok ex_solved /\
  Forall (fun a => 1 <= amount_tons a <= 10 /\ py_ceil (amount_tons a / 10) = 1)
         ex_solved.
Proof.
  assert (Hs : CorrectedSolver.solve_day ex_dm "2025-01-01" = Ok ex_solved)
    by (vm_compute; reflexivity).
  split; [exact Hs | exact (solve_day_one_truck_each _ _ _ Hs)].
Defined.

Lemma solve_day_plan_size_witness :
  CorrectedSolver.solve_day ex_dm "2025-01-01" = Ok ex_solved /\
  (List.length ex_solved <= List.length (farms ex_dm))%nat.
Proof.
  assert (Hs : CorrectedSolver.solve_day ex_dm "2025-01-01" = Ok ex_solved)
    by (vm_compute; reflexivity).
  split; [exact Hs|].
  apply (solve_day_plan_size ex_dm "2025-01-01" ex_solved); [|exact Hs].
  apply ex_dm_well_formed.
Defined.

(** On 2025-06-15 every zone of [ex_dm_wet] is locked; one of its plants has
    capacity 0. *)
Lemma solve_day_all_locked_witness :
  CorrectedSolver.solve_day ex_dm_wet "2025-06-15" = Ok [].
Proof.
  apply solve_day_all_locked. repeat constructor.
Defined.

Lemma solve_stp_greedy_prefix_witness :
  exists st' opts new k,
    CorrectedSolver.solve_stp ex_dm "2025-01-01"
      (get_daily_demand_per_ha ex_dm "2025-01-01") ([], []) ex_stp_b = Ok st' /\
    CorrectedSolver.delivery_options ex_dm "2025-01-01"
      (get_daily_demand_per_ha ex_dm "2025-01-01") ex_stp_b
      (current_storage ex_stp_b + daily_output ex_stp_b) [] (farms ex_dm) = Ok opts /\
    fst st' = new /\
    map farm_id new
    = map CorrectedSolver.farm_of
        (firstn k (sorted_desc CorrectedSolver.net_benefit_of opts)).
Proof.
  eexists.
  match goal with |- exists opts new k, ?lhs = Ok ?st' /\ _ =>
    assert (Hs : lhs = Ok st') by (vm_compute; reflexivity)
  end.
  assert (Ha : 1 <= current_storage ex_stp_b + daily_output ex_stp_b)
    by (vm_compute; discriminate).
  destruct (solve_stp_greedy_prefix _ _ _ _ _ _ Ha Hs)
    as (opts & new & k & Ho & Hn & Hk & _).
  exists opts, new, k. split; [exact Hs|]. split; [exact Ho|].
  split; [exact Hn | exact Hk].
Defined.

Lemma zero_capacity_walk_raises_witness :
  foldM (CorrectedSolver.solve_stp ex_dm_zero "2025-01-01"
           (get_daily_demand_per_ha ex_dm_zero "2025-01-01"))
        [ex_stp_zero] ([], [])
  = Raise ZeroDivisionError.
Proof.
  eapply (zero_capacity_walk_raises ex_dm_zero "2025-01-01").
  - reflexivity.
  - vm_compute. discriminate.
  - vm_compute. reflexivity.
  - exists "F_002"%string. eexists. split; [left; reflexivity|].
    split; vm_compute; reflexivity.
Defined.

Lemma run_simulation_never_raises_witness :
  exists r,
    run_simulation ex_dm0 ["2025-01-01"; "2025-01-02"]%string = Ok r /\
    forall d, In d (keys (fst r)) <-> In d ["2025-01-01"; "2025-01-02"]%string.
Proof.
  apply (run_simulation_never_raises ex_distance ex_config ex_stp_rows ex_farm_rows
           ex_weather ex_demand).
  - repeat apply Forall_cons; try apply Forall_nil; simpl; auto.
  - repeat apply Forall_cons; try apply Forall_nil; intro H; vm_compute in H;
      discriminate.
  - intro H. vm_compute in H. discriminate.
Defined.

Lemma action_map_lookup_witness :
  pair_get (action_map ex_daily) ("2025-01-01"%string, "F_002"%string)
  = Some ("STP_B"%string, 10).
Proof.
  rewrite (action_map_lookup ex_daily "2025-01-01" "F_002").
  - reflexivity.
  - repeat constructor. simpl. tauto.
Defined.

Lemma all_rows_tons_of_day_witness :
  table_tons_on "2025-01-01"
    (all_rows ex_dm [] (action_map ex_daily) ["2025-01-01"; "2025-01-02"]%string)
  == total_tons ex_solved.
Proof.
  assert (H1 : NoDup ["2025-01-01"; "2025-01-02"]%string)
    by (repeat constructor; simpl; intuition discriminate).
  assert (H2 : NoDup (keys ex_daily)) by (repeat constructor; simpl; tauto).
  assert (H3 : NoDup (keys (farms ex_dm))) by apply ex_dm_well_formed.
  pose proof (all_rows_tons_of_day ex_dm [] ex_daily
                ["2025-01-01"; "2025-01-02"]%string "2025-01-01" H1
                (or_introl eq_refl) H3 H2) as H.
  change (dict_get ex_daily "2025-01-01") with (Some ex_solved) in H.
  apply H.
  - repeat constructor; simpl; intuition discriminate.
  - repeat apply Forall_cons; try apply Forall_nil; simpl; auto.
Defined.

Lemma solution_table_complete_witness :
  exists rows r,
    run_simulation ex_dm ["2025-01-01"; "2025-01-02"]%string = Ok r /\
    solution_table ex_dm ["2025-01-01"; "2025-01-02"]%string = inl rows /\
    List.length rows = 8%nat /\
    forall d, In d ["2025-01-01"; "2025-01-02"]%string ->
      exists plan,
        dict_get (fst r) d = Some plan /\ table_tons_on d rows == total_tons plan.
Proof.
  apply (solution_table_complete ex_dm ["2025-01-01"; "2025-01-02"]%string).
  - exact ex_dm_operating_range.
  - discriminate.
  - intro H. vm_compute in H. discriminate.
  - repeat constructor; simpl; intuition discriminate.
Defined.

Lemma solution_table_no_plants_witness :
  solution_table (initialize ex_distance ex_config [] ex_farm_rows ex_weather ex_demand)
    ["2025-01-01"]%string
  = inr IndexError.
Proof.
  apply solution_table_no_plants. discriminate.
Defined.
